(** * HR_PROJECT: the RBAC backend (hr_backend/src), embedded in Rocq

    The development follows the layout of the Python sources:

    - [src/models/user.py]: the SQLAlchemy models [User], [Role],
      [Permission], the two association tables, and the methods
      [has_permission] and [get_permissions];
    - [src/routes/user.py] and [src/routes/role.py]: the decorator
      [require_permission] and the route handlers behind it;
    - [src/routes/auth.py]: [login], [forgot_password], [reset_password]
      and the two process-wide stores [reset_tokens] and
      [blacklisted_tokens].

    A Flask view returns a pair [(jsonify(body), status)]; the embedding
    of a view is a function from the state of the process (database
    tables and in-memory stores) to that pair and the state it leaves
    behind.  What a view takes from outside the process is an argument
    of the function: the body of the request, the identity in the
    verified token, the readings of the clock.  The libraries the views
    call (flask_bcrypt, flask_jwt_extended, SQLite) are type classes,
    and a call that can raise returns a sum. *)

From stdpp Require Import gmap strings list fin_maps pretty.

Set Warnings "-register-all,-clear-no-such-hyp".
Local Open Scope string_scope.

(** ** JSON values, as built by [jsonify] *)

Inductive json : Type :=
  | JNull
  | JBool (b : bool)
  | JNum (z : Z)
  | JStr (s : string)
  | JArr (items : list json)
  | JObj (fields : list (string * json)).

(** A view's result: the JSON body and the HTTP status code. *)
Definition Response : Type := json * Z.

Definition status (r : Response) : Z := r.2.
Definition body (r : Response) : json := r.1.

(** [{'error': msg}] and [{'message': msg}] *)
Definition error_body (msg : string) : json := JObj [("error", JStr msg)].
Definition message_body (msg : string) : json := JObj [("message", JStr msg)].

(** Field access in a JSON object; [None] when the key is absent or the
    value is not an object. *)
Fixpoint assoc_get (key : string) (fields : list (string * json)) : option json :=
  match fields with
  | [] => None
  | (k, v) :: rest => if bool_decide (k = key) then Some v else assoc_get key rest
  end.

Definition json_get (key : string) (j : json) : option json :=
  match j with
  | JObj fields => assoc_get key fields
  | _ => None
  end.

(** ** src/models/user.py *)

(** The ORM objects.  A loaded [Role] carries the list behind its
    [permissions] relationship, a loaded [User] the list behind [roles].
    A [datetime] is kept as the text its [isoformat()] prints; the two
    timestamp columns are nullable, [None] being SQL NULL. *)

Module Permission.
Record t : Type := mk {
  id : Z;
  name : string;
  description : string
}.
End Permission.

Module Role.
Record t : Type := mk {
  id : Z;
  name : string;
  description : string;
  permissions : list Permission.t
}.
End Role.

Module User.
Record t : Type := mk {
  id : Z;
  username : string;
  email : string;
  password : string;
  first_name : string;
  last_name : string;
  is_active : bool;
  created_at : option string;
  updated_at : option string;
  roles : list Role.t
}.
End User.

(** [User.has_permission]: the two nested loops, each returning [True]
    at the first permission whose name matches. *)
Fixpoint permissions_have (permissions : list Permission.t)
    (permission_name : string) : bool :=
  match permissions with
  | [] => false
  | permission :: rest =>
      if bool_decide (Permission.name permission = permission_name) then true
      else permissions_have rest permission_name
  end.

Fixpoint roles_have (roles : list Role.t) (permission_name : string) : bool :=
  match roles with
  | [] => false
  | role :: rest =>
      if permissions_have (Role.permissions role) permission_name then true
      else roles_have rest permission_name
  end.

Definition has_permission (self : User.t) (permission_name : string) : bool :=
  roles_have (User.roles self) permission_name.

(** [User.get_permissions]: a Python [set] filled by the same two loops.
    The source returns [list(permissions)]; the set is kept here, the
    order of that list being unspecified. *)
Fixpoint add_permission_names (permissions : list Permission.t)
    (acc : gset string) : gset string :=
  match permissions with
  | [] => acc
  | permission :: rest =>
      add_permission_names rest ({[ Permission.name permission ]} ∪ acc)
  end.

Fixpoint add_role_permissions (roles : list Role.t) (acc : gset string)
    : gset string :=
  match roles with
  | [] => acc
  | role :: rest =>
      add_role_permissions rest (add_permission_names (Role.permissions role) acc)
  end.

Definition get_permissions (self : User.t) : gset string :=
  add_role_permissions (User.roles self) ∅.

(** [d.isoformat() if d else None] *)
Definition isoformat_or_None (d : option string) : json :=
  match d with
  | Some text => JStr text
  | None => JNull
  end.

(** [Permission.to_dict], [Role.to_dict], [User.to_dict] *)
Definition Permission_to_dict (self : Permission.t) : json :=
  JObj [("id", JNum (Permission.id self));
        ("name", JStr (Permission.name self));
        ("description", JStr (Permission.description self))].

Definition Role_to_dict (self : Role.t) (include_permissions : bool) : json :=
  JObj ([("id", JNum (Role.id self));
         ("name", JStr (Role.name self));
         ("description", JStr (Role.description self))]
        ++ (if include_permissions
            then [("permissions", JArr (Permission_to_dict <$> Role.permissions self))]
            else [])).

Definition User_to_dict (self : User.t) (include_roles : bool) : json :=
  JObj ([("id", JNum (User.id self));
         ("username", JStr (User.username self));
         ("email", JStr (User.email self));
         ("first_name", JStr (User.first_name self));
         ("last_name", JStr (User.last_name self));
         ("is_active", JBool (User.is_active self));
         ("created_at", isoformat_or_None (User.created_at self));
         ("updated_at", isoformat_or_None (User.updated_at self))]
        ++ (if include_roles
            then [("roles", JArr ((λ role, Role_to_dict role false) <$> User.roles self));
                  ("permissions", JArr (JStr <$> elements (get_permissions self)))]
            else [])).

(** ** The state of the process

    The five tables of [src/models/user.py] and the two module-level
    stores of [src/routes/auth.py].  A table maps the primary key [id]
    to the remaining columns; an association table is the set of its
    (composite primary key) pairs, its [created_at] column, which
    nothing reads, being left out. *)

Record user_row : Type := mk_user_row {
  col_username : string;
  col_email : string;
  col_password : string;
  col_first_name : string;
  col_last_name : string;
  col_is_active : bool;
  col_created_at : option string;
  col_updated_at : option string
}.

#[global] Instance user_row_eq_dec : EqDecision user_row.
Proof. solve_decision. Defined.

Record role_row : Type := mk_role_row {
  col_role_name : string;
  col_role_description : string
}.

Record permission_row : Type := mk_permission_row {
  col_permission_name : string;
  col_permission_description : string
}.

Record State : Type := mk_State {
  user_table : gmap Z user_row;
  role_table : gmap Z role_row;
  permission_table : gmap Z permission_row;
  user_roles : gset (Z * Z);          (* (user_id, role_id) *)
  role_permissions : gset (Z * Z);    (* (role_id, permission_id) *)
  reset_tokens : gmap string Z;       (* token -> user.id *)
  blacklisted_tokens : gset string    (* jti of logged-out tokens *)
}.

Definition set_user_table (f : gmap Z user_row → gmap Z user_row) (st : State) : State :=
  mk_State (f (user_table st)) (role_table st) (permission_table st)
           (user_roles st) (role_permissions st)
           (reset_tokens st) (blacklisted_tokens st).

Definition set_role_table (f : gmap Z role_row → gmap Z role_row) (st : State) : State :=
  mk_State (user_table st) (f (role_table st)) (permission_table st)
           (user_roles st) (role_permissions st)
           (reset_tokens st) (blacklisted_tokens st).

Definition set_permission_table (f : gmap Z permission_row → gmap Z permission_row)
    (st : State) : State :=
  mk_State (user_table st) (role_table st) (f (permission_table st))
           (user_roles st) (role_permissions st)
           (reset_tokens st) (blacklisted_tokens st).

Definition set_user_roles (f : gset (Z * Z) → gset (Z * Z)) (st : State) : State :=
  mk_State (user_table st) (role_table st) (permission_table st)
           (f (user_roles st)) (role_permissions st)
           (reset_tokens st) (blacklisted_tokens st).

Definition set_role_permissions (f : gset (Z * Z) → gset (Z * Z)) (st : State) : State :=
  mk_State (user_table st) (role_table st) (permission_table st)
           (user_roles st) (f (role_permissions st))
           (reset_tokens st) (blacklisted_tokens st).

Definition set_reset_tokens (f : gmap string Z → gmap string Z) (st : State) : State :=
  mk_State (user_table st) (role_table st) (permission_table st)
           (user_roles st) (role_permissions st)
           (f (reset_tokens st)) (blacklisted_tokens st).

Definition set_blacklisted_tokens (f : gset string → gset string) (st : State) : State :=
  mk_State (user_table st) (role_table st) (permission_table st)
           (user_roles st) (role_permissions st)
           (reset_tokens st) (f (blacklisted_tokens st)).

(** *** Loading objects: [Model.query.get] and the relationships *)

(** The right-hand keys an association table pairs with [k], and the
    left-hand keys it pairs with [k] (the [backref] direction). *)
Definition related (assoc : gset (Z * Z)) (k : Z) : list Z :=
  (elements (filter (λ p, p.1 = k) assoc)).*2.

Definition related_back (assoc : gset (Z * Z)) (k : Z) : list Z :=
  (elements (filter (λ p, p.2 = k) assoc)).*1.

Definition Permission_query_get (st : State) (permission_id : Z) : option Permission.t :=
  (λ row, Permission.mk permission_id (col_permission_name row)
                        (col_permission_description row))
    <$> permission_table st !! permission_id.

(** [role.permissions]: the join of [role_permissions] with [permission]. *)
Definition Role_permissions (st : State) (role_id : Z) : list Permission.t :=
  omap (Permission_query_get st) (related (role_permissions st) role_id).

Definition Role_query_get (st : State) (role_id : Z) : option Role.t :=
  (λ row, Role.mk role_id (col_role_name row) (col_role_description row)
                  (Role_permissions st role_id))
    <$> role_table st !! role_id.

(** [user.roles]: the join of [user_roles] with [role]. *)
Definition User_roles (st : State) (user_id : Z) : list Role.t :=
  omap (Role_query_get st) (related (user_roles st) user_id).

Definition User_query_get (st : State) (user_id : Z) : option User.t :=
  (λ row, User.mk user_id (col_username row) (col_email row) (col_password row)
                  (col_first_name row) (col_last_name row) (col_is_active row)
                  (col_created_at row) (col_updated_at row)
                  (User_roles st user_id))
    <$> user_table st !! user_id.

(** The backrefs [role.users] and [permission.roles]. *)
Definition Role_users (st : State) (role_id : Z) : list User.t :=
  omap (User_query_get st) (related_back (user_roles st) role_id).

Definition Permission_roles (st : State) (permission_id : Z) : list Role.t :=
  omap (Role_query_get st) (related_back (role_permissions st) permission_id).

(** [x in xs] on loaded objects: the session holds one object per
    primary key, so membership is membership of the key. *)
Definition role_in (role : Role.t) (roles : list Role.t) : bool :=
  bool_decide (Role.id role ∈ Role.id <$> roles).

Definition permission_in (permission : Permission.t)
    (permissions : list Permission.t) : bool :=
  bool_decide (Permission.id permission ∈ Permission.id <$> permissions).

(** [Model.query.filter(...).first()] for a filter that fixes one
    column: the matching row of least [id].  The columns the views
    filter on are declared [unique=True], so the database holds at most
    one matching row. *)
Definition least_id {A : Type} (rows : list (Z * A)) : option (Z * A) :=
  foldr (λ x acc,
           match acc with
           | None => Some x
           | Some y => if bool_decide (x.1 ≤ y.1)%Z then Some x else Some y
           end) None rows.

Definition query_first {A : Type} (P : Z → A → bool) (table : gmap Z A)
    : option (Z * A) :=
  least_id (filter (λ kv, P kv.1 kv.2 = true) (map_to_list table)).

(** *** Exceptions

    A call that can raise returns a sum: [inl msg] is an exception [e]
    with [str(e) = msg], [inr v] the value returned. *)

(** SQLite, as far as the queries depend on how the library was built. *)
Class Sqlite : Type := {
  (* SQLITE_MAX_VARIABLE_NUMBER: how many [?] a statement may bind (999
     before SQLite 3.32, 32766 since) *)
  max_variable_number : Z;
  (* [str(e)] of the OperationalError "too many SQL variables" for an
     IN list; the text quotes the statement and its parameters *)
  str_too_many_variables : list Z → string
}.

(** An INTEGER of SQLite is a 64-bit signed integer.  Binding a Python
    [int] outside that range raises OverflowError. *)
Definition sqlite_int (z : Z) : bool :=
  bool_decide (- 2 ^ 63 ≤ z < 2 ^ 63)%Z.

Definition str_OverflowError : string :=
  "Python int too large to convert to SQLite INTEGER".

(** The ids of an IN list that SQLite takes: each one an INTEGER, and
    no more of them than a statement may bind. *)
Definition bindable `{Sqlite} (ids : list Z) : bool :=
  bool_decide (Z.of_nat (length ids) ≤ max_variable_number)%Z
  && forallb sqlite_int ids.

(** [Model.query.filter(Model.id.in_(ids)).all()], as the keys found.
    Every element of [ids] is bound as a variable of the statement. *)
Definition query_ids_in `{Sqlite} {A : Type} (ids : list Z) (table : gmap Z A)
    : string + list Z :=
  if negb (bool_decide (Z.of_nat (length ids) ≤ max_variable_number)%Z)
  then inl (str_too_many_variables ids)
  else if negb (forallb sqlite_int ids) then inl str_OverflowError
  else inr (filter (λ k, k ∈ ids) (map_to_list table).*1).

(** *** Early returns

    A view body either leaves early with a response (a [return] before
    the commit, or an exception caught by the view's [except Exception]
    clause, which rolls the session back), or runs to its commit and
    yields the response together with the new state. *)

#[global] Instance view_bind : MBind (sum Response) :=
  λ A B k x, match x with
             | inl r => inl r
             | inr a => k a
             end.

(** [if c: return r] *)
Definition return_if (c : bool) (r : Response) : Response + unit :=
  if c then inl r else inr tt.

Definition run_view (st : State) (v : Response + Response * State)
    : Response * State :=
  match v with
  | inl r => (r, st)
  | inr (r, st') => (r, st')
  end.

(** A call inside the view's [try] block: [except Exception as e]
    rolls the session back and answers 500 with [str(e)]. *)
Definition caught {A : Type} (x : string + A) : Response + A :=
  match x with
  | inl msg => inl (error_body msg, 500%Z)
  | inr v => inr v
  end.

(** [str(e)] for the [NotFound] that [get_or_404] raises (werkzeug's
    text).  Every view calls [get_or_404] inside its [try] block, so the
    exception reaches [except Exception] and the view answers 500. *)
Definition str_NotFound : string :=
  "404 Not Found: The requested URL was not found on the server. If you entered the URL manually please check your spelling and try again.".

(** [Model.query.get_or_404(id)], [found] being the row under [id].  No
    row has an id that is not an INTEGER of SQLite; asking for such an
    id raises OverflowError when the id is bound, before any row is
    looked for. *)
Definition get_or_404 {A : Type} (id : Z) (found : option A) : Response + A :=
  match found with
  | Some x => inr x
  | None => inl (error_body (if sqlite_int id then str_NotFound
                             else str_OverflowError), 500%Z)
  end.

(** Python truthiness of [data.get(key)] for a string and for an
    integer field: absent, empty and zero are all falsy. *)
Definition truthy_str (v : option string) : bool :=
  match v with
  | Some s => negb (bool_decide (s = ""))
  | None => false
  end.

Definition truthy_int (v : option Z) : bool :=
  match v with
  | Some z => negb (bool_decide (z = 0%Z))
  | None => false
  end.

(** *** What the session writes at commit *)

(** [xs.append(x)] and [xs.remove(x)] on a relationship list: one row
    of the association table. *)
Definition assoc_add (k v : Z) (assoc : gset (Z * Z)) : gset (Z * Z) :=
  {[ (k, v) ]} ∪ assoc.

Definition assoc_remove (k v : Z) (assoc : gset (Z * Z)) : gset (Z * Z) :=
  assoc ∖ {[ (k, v) ]}.

(** [obj.xs = new]: the rows of [k] to the loaded members [old] go, the
    rows to [new] come. *)
Definition assoc_replace (k : Z) (old new : list Z) (assoc : gset (Z * Z))
    : gset (Z * Z) :=
  list_to_set ((λ v, (k, v)) <$> new)
    ∪ filter (λ p, ¬ (p.1 = k ∧ p.2 ∈ old)) assoc.

(** [db.session.delete(obj)]: the row goes, and with it the association
    rows to the members of its relationship lists (SQLAlchemy clears the
    [secondary] table for the deleted side). *)
Definition assoc_clear (k : Z) (loaded : list Z) (assoc : gset (Z * Z))
    : gset (Z * Z) :=
  filter (λ p, ¬ (p.1 = k ∧ p.2 ∈ loaded)) assoc.

Definition assoc_clear_back (k : Z) (loaded : list Z) (assoc : gset (Z * Z))
    : gset (Z * Z) :=
  filter (λ p, ¬ (p.2 = k ∧ p.1 ∈ loaded)) assoc.

Definition session_delete_user (user : User.t) (st : State) : State :=
  set_user_table (delete (User.id user))
    (set_user_roles (assoc_clear (User.id user) (Role.id <$> User.roles user)) st).

Definition session_delete_role (role : Role.t) (st : State) : State :=
  set_role_table (delete (Role.id role))
    (set_role_permissions
       (assoc_clear (Role.id role) (Permission.id <$> Role.permissions role))
       (set_user_roles
          (assoc_clear_back (Role.id role) (User.id <$> Role_users st (Role.id role)))
          st)).

Definition session_delete_permission (permission : Permission.t) (st : State) : State :=
  set_permission_table (delete (Permission.id permission))
    (set_role_permissions
       (assoc_clear_back (Permission.id permission)
          (Role.id <$> Permission_roles st (Permission.id permission)))
       st).

(** ** src/routes/user.py and src/routes/role.py *)

(** [require_permission(permission_name)(f)].  [@jwt_required()] has
    verified the bearer token before the body runs; [identity] is
    [int(get_jwt_identity())]. *)
Definition require_permission (permission_name : string)
    (f : State → Response * State) (identity : Z) (st : State)
    : Response * State :=
  match User_query_get st identity with
  | None => ((error_body "User not found", 404%Z), st)
  | Some user =>
      if negb (has_permission user permission_name)
      then ((error_body "Insufficient permissions", 403%Z), st)
      else f st
  end.

(** [DELETE /users/<int:user_id>]; [current_user_id] is
    [int(get_jwt_identity())] again. *)
Definition delete_user_body (current_user_id user_id : Z) (st : State)
    : Response * State :=
  run_view st (
    return_if (bool_decide (current_user_id = user_id))
            (error_body "Cannot delete your own account", 400%Z);;
    user ← get_or_404 user_id (User_query_get st user_id);
    inr ((message_body "User deleted successfully", 200%Z),
         session_delete_user user st)).

Definition delete_user (identity user_id : Z) : State → Response * State :=
  require_permission "user_delete" (delete_user_body identity user_id) identity.

(** [POST /users/<int:user_id>/roles] with body [{role_id}] *)
Definition assign_role_to_user_body (user_id : Z) (data_role_id : option Z)
    (st : State) : Response * State :=
  run_view st (
    user ← get_or_404 user_id (User_query_get st user_id);
    return_if (negb (truthy_int data_role_id))
            (error_body "role_id is required", 400%Z);;
    role ← get_or_404 (default 0%Z data_role_id)
              (Role_query_get st (default 0%Z data_role_id));
    if negb (role_in role (User.roles user)) then
      let st' := set_user_roles (assoc_add user_id (Role.id role)) st in
      inr ((JObj [("message", JStr ("Role " +:+ Role.name role
                                     +:+ " assigned to user " +:+ User.username user));
                  ("user", from_option (λ u, User_to_dict u true) JNull
                             (User_query_get st' user_id))],
            200%Z), st')
    else inl (error_body "User already has this role", 400%Z)).

Definition assign_role_to_user (identity user_id : Z) (data_role_id : option Z)
    : State → Response * State :=
  require_permission "user_write"
    (assign_role_to_user_body user_id data_role_id) identity.

(** [DELETE /users/<int:user_id>/roles/<int:role_id>] *)
Definition remove_role_from_user_body (user_id role_id : Z) (st : State)
    : Response * State :=
  run_view st (
    user ← get_or_404 user_id (User_query_get st user_id);
    role ← get_or_404 role_id (Role_query_get st role_id);
    if role_in role (User.roles user) then
      let st' := set_user_roles (assoc_remove user_id (Role.id role)) st in
      inr ((JObj [("message", JStr ("Role " +:+ Role.name role
                                     +:+ " removed from user " +:+ User.username user));
                  ("user", from_option (λ u, User_to_dict u true) JNull
                             (User_query_get st' user_id))],
            200%Z), st')
    else inl (error_body "User does not have this role", 400%Z)).

Definition remove_role_from_user (identity user_id role_id : Z)
    : State → Response * State :=
  require_permission "user_write"
    (remove_role_from_user_body user_id role_id) identity.

(** [PUT /users/<int:user_id>]: attribute assignment on the loaded
    object, written back at commit. *)
Definition User_with_username (v : string) (u : User.t) : User.t :=
  User.mk (User.id u) v (User.email u) (User.password u) (User.first_name u)
          (User.last_name u) (User.is_active u) (User.created_at u)
          (User.updated_at u) (User.roles u).
Definition User_with_email (v : string) (u : User.t) : User.t :=
  User.mk (User.id u) (User.username u) v (User.password u) (User.first_name u)
          (User.last_name u) (User.is_active u) (User.created_at u)
          (User.updated_at u) (User.roles u).
Definition User_with_password (v : string) (u : User.t) : User.t :=
  User.mk (User.id u) (User.username u) (User.email u) v (User.first_name u)
          (User.last_name u) (User.is_active u) (User.created_at u)
          (User.updated_at u) (User.roles u).
Definition User_with_first_name (v : string) (u : User.t) : User.t :=
  User.mk (User.id u) (User.username u) (User.email u) (User.password u) v
          (User.last_name u) (User.is_active u) (User.created_at u)
          (User.updated_at u) (User.roles u).
Definition User_with_last_name (v : string) (u : User.t) : User.t :=
  User.mk (User.id u) (User.username u) (User.email u) (User.password u)
          (User.first_name u) v (User.is_active u) (User.created_at u)
          (User.updated_at u) (User.roles u).
Definition User_with_is_active (v : bool) (u : User.t) : User.t :=
  User.mk (User.id u) (User.username u) (User.email u) (User.password u)
          (User.first_name u) (User.last_name u) v (User.created_at u)
          (User.updated_at u) (User.roles u).
Definition User_with_updated_at (v : option string) (u : User.t) : User.t :=
  User.mk (User.id u) (User.username u) (User.email u) (User.password u)
          (User.first_name u) (User.last_name u) (User.is_active u)
          (User.created_at u) v (User.roles u).

Definition Role_with_name (v : string) (r : Role.t) : Role.t :=
  Role.mk (Role.id r) v (Role.description r) (Role.permissions r).
Definition Role_with_description (v : string) (r : Role.t) : Role.t :=
  Role.mk (Role.id r) (Role.name r) v (Role.permissions r).

Definition User_row (u : User.t) : user_row :=
  mk_user_row (User.username u) (User.email u) (User.password u)
              (User.first_name u) (User.last_name u) (User.is_active u)
              (User.created_at u) (User.updated_at u).

Definition Role_row (r : Role.t) : role_row :=
  mk_role_row (Role.name r) (Role.description r).

(** [datetime.utcnow], the [default] of [created_at] and [updated_at]
    and the [onupdate] of [updated_at]: the readings taken while the
    request writes a row of [user], one for each of the two columns. *)
Record Utcnow : Type := mk_Utcnow {
  for_created_at : string;
  for_updated_at : string
}.

(** [db.session.commit()] after attributes of a loaded user have been
    assigned.  The UPDATE carries the columns whose value is no longer
    the loaded one and, with them, [updated_at] ([onupdate]); when no
    column has changed, no UPDATE is sent. *)
Definition session_update_user (utcnow : Utcnow) (loaded user : User.t)
    (st : State) : State :=
  if bool_decide (User_row user = User_row loaded) then st
  else set_user_table
         (<[User.id user :=
              User_row (User_with_updated_at (Some (for_updated_at utcnow)) user)]>)
         st.

(** The libraries behind [set_password], [check_password] and [login]:
    flask_bcrypt and flask_jwt_extended.  Both functions of flask_bcrypt
    can raise (bcrypt 5 refuses a password of more than 72 bytes with a
    ValueError, before that it cut the password off; a hash it cannot
    read is a ValueError too). *)
Class Bcrypt : Type := {
  generate_password_hash : string → string + string;
  check_password_hash : string → string → string + bool
}.

Class JWT : Type := {
  (* [create_access_token(identity=..., expires_delta=timedelta(hours=h))] *)
  create_access_token : string → Z → string
}.

Definition set_password `{Bcrypt} (self : User.t) (password : string)
    : string + User.t :=
  match generate_password_hash password with
  | inl msg => inl msg
  | inr hashed => inr (User_with_password hashed self)
  end.

Definition check_password `{Bcrypt} (self : User.t) (password : string)
    : string + bool :=
  check_password_hash (User.password self) password.

(** The body of the request, field by field; [None] is a key the JSON
    object does not have.  Fields are taken at the JSON type the view
    expects of them. *)
Record update_user_data : Type := mk_update_user_data {
  upd_username : option string;
  upd_email : option string;
  upd_first_name : option string;
  upd_last_name : option string;
  upd_is_active : option bool;
  upd_password : option string;
  upd_role_ids : option (list Z)
}.

(** [User.query.filter(User.username == v, User.id != user_id).first()]
    and its [email] twin, as "is there such a row". *)
Definition username_taken (v : string) (user_id : Z) (st : State) : bool :=
  bool_decide (is_Some (query_first
    (λ k row, bool_decide (col_username row = v) && negb (bool_decide (k = user_id)))
    (user_table st))).

Definition email_taken (v : string) (user_id : Z) (st : State) : bool :=
  bool_decide (is_Some (query_first
    (λ k row, bool_decide (col_email row = v) && negb (bool_decide (k = user_id)))
    (user_table st))).

Definition update_user_body `{Bcrypt} `{Sqlite} (utcnow : Utcnow) (user_id : Z)
    (data : update_user_data) (st : State) : Response * State :=
  run_view st (
    loaded ← get_or_404 user_id (User_query_get st user_id);
    user ← match upd_username data with
           | Some v =>
               return_if (username_taken v user_id st)
                 (error_body "Username already exists", 400%Z);;
               inr (User_with_username v loaded)
           | None => inr loaded
           end;
    user ← match upd_email data with
           | Some v =>
               return_if (email_taken v user_id st)
                 (error_body "Email already exists", 400%Z);;
               inr (User_with_email v user)
           | None => inr user
           end;
    let user := from_option (λ v, User_with_first_name v user) user (upd_first_name data) in
    let user := from_option (λ v, User_with_last_name v user) user (upd_last_name data) in
    let user := from_option (λ v, User_with_is_active v user) user (upd_is_active data) in
    user ← (if truthy_str (upd_password data)
            then caught (set_password user (default "" (upd_password data)))
            else inr user);
    roles ← match upd_role_ids data with
            | Some role_ids =>
                found ← caught (query_ids_in role_ids (role_table st));
                inr (Some found)
            | None => inr None
            end;
    let st' := session_update_user utcnow loaded user st in
    let st' := match roles with
               | Some found =>
                   set_user_roles
                     (assoc_replace user_id (Role.id <$> User.roles user) found) st'
               | None => st'
               end in
    inr ((JObj [("message", JStr "User updated successfully");
                ("user", from_option (λ u, User_to_dict u true) JNull
                           (User_query_get st' user_id))],
          200%Z), st')).

Definition update_user `{Bcrypt} `{Sqlite} (utcnow : Utcnow) (identity user_id : Z)
    (data : update_user_data) : State → Response * State :=
  require_permission "user_write" (update_user_body utcnow user_id data) identity.

(** *** src/routes/role.py *)

Record update_role_data : Type := mk_update_role_data {
  upd_name : option string;
  upd_description : option string;
  upd_permission_ids : option (list Z)
}.

Definition role_name_taken (v : string) (role_id : Z) (st : State) : bool :=
  bool_decide (is_Some (query_first
    (λ k row, bool_decide (col_role_name row = v) && negb (bool_decide (k = role_id)))
    (role_table st))).

(** [PUT /roles/<int:role_id>] *)
Definition update_role_body `{Sqlite} (role_id : Z) (data : update_role_data)
    (st : State) : Response * State :=
  run_view st (
    role ← get_or_404 role_id (Role_query_get st role_id);
    role ← match upd_name data with
           | Some v =>
               return_if (role_name_taken v role_id st)
                 (error_body "Role name already exists", 400%Z);;
               inr (Role_with_name v role)
           | None => inr role
           end;
    let role := from_option (λ v, Role_with_description v role) role
                  (upd_description data) in
    permissions ← match upd_permission_ids data with
                  | Some permission_ids =>
                      found ← caught (query_ids_in permission_ids
                                        (permission_table st));
                      inr (Some found)
                  | None => inr None
                  end;
    let st' := set_role_table (<[role_id := Role_row role]>) st in
    let st' := match permissions with
               | Some found =>
                   set_role_permissions
                     (assoc_replace role_id (Permission.id <$> Role.permissions role)
                        found) st'
               | None => st'
               end in
    inr ((JObj [("message", JStr "Role updated successfully");
                ("role", from_option (λ r, Role_to_dict r true) JNull
                           (Role_query_get st' role_id))],
          200%Z), st')).

Definition update_role `{Sqlite} (identity role_id : Z) (data : update_role_data)
    : State → Response * State :=
  require_permission "role_write" (update_role_body role_id data) identity.

(** [DELETE /roles/<int:role_id>] *)
Definition delete_role_body (role_id : Z) (st : State) : Response * State :=
  run_view st (
    role ← get_or_404 role_id (Role_query_get st role_id);
    let users := Role_users st role_id in
    return_if (negb (bool_decide (users = [])))
      (error_body ("Cannot delete role. It is assigned to "
                   +:+ pretty (length users) +:+ " user(s)"), 400%Z);;
    inr ((message_body "Role deleted successfully", 200%Z),
         session_delete_role role st)).

Definition delete_role (identity role_id : Z) : State → Response * State :=
  require_permission "role_delete" (delete_role_body role_id) identity.

(** [POST /roles/<int:role_id>/permissions] with body [{permission_id}] *)
Definition assign_permission_to_role_body (role_id : Z)
    (data_permission_id : option Z) (st : State) : Response * State :=
  run_view st (
    role ← get_or_404 role_id (Role_query_get st role_id);
    return_if (negb (truthy_int data_permission_id))
      (error_body "permission_id is required", 400%Z);;
    permission ← get_or_404 (default 0%Z data_permission_id)
                    (Permission_query_get st (default 0%Z data_permission_id));
    if negb (permission_in permission (Role.permissions role)) then
      let st' := set_role_permissions
                   (assoc_add role_id (Permission.id permission)) st in
      inr ((JObj [("message", JStr ("Permission " +:+ Permission.name permission
                                     +:+ " assigned to role " +:+ Role.name role));
                  ("role", from_option (λ r, Role_to_dict r true) JNull
                             (Role_query_get st' role_id))],
            200%Z), st')
    else inl (error_body "Role already has this permission", 400%Z)).

Definition assign_permission_to_role (identity role_id : Z)
    (data_permission_id : option Z) : State → Response * State :=
  require_permission "role_write"
    (assign_permission_to_role_body role_id data_permission_id) identity.

(** [DELETE /roles/<int:role_id>/permissions/<int:permission_id>] *)
Definition remove_permission_from_role_body (role_id permission_id : Z)
    (st : State) : Response * State :=
  run_view st (
    role ← get_or_404 role_id (Role_query_get st role_id);
    permission ← get_or_404 permission_id (Permission_query_get st permission_id);
    if permission_in permission (Role.permissions role) then
      let st' := set_role_permissions
                   (assoc_remove role_id (Permission.id permission)) st in
      inr ((JObj [("message", JStr ("Permission " +:+ Permission.name permission
                                     +:+ " removed from role " +:+ Role.name role));
                  ("role", from_option (λ r, Role_to_dict r true) JNull
                             (Role_query_get st' role_id))],
            200%Z), st')
    else inl (error_body "Role does not have this permission", 400%Z)).

Definition remove_permission_from_role (identity role_id permission_id : Z)
    : State → Response * State :=
  require_permission "role_write"
    (remove_permission_from_role_body role_id permission_id) identity.

(** [DELETE /permissions/<int:permission_id>] *)
Definition delete_permission_body (permission_id : Z) (st : State)
    : Response * State :=
  run_view st (
    permission ← get_or_404 permission_id (Permission_query_get st permission_id);
    let roles := Permission_roles st permission_id in
    return_if (negb (bool_decide (roles = [])))
      (error_body ("Cannot delete permission. It is assigned to "
                   +:+ pretty (length roles) +:+ " role(s)"), 400%Z);;
    inr ((message_body "Permission deleted successfully", 200%Z),
         session_delete_permission permission st)).

Definition delete_permission (identity permission_id : Z)
    : State → Response * State :=
  require_permission "permission_delete"
    (delete_permission_body permission_id) identity.

(** ** src/routes/auth.py *)

Record login_data : Type := mk_login_data {
  login_username : option string;
  login_password : option string
}.

(** [User.query.filter_by(username=v).first()] and
    [User.query.filter_by(email=v).first()], loaded. *)
Definition find_by_username (v : string) (st : State) : option User.t :=
  kv ← query_first (λ _ row, bool_decide (col_username row = v)) (user_table st);
  User_query_get st kv.1.

Definition find_by_email (v : string) (st : State) : option User.t :=
  kv ← query_first (λ _ row, bool_decide (col_email row = v)) (user_table st);
  User_query_get st kv.1.

(** [User.query.filter((User.username == v) | (User.email == v)).first()].
    The query has no ORDER BY.  SQLite answers an OR of two indexed
    columns term by term, through the unique index of [username] first
    and that of [email] second, so the row whose username is [v] comes
    before a row whose email is [v]. *)
Definition find_by_username_or_email (v : string) (st : State) : option User.t :=
  match find_by_username v st with
  | Some user => Some user
  | None => find_by_email v st
  end.

(** [POST /auth/login] *)
Definition login `{Bcrypt} `{JWT} (data : login_data) (st : State)
    : Response * State :=
  run_view st (
    return_if (negb (truthy_str (login_username data))
               || negb (truthy_str (login_password data)))
      (error_body "Username and password are required", 400%Z);;
    let username := default "" (login_username data) in
    let password := default "" (login_password data) in
    match find_by_username_or_email username st with
    | None => inl (error_body "Invalid credentials", 401%Z)
    | Some user =>
        matches ← caught (check_password user password);
        return_if (negb matches)
          (error_body "Invalid credentials", 401%Z);;
        return_if (negb (User.is_active user))
          (error_body "Account is deactivated", 401%Z);;
        let access_token := create_access_token (pretty (User.id user)) 24%Z in
        inr ((JObj [("message", JStr "Login successful");
                    ("access_token", JStr access_token);
                    ("user", User_to_dict user true)],
              200%Z), st)
    end).

(** [POST /auth/logout], behind [@jwt_required()]; [jti] is
    [get_jwt()['jti']]. *)
Definition logout (jti : string) (st : State) : Response * State :=
  ((message_body "Successfully logged out", 200%Z),
   set_blacklisted_tokens (λ s, {[ jti ]} ∪ s) st).

Definition check_if_token_revoked (jti : string) (st : State) : bool :=
  bool_decide (jti ∈ blacklisted_tokens st).

(** [POST /auth/forgot-password].  [token] is the string of 32 letters
    and digits that the view draws with [secrets.choice]. *)
Definition forgot_password (data_email : option string) (token : string)
    (st : State) : Response * State :=
  run_view st (
    return_if (negb (truthy_str data_email))
      (error_body "Email is required", 400%Z);;
    match find_by_email (default "" data_email) st with
    | None =>
        inl (message_body "If the email exists, a reset token has been generated",
             200%Z)
    | Some user =>
        inr ((JObj [("message", JStr "Password reset token generated");
                    ("reset_token", JStr token)],
              200%Z),
             set_reset_tokens (<[token := User.id user]>) st)
    end).

Record reset_password_data : Type := mk_reset_password_data {
  reset_token : option string;
  reset_new_password : option string
}.

(** [POST /auth/reset-password], served with no other request in
    between its statements. *)
Definition reset_password `{Bcrypt} (utcnow : Utcnow) (data : reset_password_data)
    (st : State) : Response * State :=
  run_view st (
    return_if (negb (truthy_str (reset_token data))
               || negb (truthy_str (reset_new_password data)))
      (error_body "Token and new password are required", 400%Z);;
    let token := default "" (reset_token data) in
    let new_password := default "" (reset_new_password data) in
    let user_id := reset_tokens st !! token in
    return_if (negb (truthy_int user_id))
      (error_body "Invalid or expired token", 400%Z);;
    match User_query_get st (default 0%Z user_id) with
    | None => inl (error_body "User not found", 404%Z)
    | Some loaded =>
        user ← caught (set_password loaded new_password);
        let st' := session_update_user utcnow loaded user st in
        let st' := set_reset_tokens (delete token) st' in
        inr ((message_body "Password reset successfully", 200%Z), st')
    end).

(** *** [reset_password], statement by statement

    The development server ([app.run] in src/main.py) serves each
    request in a thread of its own, and [reset_tokens] and the database
    are shared by the threads.  Between two statements of the view
    another request may run.  A request is at one of the places below,
    with the local variables it has there; a step runs the view up to
    its next access to what is shared. *)
Inductive reset_password_at : Type :=
  | at_get_token                               (* line 227, before [reset_tokens.get] *)
  | at_query_get (user_id : Z)                 (* line 237 *)
  | at_set_password (loaded : User.t)          (* line 242 *)
  | at_commit (loaded user : User.t)           (* line 243 *)
  | at_del                                     (* line 246 *)
  | returned (r : Response).

(** [str(e)] of the StaleDataError that the commit raises when the row
    behind a loaded user has been deleted in the meantime. *)
Definition str_StaleDataError : string :=
  "UPDATE statement on table 'user' expected to update 1 row(s); 0 were matched.".

(** [str(e)] of the [KeyError] of [del reset_tokens[token]]: the [repr]
    of the key.  The key was found by [reset_tokens.get] before, so it
    is one of the strings of letters and digits that [forgot_password]
    draws. *)
Definition str_KeyError (token : string) : string := "'" +:+ token +:+ "'".

Definition user_row_with_password (hashed : string) (updated_at : option string)
    (row : user_row) : user_row :=
  mk_user_row (col_username row) (col_email row) hashed (col_first_name row)
              (col_last_name row) (col_is_active row) (col_created_at row)
              updated_at.

Definition reset_password_step `{Bcrypt} (utcnow : Utcnow)
    (data : reset_password_data) (at_ : reset_password_at) (st : State)
    : reset_password_at * State :=
  let token := default "" (reset_token data) in
  let new_password := default "" (reset_new_password data) in
  match at_ with
  | at_get_token =>
      if negb (truthy_str (reset_token data))
         || negb (truthy_str (reset_new_password data))
      then (returned (error_body "Token and new password are required", 400%Z), st)
      else
        let user_id := reset_tokens st !! token in
        if negb (truthy_int user_id)
        then (returned (error_body "Invalid or expired token", 400%Z), st)
        else (at_query_get (default 0%Z user_id), st)
  | at_query_get user_id =>
      match User_query_get st user_id with
      | None => (returned (error_body "User not found", 404%Z), st)
      | Some loaded => (at_set_password loaded, st)
      end
  | at_set_password loaded =>
      match set_password loaded new_password with
      | inl msg => (returned (error_body msg, 500%Z), st)
      | inr user => (at_commit loaded user, st)
      end
  | at_commit loaded user =>
      (* UPDATE user SET password=?, updated_at=? WHERE user.id = ? *)
      if bool_decide (User_row user = User_row loaded) then (at_del, st)
      else
        match user_table st !! User.id user with
        | None => (returned (error_body str_StaleDataError, 500%Z), st)
        | Some row =>
            (at_del,
             set_user_table
               (<[User.id user :=
                    user_row_with_password (User.password user)
                      (Some (for_updated_at utcnow)) row]>) st)
        end
  | at_del =>
      match reset_tokens st !! token with
      | None => (returned (error_body (str_KeyError token), 500%Z), st)
      | Some _ =>
          (returned (message_body "Password reset successfully", 200%Z),
           set_reset_tokens (delete token) st)
      end
  | returned r => (returned r, st)
  end.

(** [n] steps of one request. *)
Fixpoint reset_password_steps `{Bcrypt} (n : nat) (utcnow : Utcnow)
    (data : reset_password_data) (at_ : reset_password_at) (st : State)
    : reset_password_at * State :=
  match n with
  | O => (at_, st)
  | S n =>
      let '(at', st') := reset_password_step utcnow data at_ st in
      reset_password_steps n utcnow data at' st'
  end.

(** Two requests in two threads.  The schedule says whose step is next:
    [false] the first request's, [true] the second's. *)
Record reset_password_request : Type := mk_reset_password_request {
  request_utcnow : Utcnow;
  request_data : reset_password_data
}.

Fixpoint reset_password_interleaved `{Bcrypt} (schedule : list bool)
    (a b : reset_password_request) (at_a at_b : reset_password_at) (st : State)
    : reset_password_at * reset_password_at * State :=
  match schedule with
  | [] => (at_a, at_b, st)
  | false :: schedule =>
      let '(at_a', st') :=
        reset_password_step (request_utcnow a) (request_data a) at_a st in
      reset_password_interleaved schedule a b at_a' at_b st'
  | true :: schedule =>
      let '(at_b', st') :=
        reset_password_step (request_utcnow b) (request_data b) at_b st in
      reset_password_interleaved schedule a b at_a at_b' st'
  end.

(** ** Vocabulary of the properties *)

(** The caller behind [identity] passes [require_permission(p)]. *)
Definition authorized (st : State) (identity : Z) (p : string) : Prop :=
  ∃ caller, User_query_get st identity = Some caller
            ∧ has_permission caller p = true.

(** The [db.ForeignKey] declarations of the two association tables:
    every row points at existing rows. *)
Definition foreign_keys (st : State) : Prop :=
  (∀ u r, (u, r) ∈ user_roles st →
          is_Some (user_table st !! u) ∧ is_Some (role_table st !! r))
  ∧ (∀ r p, (r, p) ∈ role_permissions st →
            is_Some (role_table st !! r) ∧ is_Some (permission_table st !! p)).

(** A column declared [unique=True]: no two rows of the table agree on
    it. *)
Definition unique_on {A : Type} (column : A → string) (table : gmap Z A) : Prop :=
  ∀ i j a b, table !! i = Some a → table !! j = Some b →
             column a = column b → i = j.

(** Does the response carry the key? *)
Definition has_field (key : string) (r : Response) : bool :=
  bool_decide (is_Some (json_get key (body r))).

(** flask_bcrypt hashes the password of the body, if the body has one
    to set. *)
Definition password_accepted `{Bcrypt} (password : option string) : bool :=
  if truthy_str password
  then match generate_password_hash (default "" password) with
       | inl _ => false
       | inr _ => true
       end
  else true.

(** The answer of [login] to the credentials of the active user [U]. *)
Definition login_success `{JWT} (U : User.t) : Response :=
  (JObj [("message", JStr "Login successful");
         ("access_token", JStr (create_access_token (pretty (User.id U)) 24%Z));
         ("user", User_to_dict U true)], 200%Z).

(** The object a request holds after [db.session.commit()] and the
    reload that follows it, when it had loaded [loaded] and assigned
    attributes until it was [user]. *)
Definition User_committed (utcnow : Utcnow) (loaded user : User.t) : User.t :=
  if bool_decide (User_row user = User_row loaded) then user
  else User_with_updated_at (Some (for_updated_at utcnow)) user.

(** The state [reset_password] commits on its successful path: the
    row of the user with the new hash, and [reset_tokens] without
    [token]. *)
Definition after_reset (utcnow : Utcnow) (st : State) (token : string)
    (loaded user : User.t) : State :=
  set_reset_tokens (delete token) (session_update_user utcnow loaded user st).

(** Two overlapping requests are served atomically when, whatever the
    schedule, both get the answers and leave the state that serving
    them one after the other, in one of the two orders, gives. *)
Definition served_atomically `{Bcrypt} (a b : reset_password_request) (st : State)
    : Prop :=
  ∀ schedule r_a r_b st',
    reset_password_interleaved schedule a b at_get_token at_get_token st
    = (returned r_a, returned r_b, st') →
    (∃ st1, reset_password (request_utcnow a) (request_data a) st = (r_a, st1)
            ∧ reset_password (request_utcnow b) (request_data b) st1 = (r_b, st'))
    ∨ (∃ st1, reset_password (request_utcnow b) (request_data b) st = (r_b, st1)
              ∧ reset_password (request_utcnow a) (request_data a) st1 = (r_a, st')).

(** ** A concrete deployment

    The database as [init_database] (src/main.py) and the seeding script
    (src/seed_data.py) leave it: nine permissions, the roles Admin, HR
    and Employee, and one user for each role.  The libraries are
    replaced by transparent stand-ins so that the views can be run. *)

Module Seed.

(** bcrypt 5: a password of more than 72 bytes is refused. *)
Definition str_too_long : string :=
  "password cannot be longer than 72 bytes, truncate manually if necessary (e.g. my_password[:72])".

#[global] Instance bcrypt : Bcrypt := {|
  generate_password_hash pw :=
    if bool_decide (72 < String.length pw)%nat then inl str_too_long
    else inr ("$2b$12$" +:+ pw);
  check_password_hash h pw :=
    if bool_decide (72 < String.length pw)%nat then inl str_too_long
    else if negb (String.prefix "$2b$" h) then inl "Invalid salt"
    else inr (bool_decide (h = "$2b$12$" +:+ pw))
|}.

#[global] Instance jwt : JWT := {|
  create_access_token identity hours := "jwt:" +:+ identity
|}.

#[global] Instance sqlite : Sqlite := {|
  max_variable_number := 32766;
  str_too_many_variables ids :=
    "(sqlite3.OperationalError) too many SQL variables"
|}.

Definition hashed (pw : string) : string := "$2b$12$" +:+ pw.

Definition permissions_data : list (Z * permission_row) :=
  [(1, mk_permission_row "user_read" "Read user information");
   (2, mk_permission_row "user_write" "Create and update users");
   (3, mk_permission_row "user_delete" "Delete users");
   (4, mk_permission_row "role_read" "Read role information");
   (5, mk_permission_row "role_write" "Create and update roles");
   (6, mk_permission_row "role_delete" "Delete roles");
   (7, mk_permission_row "permission_read" "Read permission information");
   (8, mk_permission_row "permission_write" "Create and update permissions");
   (9, mk_permission_row "permission_delete" "Delete permissions")]%Z.

Definition roles_data : list (Z * role_row) :=
  [(1, mk_role_row "Admin" "System administrator with full access");
   (2, mk_role_row "HR" "Human resources manager");
   (3, mk_role_row "Employee" "Regular employee")]%Z.

Definition users_data : list (Z * user_row) :=
  [(1, mk_user_row "admin" "admin@hrms.com" (hashed "admin123")
         "System" "Administrator" true
         (Some "2025-03-03T08:15:02.104512") (Some "2025-03-03T08:15:02.104519"));
   (2, mk_user_row "hr_manager" "hr@hrms.com" (hashed "hr123")
         "HR" "Manager" true
         (Some "2025-03-03T08:15:02.391770") (Some "2025-03-03T08:15:02.391776"));
   (3, mk_user_row "john_doe" "john.doe@hrms.com" (hashed "employee123")
         "John" "Doe" true
         (Some "2025-03-03T08:15:02.391781") (Some "2025-03-03T08:15:02.391783"))]%Z.

Definition state : State := {|
  user_table := list_to_map users_data;
  role_table := list_to_map roles_data;
  permission_table := list_to_map permissions_data;
  user_roles := list_to_set [(1, 1); (2, 2); (3, 3)]%Z;
  role_permissions :=
    list_to_set [(1, 1); (1, 2); (1, 3); (1, 4); (1, 5); (1, 6); (1, 7); (1, 8); (1, 9);
                 (2, 1); (2, 2); (2, 4);
                 (3, 1)]%Z;
  reset_tokens := ∅;
  blacklisted_tokens := ∅
|}.

(** Clock readings of later requests. *)
Definition utcnow : Utcnow :=
  mk_Utcnow "2025-03-04T10:00:00.250001" "2025-03-04T10:00:00.250007".
Definition utcnow_later : Utcnow :=
  mk_Utcnow "2025-03-04T10:00:00.731440" "2025-03-04T10:00:00.731446".

(** States reached from there through the views themselves. *)

(* admin takes the Employee role away from john_doe *)
Definition after_unassign : State := (remove_role_from_user 1 3 3 state).2.

(* admin takes permission_write away from the Admin role *)
Definition after_revoke : State := (remove_permission_from_role 1 1 8 state).2.

(* john_doe asks for a reset token *)
Definition token : string := "k3J9sLq0ZxT7vBn2MwY5Rc8Ae1Hf4Gd6".
Definition with_token : State :=
  (forgot_password (Some "john.doe@hrms.com") token state).2.

(* ... and admin deletes john_doe before the token is used *)
Definition stale : State := (delete_user 1 3 with_token).2.



(* two requests with john_doe's token, sent at the same time *)
Definition first_reset : reset_password_request :=
  mk_reset_password_request utcnow
    (mk_reset_password_data (Some token) (Some "n3w-passw0rd")).
Definition second_reset : reset_password_request :=
  mk_reset_password_request utcnow_later
    (mk_reset_password_data (Some token) (Some "0ther-passw0rd")).

(* the two threads take turns *)
Definition taking_turns : list bool :=
  [false; true; false; true; false; true; false; true; false; true].

(* what the two requests are answered and leave behind *)
Definition overlapped : reset_password_at * reset_password_at * State :=
  reset_password_interleaved taking_turns first_reset second_reset
    at_get_token at_get_token with_token.

(* a password of 73 bytes *)
Definition long_password : string :=
  "0123456789012345678901234567890123456789012345678901234567890123456789012".

End Seed.

(** ** The remaining views *)

(** *** Inserting a row

    SQLite gives a new row of a table with an [INTEGER PRIMARY KEY] one
    more than the largest id in use, and 1 in an empty table (the
    database is the SQLite file configured in src/main.py; the case of
    a table filled up to the largest 64-bit id is left aside). *)
Definition next_rowid {A : Type} (table : gmap Z A) : Z :=
  match (map_to_list table).*1 with
  | [] => 1%Z
  | k :: ks => (foldr Z.max k ks + 1)%Z
  end.

(** The INSERT fills a timestamp column that the object leaves at
    [None] with the column's [default], a reading of the clock. *)
Definition User_with_defaults (utcnow : Utcnow) (u : User.t) : User.t :=
  User.mk (User.id u) (User.username u) (User.email u) (User.password u)
          (User.first_name u) (User.last_name u) (User.is_active u)
          (match User.created_at u with
           | Some d => Some d
           | None => Some (for_created_at utcnow)
           end)
          (match User.updated_at u with
           | Some d => Some d
           | None => Some (for_updated_at utcnow)
           end)
          (User.roles u).

(** [db.session.add(user)] for a new [User] whose [roles] are the roles
    of the given ids: the row, under the id the database allots, and
    one association row per role. *)
Definition session_add_user (utcnow : Utcnow) (user : User.t) (role_ids : list Z)
    (st : State) : State :=
  set_user_table (<[User.id user := User_row (User_with_defaults utcnow user)]>)
    (set_user_roles
       (λ assoc, list_to_set ((λ r, (User.id user, r)) <$> role_ids) ∪ assoc) st).

Definition session_add_role (role : Role.t) (permission_ids : list Z) (st : State) : State :=
  set_role_table (<[Role.id role := Role_row role]>)
    (set_role_permissions
       (λ assoc, list_to_set ((λ p, (Role.id role, p)) <$> permission_ids) ∪ assoc) st).

(** [Model.query.filter_by(column=v).first()], as "is there such a
    row". *)
Definition username_exists (v : string) (st : State) : bool :=
  bool_decide (is_Some (query_first
    (λ _ row, bool_decide (col_username row = v)) (user_table st))).

Definition email_exists (v : string) (st : State) : bool :=
  bool_decide (is_Some (query_first
    (λ _ row, bool_decide (col_email row = v)) (user_table st))).

Definition role_name_exists (v : string) (st : State) : bool :=
  bool_decide (is_Some (query_first
    (λ _ row, bool_decide (col_role_name row = v)) (role_table st))).

Definition permission_name_exists (v : string) (st : State) : bool :=
  bool_decide (is_Some (query_first
    (λ _ row, bool_decide (col_permission_name row = v)) (permission_table st))).

(** [Role.query.filter_by(name=v).first()], loaded. *)
Definition find_role_by_name (v : string) (st : State) : option Role.t :=
  kv ← query_first (λ _ row, bool_decide (col_role_name row = v)) (role_table st);
  Role_query_get st kv.1.

(** [for field in required_fields: if not data.get(field): return ...] *)
Fixpoint require_fields (fields : list (string * option string)) : Response + unit :=
  match fields with
  | [] => inr tt
  | (field, v) :: rest =>
      if negb (truthy_str v)
      then inl (error_body (field +:+ " is required"), 400%Z)
      else require_fields rest
  end.

(** *** src/routes/auth.py, continued *)

Record register_data : Type := mk_register_data {
  reg_username : option string;
  reg_email : option string;
  reg_password : option string;
  reg_first_name : option string;
  reg_last_name : option string
}.

(** [POST /auth/register] *)
Definition register `{Bcrypt} (utcnow : Utcnow) (data : register_data) (st : State)
    : Response * State :=
  run_view st (
    require_fields [("username", reg_username data);
                    ("email", reg_email data);
                    ("password", reg_password data)];;
    let username := default "" (reg_username data) in
    let email := default "" (reg_email data) in
    return_if (username_exists username st)
      (error_body "Username already exists", 400%Z);;
    return_if (email_exists email st)
      (error_body "Email already exists", 400%Z);;
    let user := User.mk (next_rowid (user_table st)) username email ""
                  (default "" (reg_first_name data))
                  (default "" (reg_last_name data)) true None None [] in
    user ← caught (set_password user (default "" (reg_password data)));
    let default_role := find_role_by_name "Employee" st in
    let st' := session_add_user utcnow user
                 (from_option (λ role, [Role.id role]) [] default_role) st in
    inr ((JObj [("message", JStr "User registered successfully");
                ("user", from_option (λ u, User_to_dict u true) JNull
                           (User_query_get st' (User.id user)))],
          201%Z), st')).

(** The claims of a bearer token that [@jwt_required()] has accepted:
    [get_jwt_identity()], converted with [int], and [get_jwt()['jti']]. *)
Record Jwt : Type := mk_Jwt {
  jwt_identity : Z;
  jwt_jti : string
}.

(** [@jwt_required()] for a token whose signature and expiry are in
    order: flask_jwt_extended asks the loader registered in src/main.py
    ([check_if_token_revoked]) and, if it says yes, answers for the view
    (401, the library's message). *)
Definition jwt_required (token : Jwt) (view : State → Response * State)
    (st : State) : Response * State :=
  if check_if_token_revoked (jwt_jti token) st
  then ((JObj [("msg", JStr "Token has been revoked")], 401%Z), st)
  else view st.

(** [GET /auth/profile] *)
Definition get_profile (identity : Z) (st : State) : Response * State :=
  match User_query_get st identity with
  | None => ((error_body "User not found", 404%Z), st)
  | Some user => ((JObj [("user", User_to_dict user true)], 200%Z), st)
  end.

Record update_profile_data : Type := mk_update_profile_data {
  prof_first_name : option string;
  prof_last_name : option string;
  prof_email : option string
}.

(** [PUT /auth/profile] *)
Definition update_profile (utcnow : Utcnow) (identity : Z)
    (data : update_profile_data) (st : State) : Response * State :=
  run_view st (
    loaded ← match User_query_get st identity with
             | None => inl (error_body "User not found", 404%Z)
             | Some user => inr user
             end;
    let user := from_option (λ v, User_with_first_name v loaded) loaded
                  (prof_first_name data) in
    let user := from_option (λ v, User_with_last_name v user) user
                  (prof_last_name data) in
    user ← match prof_email data with
           | Some v =>
               return_if (email_taken v identity st)
                 (error_body "Email already exists", 400%Z);;
               inr (User_with_email v user)
           | None => inr user
           end;
    let st' := session_update_user utcnow loaded user st in
    inr ((JObj [("message", JStr "Profile updated successfully");
                ("user", from_option (λ u, User_to_dict u true) JNull
                           (User_query_get st' identity))],
          200%Z), st')).

Record change_password_data : Type := mk_change_password_data {
  chg_current_password : option string;
  chg_new_password : option string
}.

(** [POST /auth/change-password] *)
Definition change_password `{Bcrypt} (utcnow : Utcnow) (identity : Z)
    (data : change_password_data) (st : State) : Response * State :=
  run_view st (
    loaded ← match User_query_get st identity with
             | None => inl (error_body "User not found", 404%Z)
             | Some user => inr user
             end;
    return_if (negb (truthy_str (chg_current_password data))
               || negb (truthy_str (chg_new_password data)))
      (error_body "Current password and new password are required", 400%Z);;
    matches ← caught (check_password loaded (default "" (chg_current_password data)));
    return_if (negb matches)
      (error_body "Current password is incorrect", 400%Z);;
    user ← caught (set_password loaded (default "" (chg_new_password data)));
    let st' := session_update_user utcnow loaded user st in
    inr ((message_body "Password changed successfully", 200%Z), st')).

(** *** src/routes/user.py, continued *)

Record create_user_data : Type := mk_create_user_data {
  new_username : option string;
  new_email : option string;
  new_password : option string;
  new_first_name : option string;
  new_last_name : option string;
  new_is_active : option bool;
  new_role_ids : option (list Z)
}.

(** [POST /users] *)
Definition create_user_body `{Bcrypt} `{Sqlite} (utcnow : Utcnow)
    (data : create_user_data) (st : State) : Response * State :=
  run_view st (
    require_fields [("username", new_username data);
                    ("email", new_email data);
                    ("password", new_password data)];;
    let username := default "" (new_username data) in
    let email := default "" (new_email data) in
    return_if (username_exists username st)
      (error_body "Username already exists", 400%Z);;
    return_if (email_exists email st)
      (error_body "Email already exists", 400%Z);;
    let user := User.mk (next_rowid (user_table st)) username email ""
                  (default "" (new_first_name data))
                  (default "" (new_last_name data))
                  (default true (new_is_active data)) None None [] in
    user ← caught (set_password user (default "" (new_password data)));
    roles ← match new_role_ids data with
            | Some role_ids => caught (query_ids_in role_ids (role_table st))
            | None => inr []
            end;
    let st' := session_add_user utcnow user roles st in
    inr ((JObj [("message", JStr "User created successfully");
                ("user", from_option (λ u, User_to_dict u true) JNull
                           (User_query_get st' (User.id user)))],
          201%Z), st')).

Definition create_user `{Bcrypt} `{Sqlite} (utcnow : Utcnow) (identity : Z)
    (data : create_user_data) : State → Response * State :=
  require_permission "user_write" (create_user_body utcnow data) identity.

(** [GET /users/<int:user_id>] *)
Definition get_user_body (user_id : Z) (st : State) : Response * State :=
  run_view st (
    user ← get_or_404 user_id (User_query_get st user_id);
    inr ((JObj [("user", User_to_dict user true)], 200%Z), st)).

Definition get_user (identity user_id : Z) : State → Response * State :=
  require_permission "user_read" (get_user_body user_id) identity.

(** *** src/routes/role.py, continued *)

Record create_role_data : Type := mk_create_role_data {
  new_role_name : option string;
  new_role_description : option string;
  new_permission_ids : option (list Z)
}.

(** [POST /roles] *)
Definition create_role_body `{Sqlite} (data : create_role_data) (st : State)
    : Response * State :=
  run_view st (
    return_if (negb (truthy_str (new_role_name data)))
      (error_body "Role name is required", 400%Z);;
    let name := default "" (new_role_name data) in
    return_if (role_name_exists name st)
      (error_body "Role already exists", 400%Z);;
    let role := Role.mk (next_rowid (role_table st)) name
                  (default "" (new_role_description data)) [] in
    permissions ← match new_permission_ids data with
                  | Some permission_ids =>
                      caught (query_ids_in permission_ids (permission_table st))
                  | None => inr []
                  end;
    let st' := session_add_role role permissions st in
    inr ((JObj [("message", JStr "Role created successfully");
                ("role", from_option (λ r, Role_to_dict r true) JNull
                           (Role_query_get st' (Role.id role)))],
          201%Z), st')).

Definition create_role `{Sqlite} (identity : Z) (data : create_role_data)
    : State → Response * State :=
  require_permission "role_write" (create_role_body data) identity.

(** [GET /roles/<int:role_id>] *)
Definition get_role_body (role_id : Z) (st : State) : Response * State :=
  run_view st (
    role ← get_or_404 role_id (Role_query_get st role_id);
    inr ((JObj [("role", Role_to_dict role true)], 200%Z), st)).

Definition get_role (identity role_id : Z) : State → Response * State :=
  require_permission "role_read" (get_role_body role_id) identity.

Record permission_data : Type := mk_permission_data {
  perm_name : option string;
  perm_description : option string
}.

(** [POST /permissions] *)
Definition create_permission_body (data : permission_data) (st : State)
    : Response * State :=
  run_view st (
    return_if (negb (truthy_str (perm_name data)))
      (error_body "Permission name is required", 400%Z);;
    let name := default "" (perm_name data) in
    return_if (permission_name_exists name st)
      (error_body "Permission already exists", 400%Z);;
    let permission := Permission.mk (next_rowid (permission_table st)) name
                        (default "" (perm_description data)) in
    let st' := set_permission_table
                 (<[Permission.id permission :=
                      mk_permission_row (Permission.name permission)
                        (Permission.description permission)]>) st in
    inr ((JObj [("message", JStr "Permission created successfully");
                ("permission", Permission_to_dict permission)],
          201%Z), st')).

Definition create_permission (identity : Z) (data : permission_data)
    : State → Response * State :=
  require_permission "permission_write" (create_permission_body data) identity.

(** [GET /permissions/<int:permission_id>] *)
Definition get_permission_body (permission_id : Z) (st : State)
    : Response * State :=
  run_view st (
    permission ← get_or_404 permission_id (Permission_query_get st permission_id);
    inr ((JObj [("permission", Permission_to_dict permission)], 200%Z), st)).

Definition get_permission (identity permission_id : Z)
    : State → Response * State :=
  require_permission "permission_read" (get_permission_body permission_id) identity.

Definition permission_name_taken (v : string) (permission_id : Z) (st : State)
    : bool :=
  bool_decide (is_Some (query_first
    (λ k row, bool_decide (col_permission_name row = v)
              && negb (bool_decide (k = permission_id)))
    (permission_table st))).

(** [PUT /permissions/<int:permission_id>] *)
Definition update_permission_body (permission_id : Z) (data : permission_data)
    (st : State) : Response * State :=
  run_view st (
    permission ← get_or_404 permission_id (Permission_query_get st permission_id);
    permission ← match perm_name data with
                 | Some v =>
                     return_if (permission_name_taken v permission_id st)
                       (error_body "Permission name already exists", 400%Z);;
                     inr (Permission.mk (Permission.id permission) v
                            (Permission.description permission))
                 | None => inr permission
                 end;
    let permission := from_option
                        (λ v, Permission.mk (Permission.id permission)
                                (Permission.name permission) v)
                        permission (perm_description data) in
    let st' := set_permission_table
                 (<[permission_id :=
                      mk_permission_row (Permission.name permission)
                        (Permission.description permission)]>) st in
    inr ((JObj [("message", JStr "Permission updated successfully");
                ("permission", Permission_to_dict permission)],
          200%Z), st')).

Definition update_permission (identity permission_id : Z) (data : permission_data)
    : State → Response * State :=
  require_permission "permission_write"
    (update_permission_body permission_id data) identity.

(** ** src/main.py *)

Module Main.

Definition permissions_data : list (string * string) :=
  [("user_read", "Read user information");
   ("user_write", "Create and update users");
   ("user_delete", "Delete users");
   ("role_read", "Read role information");
   ("role_write", "Create and update roles");
   ("role_delete", "Delete roles");
   ("permission_read", "Read permission information");
   ("permission_write", "Create and update permissions");
   ("permission_delete", "Delete permissions")].

Definition roles_data : list (string * string) :=
  [("Admin", "System administrator with full access");
   ("HR", "Human resources manager");
   ("Employee", "Regular employee")].

(** One turn of the first loop: [if not Permission.query.filter_by(
    name=perm_name).first(): db.session.add(Permission(...))].  The
    query of the next turn flushes the pending row, so the rows get
    their ids in the order of the list. *)
Definition add_permission_if_missing (st : State) (p : string * string) : State :=
  if permission_name_exists p.1 st then st
  else set_permission_table
         (<[next_rowid (permission_table st) := mk_permission_row p.1 p.2]>) st.

Definition add_role_if_missing (st : State) (r : string * string) : State :=
  if role_name_exists r.1 st then st
  else set_role_table (<[next_rowid (role_table st) := mk_role_row r.1 r.2]>) st.

(** [Permission.query.all()] and [Permission.query.filter(
    Permission.name.in_(names)).all()], as the ids found. *)
Definition permission_ids_all (st : State) : list Z :=
  (map_to_list (permission_table st)).*1.

Definition permission_ids_named (names : list string) (st : State) : list Z :=
  (filter (λ kv, col_permission_name kv.2 ∈ names)
     (map_to_list (permission_table st))).*1.

(** [if role: role.permissions = permissions] on a role object loaded
    earlier. *)
Definition assign_permissions (role : option Role.t) (permission_ids : list Z)
    (st : State) : State :=
  match role with
  | Some role =>
      set_role_permissions
        (assoc_replace (Role.id role) (Permission.id <$> Role.permissions role)
           permission_ids) st
  | None => st
  end.

Definition init_database (st : State) : State :=
  let st := foldl add_permission_if_missing st permissions_data in
  let st := foldl add_role_if_missing st roles_data in
  let admin_role := find_role_by_name "Admin" st in
  let hr_role := find_role_by_name "HR" st in
  let employee_role := find_role_by_name "Employee" st in
  let st := assign_permissions admin_role (permission_ids_all st) st in
  let st := assign_permissions hr_role
              (permission_ids_named ["user_read"; "user_write"; "role_read"] st) st in
  let st := assign_permissions employee_role
              (permission_ids_named ["user_read"] st) st in
  st.

(** The routes that the three blueprints register, for the views
    modelled here (the three listing routes [GET /users], [GET /roles]
    and [GET /permissions] are not).  A protected route comes with the
    claims of its token; every request is served at its own time, with
    the clock readings [utcnow]. *)
Inductive request : Type :=
  | Register (data : register_data)
  | Login (data : login_data)
  | Logout (token : Jwt)
  | GetProfile (token : Jwt)
  | UpdateProfile (token : Jwt) (data : update_profile_data)
  | ChangePassword (token : Jwt) (data : change_password_data)
  | ForgotPassword (data_email : option string) (drawn : string)
  | ResetPassword (data : reset_password_data)
  | CreateUser (token : Jwt) (data : create_user_data)
  | GetUser (token : Jwt) (user_id : Z)
  | UpdateUser (token : Jwt) (user_id : Z) (data : update_user_data)
  | DeleteUser (token : Jwt) (user_id : Z)
  | AssignRoleToUser (token : Jwt) (user_id : Z) (data_role_id : option Z)
  | RemoveRoleFromUser (token : Jwt) (user_id role_id : Z)
  | CreateRole (token : Jwt) (data : create_role_data)
  | GetRole (token : Jwt) (role_id : Z)
  | UpdateRole (token : Jwt) (role_id : Z) (data : update_role_data)
  | DeleteRole (token : Jwt) (role_id : Z)
  | AssignPermissionToRole (token : Jwt) (role_id : Z) (data_permission_id : option Z)
  | RemovePermissionFromRole (token : Jwt) (role_id permission_id : Z)
  | CreatePermission (token : Jwt) (data : permission_data)
  | GetPermission (token : Jwt) (permission_id : Z)
  | UpdatePermission (token : Jwt) (permission_id : Z) (data : permission_data)
  | DeletePermission (token : Jwt) (permission_id : Z).

Definition handle `{Bcrypt} `{JWT} `{Sqlite} (utcnow : Utcnow) (req : request)
    (st : State) : Response * State :=
  match req with
  | Register data => register utcnow data st
  | Login data => login data st
  | Logout token => jwt_required token (logout (jwt_jti token)) st
  | GetProfile token => jwt_required token (get_profile (jwt_identity token)) st
  | UpdateProfile token data =>
      jwt_required token (update_profile utcnow (jwt_identity token) data) st
  | ChangePassword token data =>
      jwt_required token (change_password utcnow (jwt_identity token) data) st
  | ForgotPassword data_email drawn => forgot_password data_email drawn st
  | ResetPassword data => reset_password utcnow data st
  | CreateUser token data =>
      jwt_required token (create_user utcnow (jwt_identity token) data) st
  | GetUser token user_id =>
      jwt_required token (get_user (jwt_identity token) user_id) st
  | UpdateUser token user_id data =>
      jwt_required token
        (update_user utcnow (jwt_identity token) user_id data) st
  | DeleteUser token user_id =>
      jwt_required token (delete_user (jwt_identity token) user_id) st
  | AssignRoleToUser token user_id data_role_id =>
      jwt_required token
        (assign_role_to_user (jwt_identity token) user_id data_role_id) st
  | RemoveRoleFromUser token user_id role_id =>
      jwt_required token
        (remove_role_from_user (jwt_identity token) user_id role_id) st
  | CreateRole token data =>
      jwt_required token (create_role (jwt_identity token) data) st
  | GetRole token role_id =>
      jwt_required token (get_role (jwt_identity token) role_id) st
  | UpdateRole token role_id data =>
      jwt_required token (update_role (jwt_identity token) role_id data) st
  | DeleteRole token role_id =>
      jwt_required token (delete_role (jwt_identity token) role_id) st
  | AssignPermissionToRole token role_id data_permission_id =>
      jwt_required token
        (assign_permission_to_role (jwt_identity token) role_id data_permission_id) st
  | RemovePermissionFromRole token role_id permission_id =>
      jwt_required token
        (remove_permission_from_role (jwt_identity token) role_id permission_id) st
  | CreatePermission token data =>
      jwt_required token (create_permission (jwt_identity token) data) st
  | GetPermission token permission_id =>
      jwt_required token (get_permission (jwt_identity token) permission_id) st
  | UpdatePermission token permission_id data =>
      jwt_required token
        (update_permission (jwt_identity token) permission_id data) st
  | DeletePermission token permission_id =>
      jwt_required token (delete_permission (jwt_identity token) permission_id) st
  end.

(** The state after a sequence of requests, served one after the
    other, each with the clock readings of its time. *)
Definition serve_all `{Bcrypt} `{JWT} `{Sqlite} (reqs : list (Utcnow * request))
    (st : State) : State :=
  foldl (λ st req, (handle req.1 req.2 st).2) st reqs.

End Main.

(** ** src/seed_data.py *)

Module SeedData.

(** How a function of the script ends: it returns, or an exception it
    does not catch ends the script; either way with what it has
    committed so far. *)
Inductive ended : Type :=
  | Returned (st : State)
  | Raised (st : State).

(** [db.session.add(user)] followed by a flush: the [unique=True]
    columns make the insert raise [IntegrityError] when the username or
    the email is in use. *)
Definition add_user_checked (utcnow : Utcnow) (user : User.t) (role_ids : list Z)
    (st : State) : option State :=
  if username_exists (User.username user) st || email_exists (User.email user) st
  then None
  else Some (session_add_user utcnow user role_ids st).

(** A new [User] with its password set and one role, added to the
    session and flushed; [None] when [set_password] or the insert
    raises. *)
Definition new_user `{Bcrypt} (utcnow : Utcnow) (username email password : string)
    (first_name last_name : string) (role : Role.t) (st : State) : option State :=
  let user := User.mk (next_rowid (user_table st)) username email ""
                      first_name last_name true None None [] in
  match set_password user password with
  | inl _ => None
  | inr user => add_user_checked utcnow user [Role.id role] st
  end.

Definition seed_admin_user `{Bcrypt} (utcnow : Utcnow) (st : State) : ended :=
  if username_exists "admin" st then Returned st
  else match find_role_by_name "Admin" st with
       | None => Returned st
       | Some admin_role =>
           match new_user utcnow "admin" "admin@hrms.com" "admin123"
                   "System" "Administrator" admin_role st with
           | None => Raised st
           | Some st' => Returned st'
           end
       end.

(** The two users are committed together at the end of the function:
    when the script dies before, neither is written. *)
Definition seed_sample_users `{Bcrypt} (utcnow_hr utcnow_employee : Utcnow)
    (st : State) : ended :=
  let with_hr :=
    match find_role_by_name "HR" st with
    | Some hr_role =>
        if negb (username_exists "hr_manager" st)
        then new_user utcnow_hr "hr_manager" "hr@hrms.com" "hr123"
               "HR" "Manager" hr_role st
        else Some st
    | None => Some st
    end in
  match with_hr with
  | None => Raised st
  | Some st1 =>
      match find_role_by_name "Employee" st1 with
      | Some employee_role =>
          if negb (username_exists "john_doe" st1)
          then match new_user utcnow_employee "john_doe" "john.doe@hrms.com"
                       "employee123" "John" "Doe" employee_role st1 with
               | None => Raised st
               | Some st2 => Returned st2
               end
          else Returned st1
      | None => Returned st1
      end
  end.

(** The script's [__main__]: both functions, in this order. *)
Definition main `{Bcrypt} (utcnow_admin utcnow_hr utcnow_employee : Utcnow)
    (st : State) : ended :=
  match seed_admin_user utcnow_admin st with
  | Raised st' => Raised st'
  | Returned st' => seed_sample_users utcnow_hr utcnow_employee st'
  end.

(** The database with no row and the stores empty. *)
Definition empty : State := {|
  user_table := ∅;
  role_table := ∅;
  permission_table := ∅;
  user_roles := ∅;
  role_permissions := ∅;
  reset_tokens := ∅;
  blacklisted_tokens := ∅
|}.

End SeedData.

(** ** More vocabulary *)

(** The [unique=True] columns of the three models. *)
Definition unique_columns (st : State) : Prop :=
  unique_on col_username (user_table st)
  ∧ unique_on col_email (user_table st)
  ∧ unique_on col_role_name (role_table st)
  ∧ unique_on col_permission_name (permission_table st).

(** flask_bcrypt accepts the password a hash was made from. *)
Definition bcrypt_accepts_own `{Bcrypt} : Prop :=
  ∀ password hashed,
    generate_password_hash password = inr hashed →
    check_password_hash hashed password = inr true.

(** An id that a route with [<int:...>] in its path can be called with
    and that SQLite can look for: Flask's converter takes digits only. *)
Definition path_id (id : Z) : Prop := (0 ≤ id)%Z ∧ sqlite_int id = true.

(** The token a request comes with, if its route is protected. *)
Definition request_token (req : Main.request) : option Jwt :=
  match req with
  | Main.Register _ | Main.Login _ | Main.ForgotPassword _ _
  | Main.ResetPassword _ => None
  | Main.Logout token | Main.GetProfile token | Main.UpdateProfile token _
  | Main.ChangePassword token _ | Main.CreateUser token _ | Main.GetUser token _
  | Main.UpdateUser token _ _ | Main.DeleteUser token _
  | Main.AssignRoleToUser token _ _ | Main.RemoveRoleFromUser token _ _
  | Main.CreateRole token _ | Main.GetRole token _ | Main.UpdateRole token _ _
  | Main.DeleteRole token _ | Main.AssignPermissionToRole token _ _
  | Main.RemovePermissionFromRole token _ _ | Main.CreatePermission token _
  | Main.GetPermission token _ | Main.UpdatePermission token _ _
  | Main.DeletePermission token _ => Some token
  end.

(** A database that [init_database] has been run on before: the nine
    permissions and the three roles are there, by name. *)
Definition booted (st : State) : Prop :=
  (∀ p, p ∈ Main.permissions_data → permission_name_exists p.1 st = true)
  ∧ (∀ r, r ∈ Main.roles_data → role_name_exists r.1 st = true).
(** * Properties *)

(** ** The model methods *)

Lemma permissions_have_true (permissions : list Permission.t) (P : string) :
  permissions_have permissions P = true
  ↔ ∃ q, q ∈ permissions ∧ Permission.name q = P.
Proof.
  induction permissions as [|q rest IH]; simpl.
  - split; [done | intros (q & Hq & _); by apply elem_of_nil in Hq].
  - case_bool_decide as Hname.
    + split; [intros _; exists q; split; [left | done] | done].
    + rewrite IH. split.
      * intros (q' & Hq' & Hn). exists q'. split; [by right | done].
      * intros (q' & Hq' & Hn). apply elem_of_cons in Hq' as [-> | Hq']; [done |].
        by exists q'.
Qed.

Lemma roles_have_true (roles : list Role.t) (P : string) :
  roles_have roles P = true
  ↔ ∃ R q, R ∈ roles ∧ q ∈ Role.permissions R ∧ Permission.name q = P.
Proof.
  induction roles as [|R rest IH]; simpl.
  - split; [done | intros (R & q & HR & _); by apply elem_of_nil in HR].
  - destruct (permissions_have (Role.permissions R) P) eqn:Hhere.
    + apply permissions_have_true in Hhere as (q & Hq & Hn).
      split; [intros _; exists R, q; split; [left | done] | done].
    + rewrite IH. split.
      * intros (R' & q & HR' & Hq). exists R', q. split; [by right | done].
      * intros (R' & q & HR' & Hq & Hn).
        apply elem_of_cons in HR' as [-> | HR']; [| by exists R', q].
        assert (permissions_have (Role.permissions R) P = true) as Hyes
          by (apply permissions_have_true; by exists q).
        congruence.
Qed.

Lemma add_permission_names_union (permissions : list Permission.t) (acc : gset string) :
  add_permission_names permissions acc
  = list_to_set (Permission.name <$> permissions) ∪ acc.
Proof.
  revert acc. induction permissions as [|q rest IH]; intros acc; simpl.
  - set_solver.
  - rewrite IH. set_solver.
Qed.

Lemma add_role_permissions_union (roles : list Role.t) (acc : gset string) :
  add_role_permissions roles acc
  = ⋃ ((λ R, list_to_set (Permission.name <$> Role.permissions R)) <$> roles) ∪ acc.
Proof.
  revert acc. induction roles as [|R rest IH]; intros acc; simpl.
  - set_solver.
  - rewrite IH, add_permission_names_union. set_solver.
Qed.

Lemma get_permissions_union (U : User.t) :
  get_permissions U
  = ⋃ ((λ R, list_to_set (Permission.name <$> Role.permissions R)) <$> User.roles U).
Proof. unfold get_permissions. rewrite add_role_permissions_union. set_solver. Qed.

Lemma elem_of_get_permissions (U : User.t) (P : string) :
  P ∈ get_permissions U
  ↔ ∃ R q, R ∈ User.roles U ∧ q ∈ Role.permissions R ∧ Permission.name q = P.
Proof.
  rewrite get_permissions_union, elem_of_union_list. split.
  - intros (X & HX & HP). apply list_elem_of_fmap in HX as (R & -> & HR).
    apply elem_of_list_to_set, list_elem_of_fmap in HP as (q & -> & Hq).
    by exists R, q.
  - intros (R & q & HR & Hq & <-).
    exists (list_to_set (Permission.name <$> Role.permissions R)). split.
    + apply list_elem_of_fmap. by exists R.
    + apply elem_of_list_to_set, list_elem_of_fmap. by exists q.
Qed.

(** ** Loading from the tables *)

Lemma elem_of_related (assoc : gset (Z * Z)) (k v : Z) :
  v ∈ related assoc k ↔ (k, v) ∈ assoc.
Proof.
  unfold related. rewrite list_elem_of_fmap. split.
  - intros ([k' v'] & -> & Hin). apply elem_of_elements, elem_of_filter in Hin.
    simpl in *. by destruct Hin as [-> ?].
  - intros Hin. exists (k, v). split; [done |].
    apply elem_of_elements, elem_of_filter. done.
Qed.

Lemma elem_of_related_back (assoc : gset (Z * Z)) (k v : Z) :
  v ∈ related_back assoc k ↔ (v, k) ∈ assoc.
Proof.
  unfold related_back. rewrite list_elem_of_fmap. split.
  - intros ([v' k'] & -> & Hin). apply elem_of_elements, elem_of_filter in Hin.
    simpl in *. by destruct Hin as [-> ?].
  - intros Hin. exists (v, k). split; [done |].
    apply elem_of_elements, elem_of_filter. done.
Qed.

Lemma Permission_query_get_id (st : State) (k : Z) (q : Permission.t) :
  Permission_query_get st k = Some q → Permission.id q = k.
Proof.
  unfold Permission_query_get. destruct (permission_table st !! k); simpl; [| done].
  by intros [= <-].
Qed.

Lemma Role_query_get_id (st : State) (k : Z) (R : Role.t) :
  Role_query_get st k = Some R → Role.id R = k.
Proof.
  unfold Role_query_get. destruct (role_table st !! k); simpl; [| done].
  by intros [= <-].
Qed.

Lemma User_query_get_id (st : State) (k : Z) (U : User.t) :
  User_query_get st k = Some U → User.id U = k.
Proof.
  unfold User_query_get. destruct (user_table st !! k); simpl; [| done].
  by intros [= <-].
Qed.

Lemma Role_query_get_permissions (st : State) (k : Z) (R : Role.t) :
  Role_query_get st k = Some R → Role.permissions R = Role_permissions st k.
Proof.
  unfold Role_query_get. destruct (role_table st !! k); simpl; [| done].
  by intros [= <-].
Qed.

Lemma User_query_get_roles (st : State) (k : Z) (U : User.t) :
  User_query_get st k = Some U → User.roles U = User_roles st k.
Proof.
  unfold User_query_get. destruct (user_table st !! k); simpl; [| done].
  by intros [= <-].
Qed.

Lemma Permission_query_get_is_Some (st : State) (k : Z) :
  is_Some (Permission_query_get st k) ↔ is_Some (permission_table st !! k).
Proof. unfold Permission_query_get. by rewrite fmap_is_Some. Qed.

Lemma Role_query_get_is_Some (st : State) (k : Z) :
  is_Some (Role_query_get st k) ↔ is_Some (role_table st !! k).
Proof. unfold Role_query_get. by rewrite fmap_is_Some. Qed.

Lemma User_query_get_is_Some (st : State) (k : Z) :
  is_Some (User_query_get st k) ↔ is_Some (user_table st !! k).
Proof. unfold User_query_get. by rewrite fmap_is_Some. Qed.

Lemma elem_of_Role_permissions (st : State) (role_id : Z) (q : Permission.t) :
  q ∈ Role_permissions st role_id
  ↔ (role_id, Permission.id q) ∈ role_permissions st
    ∧ Permission_query_get st (Permission.id q) = Some q.
Proof.
  unfold Role_permissions. rewrite list_elem_of_omap. split.
  - intros (k & Hk & Hget). pose proof (Permission_query_get_id _ _ _ Hget) as ->.
    by apply elem_of_related in Hk.
  - intros [Hin Hget]. exists (Permission.id q). by rewrite elem_of_related.
Qed.

Lemma elem_of_User_roles (st : State) (user_id : Z) (R : Role.t) :
  R ∈ User_roles st user_id
  ↔ (user_id, Role.id R) ∈ user_roles st ∧ Role_query_get st (Role.id R) = Some R.
Proof.
  unfold User_roles. rewrite list_elem_of_omap. split.
  - intros (k & Hk & Hget). pose proof (Role_query_get_id _ _ _ Hget) as ->.
    by apply elem_of_related in Hk.
  - intros [Hin Hget]. exists (Role.id R). by rewrite elem_of_related.
Qed.

Lemma elem_of_Role_users (st : State) (role_id : Z) (U : User.t) :
  U ∈ Role_users st role_id
  ↔ (User.id U, role_id) ∈ user_roles st ∧ User_query_get st (User.id U) = Some U.
Proof.
  unfold Role_users. rewrite list_elem_of_omap. split.
  - intros (k & Hk & Hget). pose proof (User_query_get_id _ _ _ Hget) as ->.
    by apply elem_of_related_back in Hk.
  - intros [Hin Hget]. exists (User.id U). by rewrite elem_of_related_back.
Qed.

Lemma elem_of_Permission_roles (st : State) (permission_id : Z) (R : Role.t) :
  R ∈ Permission_roles st permission_id
  ↔ (Role.id R, permission_id) ∈ role_permissions st
    ∧ Role_query_get st (Role.id R) = Some R.
Proof.
  unfold Permission_roles. rewrite list_elem_of_omap. split.
  - intros (k & Hk & Hget). pose proof (Role_query_get_id _ _ _ Hget) as ->.
    by apply elem_of_related_back in Hk.
  - intros [Hin Hget]. exists (Role.id R). by rewrite elem_of_related_back.
Qed.

Lemma Permission_query_get_Some (st : State) (k : Z) (q : Permission.t) :
  Permission_query_get st k = Some q
  ↔ ∃ row, permission_table st !! k = Some row
           ∧ q = Permission.mk k (col_permission_name row)
                               (col_permission_description row).
Proof.
  unfold Permission_query_get. destruct (permission_table st !! k) as [row|]; simpl.
  - split; [intros [= <-]; by exists row | by intros (? & [= <-] & ->)].
  - split; [done | by intros (? & ? & _)].
Qed.

Lemma Role_query_get_Some (st : State) (k : Z) (R : Role.t) :
  Role_query_get st k = Some R
  ↔ ∃ row, role_table st !! k = Some row
           ∧ R = Role.mk k (col_role_name row) (col_role_description row)
                         (Role_permissions st k).
Proof.
  unfold Role_query_get. destruct (role_table st !! k) as [row|]; simpl.
  - split; [intros [= <-]; by exists row | by intros (? & [= <-] & ->)].
  - split; [done | by intros (? & ? & _)].
Qed.

Lemma User_query_get_Some (st : State) (k : Z) (U : User.t) :
  User_query_get st k = Some U
  ↔ ∃ row, user_table st !! k = Some row
           ∧ U = User.mk k (col_username row) (col_email row) (col_password row)
                         (col_first_name row) (col_last_name row)
                         (col_is_active row) (col_created_at row)
                         (col_updated_at row) (User_roles st k).
Proof.
  unfold User_query_get. destruct (user_table st !! k) as [row|]; simpl.
  - split; [intros [= <-]; by exists row | by intros (? & [= <-] & ->)].
  - split; [done | by intros (? & ? & _)].
Qed.

Lemma has_permission_loaded (st : State) (user_id : Z) (U : User.t) (P : string) :
  User_query_get st user_id = Some U →
  has_permission U P = true
  ↔ ∃ role_id permission_id row,
      (user_id, role_id) ∈ user_roles st
      ∧ is_Some (role_table st !! role_id)
      ∧ (role_id, permission_id) ∈ role_permissions st
      ∧ permission_table st !! permission_id = Some row
      ∧ col_permission_name row = P.
Proof.
  intros Hload. unfold has_permission.
  rewrite (User_query_get_roles _ _ _ Hload), roles_have_true. split.
  - intros (R & q & HR & Hq & Hname).
    apply elem_of_User_roles in HR as [Hur HgetR].
    rewrite (Role_query_get_permissions _ _ _ HgetR) in Hq.
    apply elem_of_Role_permissions in Hq as [Hrp Hgetq].
    apply Permission_query_get_Some in Hgetq as (row & Hrow & Hq).
    exists (Role.id R), (Permission.id q), row.
    split_and!; [done | | done | done | by rewrite Hq in Hname].
    apply Role_query_get_is_Some. by exists R.
  - intros (role_id & permission_id & row & Hur & [rrow Hrrow] & Hrp & Hrow & Hname).
    set (q := Permission.mk permission_id (col_permission_name row)
                            (col_permission_description row)).
    set (R := Role.mk role_id (col_role_name rrow) (col_role_description rrow)
                      (Role_permissions st role_id)).
    assert (Permission_query_get st permission_id = Some q) as Hgetq
      by (apply Permission_query_get_Some; by exists row).
    assert (Role_query_get st role_id = Some R) as HgetR
      by (apply Role_query_get_Some; by exists rrow).
    exists R, q. split_and!; [| | done].
    + by apply elem_of_User_roles.
    + by apply elem_of_Role_permissions.
Qed.

(** C1.  [has_permission(U, P)] answers [True] exactly when some role in
    [U.roles] carries a permission named [P]; that is, exactly when [P]
    is in [get_permissions(U)], which is the union over the user's roles
    of the names of their permissions.  For a user loaded from the
    tables, this is: some row of [user_roles] pairs the user with an
    existing role that some row of [role_permissions] pairs with an
    existing permission named [P], in the state the call is made in. *)
Theorem has_permission_iff_union (U : User.t) (P : string) :
  (has_permission U P = true
   ↔ ∃ R q, R ∈ User.roles U ∧ q ∈ Role.permissions R ∧ Permission.name q = P)
  ∧ (has_permission U P = true ↔ P ∈ get_permissions U)
  ∧ get_permissions U
    = ⋃ ((λ R, list_to_set (Permission.name <$> Role.permissions R)) <$> User.roles U)
  ∧ ∀ st user_id,
      User_query_get st user_id = Some U →
      (has_permission U P = true
       ↔ ∃ role_id permission_id row,
           (user_id, role_id) ∈ user_roles st
           ∧ is_Some (role_table st !! role_id)
           ∧ (role_id, permission_id) ∈ role_permissions st
           ∧ permission_table st !! permission_id = Some row
           ∧ col_permission_name row = P).
Proof.
  split_and!.
  - apply roles_have_true.
  - unfold has_permission. by rewrite roles_have_true, elem_of_get_permissions.
  - apply get_permissions_union.
  - intros st user_id Hload. by apply has_permission_loaded.
Qed.

Lemma has_permission_iff_union_witness :
  ∃ U, User_query_get Seed.state 2 = Some U
       ∧ has_permission U "user_write" = true
       ∧ has_permission U "user_delete" = false
       ∧ ∃ role_id permission_id row,
           (2%Z, role_id) ∈ user_roles Seed.state
           ∧ is_Some (role_table Seed.state !! role_id)
           ∧ (role_id, permission_id) ∈ role_permissions Seed.state
           ∧ permission_table Seed.state !! permission_id = Some row
           ∧ col_permission_name row = "user_write".
Proof.
  eexists. split; [vm_compute; reflexivity |].
  split; [vm_compute; reflexivity |]. split; [vm_compute; reflexivity |].
  eapply has_permission_iff_union; vm_compute; reflexivity.
Defined.

(** ** Queries *)

Lemma least_id_None {A : Type} (rows : list (Z * A)) :
  least_id rows = None ↔ rows = [].
Proof.
  destruct rows as [|x rest]; simpl; [done |].
  destruct (least_id rest) as [y|]; [case_bool_decide |]; done.
Qed.

Lemma least_id_elem {A : Type} (rows : list (Z * A)) (x : Z * A) :
  least_id rows = Some x → x ∈ rows.
Proof.
  revert x. induction rows as [|y rest IH]; intros x; simpl; [done |].
  destruct (least_id rest) as [z|] eqn:Hrest.
  - case_bool_decide; intros [= <-]; [left | right; by apply IH].
  - intros [= <-]. left.
Qed.

Lemma query_first_Some {A : Type} (P : Z → A → bool) (table : gmap Z A) k v :
  query_first P table = Some (k, v) → table !! k = Some v ∧ P k v = true.
Proof.
  intros Hq. apply least_id_elem, list_elem_of_filter in Hq as [HP Hin].
  by apply elem_of_map_to_list in Hin.
Qed.

Lemma query_first_None {A : Type} (P : Z → A → bool) (table : gmap Z A) :
  query_first P table = None ↔ ∀ k v, table !! k = Some v → P k v = false.
Proof.
  unfold query_first. rewrite least_id_None. split.
  - intros Hnil k v Hkv. destruct (P k v) eqn:HP; [| done].
    assert ((k, v) ∈ filter (λ kv, P kv.1 kv.2 = true) (map_to_list table)) as Hin
      by (apply list_elem_of_filter; split; [done | by apply elem_of_map_to_list]).
    rewrite Hnil in Hin. by apply elem_of_nil in Hin.
  - intros Hall. apply elem_of_nil_inv. intros [k v] Hin.
    apply list_elem_of_filter in Hin as [HP Hin].
    apply elem_of_map_to_list in Hin. simpl in HP.
    rewrite (Hall _ _ Hin) in HP. done.
Qed.

Lemma query_first_unique {A : Type} (P : Z → A → bool) (table : gmap Z A)
    (k : Z) (v : A) :
  table !! k = Some v → P k v = true →
  (∀ k' v', table !! k' = Some v' → P k' v' = true → k' = k) →
  query_first P table = Some (k, v).
Proof.
  intros Hkv HP Honly.
  destruct (query_first P table) as [[k' v']|] eqn:Hq.
  - apply query_first_Some in Hq as [Hkv' HP'].
    pose proof (Honly _ _ Hkv' HP') as ->. congruence.
  - rewrite query_first_None in Hq. rewrite (Hq _ _ Hkv) in HP. done.
Qed.

Section QueryIdsIn.
Context `{Sqlite} {A : Type}.

Lemma elem_of_query_ids_in (ids : list Z) (table : gmap Z A) (found : list Z)
    (k : Z) :
  query_ids_in ids table = inr found →
  k ∈ found ↔ k ∈ ids ∧ is_Some (table !! k).
Proof.
  unfold query_ids_in.
  destruct (negb (bool_decide _)); [done |].
  destruct (negb (forallb sqlite_int ids)); [done |].
  intros [= <-]. rewrite list_elem_of_filter, list_elem_of_fmap. split.
  - intros [Hk ([k' v] & -> & Hin)]. split; [done |].
    apply elem_of_map_to_list in Hin. by exists v.
  - intros [Hk [v Hv]]. split; [done |]. exists (k, v).
    split; [done | by apply elem_of_map_to_list].
Qed.

Lemma query_ids_in_bindable (ids : list Z) (table : gmap Z A) :
  bindable ids = true → ∃ found, query_ids_in ids table = inr found.
Proof.
  unfold bindable, query_ids_in. intros [-> ->]%andb_true_iff. simpl. eauto.
Qed.

Lemma query_ids_in_not_bindable (ids : list Z) (table : gmap Z A) :
  bindable ids = false → ∃ msg, query_ids_in ids table = inl msg.
Proof.
  unfold bindable, query_ids_in. intros [-> | ->]%andb_false_iff; simpl.
  - eauto.
  - destruct (negb (bool_decide _)); eauto.
Qed.

End QueryIdsIn.

(** ** The decorator *)

Lemma require_permission_authorized (p : string) (f : State → Response * State)
    (identity : Z) (st : State) :
  authorized st identity p → require_permission p f identity st = f st.
Proof.
  intros (caller & Hget & Hperm). unfold require_permission.
  by rewrite Hget, Hperm.
Qed.

Lemma authorized_user_exists (st : State) (identity : Z) (p : string) :
  authorized st identity p → is_Some (user_table st !! identity).
Proof.
  intros (caller & Hget & _). apply User_query_get_is_Some. by exists caller.
Qed.

(** C3, as the claim has it, fails: with a verified token whose user is
    gone, a gated route answers 404, not 401.  Identity 7 is no user of
    the seeded database. *)
Lemma require_permission_absent_user_not_401 :
  ¬ (∀ (p : string) (f : State → Response * State) (identity : Z) (st : State),
       user_table st !! identity = None →
       status (require_permission p f identity st).1 = 401%Z).
Proof.
  intros Hclaim.
  specialize (Hclaim "role_delete" (delete_role_body 3) 7%Z Seed.state eq_refl).
  vm_compute in Hclaim. discriminate Hclaim.
Qed.

(** C3, amended.  After the token has verified, the decorator answers
    404 "User not found" when no user row has the verified identity,
    403 "Insufficient permissions" when the user exists and lacks the
    permission, and otherwise hands over to the wrapped view; 403 is
    therefore the decorator's answer only to an existing user without
    the permission.  The state is left as it was in both refusals. *)
Theorem require_permission_outcomes (p : string) (f : State → Response * State)
    (identity : Z) (st : State) :
  (user_table st !! identity = None →
   require_permission p f identity st = ((error_body "User not found", 404%Z), st))
  ∧ (∀ U, User_query_get st identity = Some U → has_permission U p = false →
          require_permission p f identity st
          = ((error_body "Insufficient permissions", 403%Z), st))
  ∧ (∀ U, User_query_get st identity = Some U → has_permission U p = true →
          require_permission p f identity st = f st)
  ∧ (require_permission p f identity st ≠ f st →
     status (require_permission p f identity st).1 = 403%Z →
     ∃ U, User_query_get st identity = Some U ∧ has_permission U p = false).
Proof.
  unfold require_permission. split_and!.
  - intros Hnone. unfold User_query_get. by rewrite Hnone.
  - intros U -> ->. done.
  - intros U -> ->. done.
  - destruct (User_query_get st identity) as [U|]; [| done].
    destruct (has_permission U p) eqn:Hperm; simpl; [done |].
    intros _ _. by exists U.
Qed.

Lemma require_permission_outcomes_witness :
  user_table Seed.state !! 7%Z = None
  ∧ delete_role 7 3 Seed.state = ((error_body "User not found", 404%Z), Seed.state)
  ∧ delete_role 3 3 Seed.state
    = ((error_body "Insufficient permissions", 403%Z), Seed.state).
Proof.
  split; [reflexivity |]. split.
  - apply (require_permission_outcomes "role_delete" (delete_role_body 3) 7 Seed.state).
    reflexivity.
  - eapply (require_permission_outcomes "role_delete" (delete_role_body 3) 3 Seed.state).
    + vm_compute. reflexivity.
    + vm_compute. reflexivity.
Defined.

(** ** DELETE /users/<id> *)

(** C8.  A caller holding [user_delete] who asks for the deletion of
    their own id gets 400 "Cannot delete your own account" and nothing
    is deleted; asking for another, existing user deletes that row (and
    no other) with 200. *)
Theorem delete_user_self_guard (st : State) (identity : Z) :
  authorized st identity "user_delete" →
  (delete_user identity identity st
   = ((error_body "Cannot delete your own account", 400%Z), st)
   ∧ is_Some (user_table st !! identity))
  ∧ ∀ user_id,
      user_id ≠ identity →
      is_Some (user_table st !! user_id) →
      ∃ st', delete_user identity user_id st
             = ((message_body "User deleted successfully", 200%Z), st')
             ∧ user_table st' !! user_id = None
             ∧ ∀ k, k ≠ user_id → user_table st' !! k = user_table st !! k.
Proof.
  intros Hauth. split.
  - split; [| by eapply authorized_user_exists].
    unfold delete_user. rewrite require_permission_authorized by done.
    unfold delete_user_body. by rewrite bool_decide_eq_true_2.
  - intros user_id Hne Hexists.
    apply User_query_get_is_Some in Hexists as [user Hget].
    pose proof (User_query_get_id _ _ _ Hget) as Hid.
    exists (session_delete_user user st). split_and!.
    + unfold delete_user. rewrite require_permission_authorized by done.
      unfold delete_user_body.
      rewrite bool_decide_eq_false_2 by done. simpl. by rewrite Hget.
    + simpl. rewrite Hid. apply lookup_delete_eq.
    + intros k Hk. simpl. rewrite Hid. by apply lookup_delete_ne.
Qed.

Lemma delete_user_self_guard_witness :
  delete_user 1 1 Seed.state
  = ((error_body "Cannot delete your own account", 400%Z), Seed.state)
  ∧ ∃ st', delete_user 1 3 Seed.state
           = ((message_body "User deleted successfully", 200%Z), st')
           ∧ user_table st' !! 3%Z = None.
Proof.
  assert (authorized Seed.state 1 "user_delete") as Hauth
    by (eexists; split; vm_compute; reflexivity).
  destruct (delete_user_self_guard Seed.state 1 Hauth) as [[Hself _] Hother].
  split; [exact Hself |].
  destruct (Hother 3%Z) as (st' & Hrun & Hgone & _).
  - discriminate.
  - vm_compute. eauto.
  - exists st'. by split.
Defined.

(** ** DELETE /roles/<id> and DELETE /permissions/<id> *)

Lemma NoDup_related_back (assoc : gset (Z * Z)) (k : Z) :
  NoDup (related_back assoc k).
Proof.
  unfold related_back. apply NoDup_fmap_2_strong; [| apply NoDup_elements].
  intros [a b] [a' b'] Hin Hin' Heq. simpl in Heq. subst a'.
  apply elem_of_elements, elem_of_filter in Hin as [Hb _].
  apply elem_of_elements, elem_of_filter in Hin' as [Hb' _].
  simpl in *. congruence.
Qed.

Lemma omap_User_query_get_ids (st : State) (ids : list Z) :
  User.id <$> omap (User_query_get st) ids
  = filter (λ k, is_Some (user_table st !! k)) ids.
Proof.
  induction ids as [|k rest IH]; [done |].
  rewrite filter_cons. simpl. unfold User_query_get at 1.
  destruct (user_table st !! k) as [row|] eqn:Hrow; simpl.
  - destruct (decide (is_Some (Some row))) as [_ | Hno]; [| by destruct Hno].
    f_equal. exact IH.
  - exact IH.
Qed.

Lemma omap_Role_query_get_ids (st : State) (ids : list Z) :
  Role.id <$> omap (Role_query_get st) ids
  = filter (λ k, is_Some (role_table st !! k)) ids.
Proof.
  induction ids as [|k rest IH]; [done |].
  rewrite filter_cons. simpl. unfold Role_query_get at 1.
  destruct (role_table st !! k) as [row|] eqn:Hrow; simpl.
  - destruct (decide (is_Some (Some row))) as [_ | Hno]; [| by destruct Hno].
    f_equal. exact IH.
  - exact IH.
Qed.

Lemma omap_Permission_query_get_ids (st : State) (ids : list Z) :
  Permission.id <$> omap (Permission_query_get st) ids
  = filter (λ k, is_Some (permission_table st !! k)) ids.
Proof.
  induction ids as [|k rest IH]; [done |].
  rewrite filter_cons. simpl. unfold Permission_query_get at 1.
  destruct (permission_table st !! k) as [row|] eqn:Hrow; simpl.
  - destruct (decide (is_Some (Some row))) as [_ | Hno]; [| by destruct Hno].
    f_equal. exact IH.
  - exact IH.
Qed.

(** The users behind [role.users], by id: the holders of the role,
    each once. *)
Lemma Role_users_ids (st : State) (role_id : Z) :
  NoDup (User.id <$> Role_users st role_id)
  ∧ ∀ user_id, user_id ∈ User.id <$> Role_users st role_id
               ↔ (user_id, role_id) ∈ user_roles st
                 ∧ is_Some (user_table st !! user_id).
Proof.
  unfold Role_users. rewrite omap_User_query_get_ids. split.
  - apply NoDup_filter, NoDup_related_back.
  - intros user_id. rewrite list_elem_of_filter, elem_of_related_back. tauto.
Qed.

Lemma Permission_roles_ids (st : State) (permission_id : Z) :
  NoDup (Role.id <$> Permission_roles st permission_id)
  ∧ ∀ role_id, role_id ∈ Role.id <$> Permission_roles st permission_id
               ↔ (role_id, permission_id) ∈ role_permissions st
                 ∧ is_Some (role_table st !! role_id).
Proof.
  unfold Permission_roles. rewrite omap_Role_query_get_ids. split.
  - apply NoDup_filter, NoDup_related_back.
  - intros role_id. rewrite list_elem_of_filter, elem_of_related_back. tauto.
Qed.

Lemma nonempty_length {A : Type} (l : list A) : l ≠ [] → (1 ≤ length l)%nat.
Proof. destruct l; simpl; [done | lia]. Qed.

Lemma delete_role_body_blocked (st : State) (role_id : Z) :
  is_Some (role_table st !! role_id) →
  Role_users st role_id ≠ [] →
  delete_role_body role_id st
  = ((error_body ("Cannot delete role. It is assigned to "
                  +:+ pretty (length (Role_users st role_id)) +:+ " user(s)"),
      400%Z), st).
Proof.
  intros Hrole Husers. apply Role_query_get_is_Some in Hrole as [role Hget].
  unfold delete_role_body. rewrite Hget. simpl.
  by rewrite bool_decide_eq_false_2.
Qed.

Lemma delete_role_body_free (st : State) (role_id : Z) (role : Role.t) :
  Role_query_get st role_id = Some role →
  Role_users st role_id = [] →
  delete_role_body role_id st
  = ((message_body "Role deleted successfully", 200%Z), session_delete_role role st).
Proof.
  intros Hget Husers. unfold delete_role_body. rewrite Hget. simpl.
  by rewrite Husers.
Qed.

Lemma delete_permission_body_blocked (st : State) (permission_id : Z) :
  is_Some (permission_table st !! permission_id) →
  Permission_roles st permission_id ≠ [] →
  delete_permission_body permission_id st
  = ((error_body ("Cannot delete permission. It is assigned to "
                  +:+ pretty (length (Permission_roles st permission_id))
                  +:+ " role(s)"),
      400%Z), st).
Proof.
  intros Hperm Hroles.
  apply Permission_query_get_is_Some in Hperm as [permission Hget].
  unfold delete_permission_body. rewrite Hget. simpl.
  by rewrite bool_decide_eq_false_2.
Qed.

Lemma delete_permission_body_free (st : State) (permission_id : Z)
    (permission : Permission.t) :
  Permission_query_get st permission_id = Some permission →
  Permission_roles st permission_id = [] →
  delete_permission_body permission_id st
  = ((message_body "Permission deleted successfully", 200%Z),
     session_delete_permission permission st).
Proof.
  intros Hget Hroles. unfold delete_permission_body. rewrite Hget. simpl.
  by rewrite Hroles.
Qed.

Lemma Role_users_nonempty (st : State) (role_id user_id : Z) :
  (user_id, role_id) ∈ user_roles st →
  is_Some (user_table st !! user_id) →
  Role_users st role_id ≠ [].
Proof.
  intros Hin Hex Hnil.
  assert (user_id ∈ User.id <$> Role_users st role_id) as Hmem
    by (by apply Role_users_ids).
  rewrite Hnil in Hmem. by apply elem_of_nil in Hmem.
Qed.

Lemma Role_users_empty (st : State) (role_id : Z) :
  (∀ user_id, (user_id, role_id) ∉ user_roles st) → Role_users st role_id = [].
Proof.
  intros Hnone. apply elem_of_nil_inv. intros U HU.
  apply elem_of_Role_users in HU as [Hin _]. by apply (Hnone (User.id U)).
Qed.

Lemma Permission_roles_nonempty (st : State) (permission_id role_id : Z) :
  (role_id, permission_id) ∈ role_permissions st →
  is_Some (role_table st !! role_id) →
  Permission_roles st permission_id ≠ [].
Proof.
  intros Hin Hex Hnil.
  assert (role_id ∈ Role.id <$> Permission_roles st permission_id) as Hmem
    by (by apply Permission_roles_ids).
  rewrite Hnil in Hmem. by apply elem_of_nil in Hmem.
Qed.

Lemma Permission_roles_empty (st : State) (permission_id : Z) :
  (∀ role_id, (role_id, permission_id) ∉ role_permissions st) →
  Permission_roles st permission_id = [].
Proof.
  intros Hnone. apply elem_of_nil_inv. intros R HR.
  apply elem_of_Permission_roles in HR as [Hin _]. by apply (Hnone (Role.id R)).
Qed.

(** C4.  For a caller allowed to delete: while some existing user holds
    the role, [DELETE /roles/<id>] answers 400 with the number of
    holders ([len(role.users)], at least 1) in its message and changes
    nothing; while some existing role references the permission,
    [DELETE /permissions/<id>] does likewise with the number of roles.
    Once no association row mentions the entity the delete answers 200,
    its row is gone, and no other role, user or permission row is
    touched. *)
Theorem delete_refused_while_referenced (st : State) (identity : Z) :
  (∀ role_id,
     authorized st identity "role_delete" →
     is_Some (role_table st !! role_id) →
     ((∃ user_id, (user_id, role_id) ∈ user_roles st
                  ∧ is_Some (user_table st !! user_id)) →
      (1 ≤ length (Role_users st role_id))%nat
      ∧ delete_role identity role_id st
        = ((error_body ("Cannot delete role. It is assigned to "
                        +:+ pretty (length (Role_users st role_id))
                        +:+ " user(s)"), 400%Z), st))
     ∧ ((∀ user_id, (user_id, role_id) ∉ user_roles st) →
        ∃ st', delete_role identity role_id st
               = ((message_body "Role deleted successfully", 200%Z), st')
               ∧ role_table st' !! role_id = None
               ∧ (∀ k, k ≠ role_id → role_table st' !! k = role_table st !! k)
               ∧ user_table st' = user_table st
               ∧ permission_table st' = permission_table st))
  ∧ (∀ permission_id,
       authorized st identity "permission_delete" →
       is_Some (permission_table st !! permission_id) →
       ((∃ role_id, (role_id, permission_id) ∈ role_permissions st
                    ∧ is_Some (role_table st !! role_id)) →
        (1 ≤ length (Permission_roles st permission_id))%nat
        ∧ delete_permission identity permission_id st
          = ((error_body ("Cannot delete permission. It is assigned to "
                          +:+ pretty (length (Permission_roles st permission_id))
                          +:+ " role(s)"), 400%Z), st))
       ∧ ((∀ role_id, (role_id, permission_id) ∉ role_permissions st) →
          ∃ st', delete_permission identity permission_id st
                 = ((message_body "Permission deleted successfully", 200%Z), st')
                 ∧ permission_table st' !! permission_id = None
                 ∧ (∀ k, k ≠ permission_id →
                         permission_table st' !! k = permission_table st !! k)
                 ∧ user_table st' = user_table st
                 ∧ role_table st' = role_table st)).
Proof.
  split.
  - intros role_id Hauth Hrole. split.
    + intros (user_id & Hin & Hex).
      pose proof (Role_users_nonempty _ _ _ Hin Hex) as Hne.
      split; [by apply nonempty_length |].
      unfold delete_role. rewrite require_permission_authorized by done.
      by apply delete_role_body_blocked.
    + intros Hnone. pose proof (Role_users_empty _ _ Hnone) as Hnil.
      apply Role_query_get_is_Some in Hrole as [role Hget].
      pose proof (Role_query_get_id _ _ _ Hget) as Hid.
      exists (session_delete_role role st). split_and!.
      * unfold delete_role. rewrite require_permission_authorized by done.
        by apply delete_role_body_free.
      * simpl. rewrite Hid. apply lookup_delete_eq.
      * intros k Hk. simpl. rewrite Hid. by apply lookup_delete_ne.
      * done.
      * done.
  - intros permission_id Hauth Hperm. split.
    + intros (role_id & Hin & Hex).
      pose proof (Permission_roles_nonempty _ _ _ Hin Hex) as Hne.
      split; [by apply nonempty_length |].
      unfold delete_permission. rewrite require_permission_authorized by done.
      by apply delete_permission_body_blocked.
    + intros Hnone. pose proof (Permission_roles_empty _ _ Hnone) as Hnil.
      apply Permission_query_get_is_Some in Hperm as [permission Hget].
      pose proof (Permission_query_get_id _ _ _ Hget) as Hid.
      exists (session_delete_permission permission st). split_and!.
      * unfold delete_permission. rewrite require_permission_authorized by done.
        by apply delete_permission_body_free.
      * simpl. rewrite Hid. apply lookup_delete_eq.
      * intros k Hk. simpl. rewrite Hid. by apply lookup_delete_ne.
      * done.
      * done.
Qed.

Lemma delete_refused_while_referenced_witness :
  delete_role 1 3 Seed.state
  = ((error_body "Cannot delete role. It is assigned to 1 user(s)", 400%Z), Seed.state)
  ∧ (∃ st', delete_role 1 3 Seed.after_unassign
            = ((message_body "Role deleted successfully", 200%Z), st')
            ∧ role_table st' !! 3%Z = None)
  ∧ delete_permission 1 8 Seed.state
    = ((error_body "Cannot delete permission. It is assigned to 1 role(s)", 400%Z),
       Seed.state)
  ∧ (∃ st', delete_permission 1 8 Seed.after_revoke
            = ((message_body "Permission deleted successfully", 200%Z), st')
            ∧ permission_table st' !! 8%Z = None).
Proof.
  split_and!.
  - apply (delete_refused_while_referenced Seed.state 1).
    + eexists; split; vm_compute; reflexivity.
    + vm_compute; eauto.
    + exists 3%Z. split; [| vm_compute; eauto].
      apply elem_of_related_back. vm_compute. left.
  - destruct (delete_refused_while_referenced Seed.after_unassign 1)
      as [Hrole _].
    destruct (Hrole 3%Z) as [_ Hfree].
    + eexists; split; vm_compute; reflexivity.
    + vm_compute; eauto.
    + destruct Hfree as (st' & Hrun & Hgone & _).
      * intros user_id Hin%elem_of_related_back.
        vm_compute in Hin. by apply elem_of_nil in Hin.
      * exists st'. by split.
  - apply (delete_refused_while_referenced Seed.state 1).
    + eexists; split; vm_compute; reflexivity.
    + vm_compute; eauto.
    + exists 1%Z. split; [| vm_compute; eauto].
      apply elem_of_related_back. vm_compute. left.
  - destruct (delete_refused_while_referenced Seed.after_revoke 1)
      as [_ Hperm].
    destruct (Hperm 8%Z) as [_ Hfree].
    + eexists; split; vm_compute; reflexivity.
    + vm_compute; eauto.
    + destruct Hfree as (st' & Hrun & Hgone & _).
      * intros role_id Hin%elem_of_related_back.
        vm_compute in Hin. by apply elem_of_nil in Hin.
      * exists st'. by split.
Defined.

(** ** Assigning and removing associations *)

Lemma role_in_User_roles (st : State) (user_id : Z) (role : Role.t) :
  role_in role (User_roles st user_id) = true
  ↔ (user_id, Role.id role) ∈ user_roles st
    ∧ is_Some (role_table st !! Role.id role).
Proof.
  unfold role_in, User_roles. rewrite bool_decide_eq_true.
  rewrite omap_Role_query_get_ids, list_elem_of_filter, elem_of_related. tauto.
Qed.

Lemma permission_in_Role_permissions (st : State) (role_id : Z)
    (permission : Permission.t) :
  permission_in permission (Role_permissions st role_id) = true
  ↔ (role_id, Permission.id permission) ∈ role_permissions st
    ∧ is_Some (permission_table st !! Permission.id permission).
Proof.
  unfold permission_in, Role_permissions. rewrite bool_decide_eq_true.
  rewrite omap_Permission_query_get_ids, list_elem_of_filter, elem_of_related. tauto.
Qed.

Lemma assign_role_to_user_body_held (st : State) (user_id role_id : Z) :
  is_Some (user_table st !! user_id) →
  is_Some (role_table st !! role_id) →
  role_id ≠ 0%Z →
  (user_id, role_id) ∈ user_roles st →
  assign_role_to_user_body user_id (Some role_id) st
  = ((error_body "User already has this role", 400%Z), st).
Proof.
  intros Huser Hrole Hnz Hin.
  pose proof Hrole as Hrole'.
  apply User_query_get_is_Some in Huser as [user Hu].
  apply Role_query_get_is_Some in Hrole as [role Hr].
  pose proof (Role_query_get_id _ _ _ Hr) as Hid.
  unfold assign_role_to_user_body. rewrite Hu. simpl.
  rewrite bool_decide_eq_false_2 by done. simpl. rewrite Hr. simpl.
  rewrite (User_query_get_roles _ _ _ Hu).
  assert (role_in role (User_roles st user_id) = true) as ->
    by (apply role_in_User_roles; by rewrite Hid).
  done.
Qed.

Lemma remove_role_from_user_body_absent (st : State) (user_id role_id : Z) :
  is_Some (user_table st !! user_id) →
  is_Some (role_table st !! role_id) →
  (user_id, role_id) ∉ user_roles st →
  remove_role_from_user_body user_id role_id st
  = ((error_body "User does not have this role", 400%Z), st).
Proof.
  intros Huser Hrole Hnin.
  apply User_query_get_is_Some in Huser as [user Hu].
  apply Role_query_get_is_Some in Hrole as [role Hr].
  pose proof (Role_query_get_id _ _ _ Hr) as Hid.
  unfold remove_role_from_user_body. rewrite Hu. simpl. rewrite Hr. simpl.
  rewrite (User_query_get_roles _ _ _ Hu).
  destruct (role_in role (User_roles st user_id)) eqn:Hmem; [| done].
  apply role_in_User_roles in Hmem as [Hin _]. rewrite Hid in Hin. done.
Qed.

Lemma assign_permission_to_role_body_held (st : State)
    (role_id permission_id : Z) :
  is_Some (role_table st !! role_id) →
  is_Some (permission_table st !! permission_id) →
  permission_id ≠ 0%Z →
  (role_id, permission_id) ∈ role_permissions st →
  assign_permission_to_role_body role_id (Some permission_id) st
  = ((error_body "Role already has this permission", 400%Z), st).
Proof.
  intros Hrole Hperm Hnz Hin.
  pose proof Hperm as Hperm'.
  apply Role_query_get_is_Some in Hrole as [role Hr].
  apply Permission_query_get_is_Some in Hperm as [permission Hp].
  pose proof (Permission_query_get_id _ _ _ Hp) as Hid.
  unfold assign_permission_to_role_body. rewrite Hr. simpl.
  rewrite bool_decide_eq_false_2 by done. simpl. rewrite Hp. simpl.
  rewrite (Role_query_get_permissions _ _ _ Hr).
  assert (permission_in permission (Role_permissions st role_id) = true) as ->
    by (apply permission_in_Role_permissions; by rewrite Hid).
  done.
Qed.

Lemma remove_permission_from_role_body_absent (st : State)
    (role_id permission_id : Z) :
  is_Some (role_table st !! role_id) →
  is_Some (permission_table st !! permission_id) →
  (role_id, permission_id) ∉ role_permissions st →
  remove_permission_from_role_body role_id permission_id st
  = ((error_body "Role does not have this permission", 400%Z), st).
Proof.
  intros Hrole Hperm Hnin.
  apply Role_query_get_is_Some in Hrole as [role Hr].
  apply Permission_query_get_is_Some in Hperm as [permission Hp].
  pose proof (Permission_query_get_id _ _ _ Hp) as Hid.
  unfold remove_permission_from_role_body. rewrite Hr. simpl. rewrite Hp. simpl.
  rewrite (Role_query_get_permissions _ _ _ Hr).
  destruct (permission_in permission (Role_permissions st role_id)) eqn:Hmem;
    [| done].
  apply permission_in_Role_permissions in Hmem as [Hin _].
  rewrite Hid in Hin. done.
Qed.

(** C5.  With caller, target and related entity in place (ids are the
    database's, never 0): assigning a role the user already holds
    answers 400 "User already has this role", removing a role the user
    does not hold answers 400 "User does not have this role", and the
    same for a permission on a role ("Role already has this permission",
    "Role does not have this permission").  In all four refusals the
    state, and with it both association tables, is unchanged. *)
Theorem association_mutations_guarded (st : State) (identity : Z) :
  (∀ user_id role_id,
     authorized st identity "user_write" →
     is_Some (user_table st !! user_id) →
     is_Some (role_table st !! role_id) →
     (role_id ≠ 0%Z → (user_id, role_id) ∈ user_roles st →
      assign_role_to_user identity user_id (Some role_id) st
      = ((error_body "User already has this role", 400%Z), st))
     ∧ ((user_id, role_id) ∉ user_roles st →
        remove_role_from_user identity user_id role_id st
        = ((error_body "User does not have this role", 400%Z), st)))
  ∧ (∀ role_id permission_id,
       authorized st identity "role_write" →
       is_Some (role_table st !! role_id) →
       is_Some (permission_table st !! permission_id) →
       (permission_id ≠ 0%Z → (role_id, permission_id) ∈ role_permissions st →
        assign_permission_to_role identity role_id (Some permission_id) st
        = ((error_body "Role already has this permission", 400%Z), st))
       ∧ ((role_id, permission_id) ∉ role_permissions st →
          remove_permission_from_role identity role_id permission_id st
          = ((error_body "Role does not have this permission", 400%Z), st))).
Proof.
  split.
  - intros user_id role_id Hauth Huser Hrole. split.
    + intros Hnz Hin. unfold assign_role_to_user.
      rewrite require_permission_authorized by done.
      by apply assign_role_to_user_body_held.
    + intros Hnin. unfold remove_role_from_user.
      rewrite require_permission_authorized by done.
      by apply remove_role_from_user_body_absent.
  - intros role_id permission_id Hauth Hrole Hperm. split.
    + intros Hnz Hin. unfold assign_permission_to_role.
      rewrite require_permission_authorized by done.
      by apply assign_permission_to_role_body_held.
    + intros Hnin. unfold remove_permission_from_role.
      rewrite require_permission_authorized by done.
      by apply remove_permission_from_role_body_absent.
Qed.

Lemma association_mutations_guarded_witness :
  assign_role_to_user 1 2 (Some 2%Z) Seed.state
  = ((error_body "User already has this role", 400%Z), Seed.state)
  ∧ remove_role_from_user 1 2 3 Seed.state
    = ((error_body "User does not have this role", 400%Z), Seed.state)
  ∧ assign_permission_to_role 1 3 (Some 1%Z) Seed.state
    = ((error_body "Role already has this permission", 400%Z), Seed.state)
  ∧ remove_permission_from_role 1 3 2 Seed.state
    = ((error_body "Role does not have this permission", 400%Z), Seed.state).
Proof.
  destruct (association_mutations_guarded Seed.state 1) as [Huser Hrole].
  assert (∀ (s : gset (Z * Z)) k v, v ∉ related s k → (k, v) ∉ s) as Hout
    by (intros s k v Hn Hin; by apply Hn, elem_of_related).
  split_and!.
  - apply (Huser 2%Z 2%Z).
    + eexists; split; vm_compute; reflexivity.
    + vm_compute; eauto.
    + vm_compute; eauto.
    + discriminate.
    + apply elem_of_related. vm_compute. left.
  - apply (Huser 2%Z 3%Z).
    + eexists; split; vm_compute; reflexivity.
    + vm_compute; eauto.
    + vm_compute; eauto.
    + apply Hout. vm_compute. intros Hin.
      apply list_elem_of_singleton in Hin. discriminate Hin.
  - apply (Hrole 3%Z 1%Z).
    + eexists; split; vm_compute; reflexivity.
    + vm_compute; eauto.
    + vm_compute; eauto.
    + discriminate.
    + apply elem_of_related. vm_compute. left.
  - apply (Hrole 3%Z 2%Z).
    + eexists; split; vm_compute; reflexivity.
    + vm_compute; eauto.
    + vm_compute; eauto.
    + apply Hout. vm_compute. intros Hin.
      apply list_elem_of_singleton in Hin. discriminate Hin.
Defined.

(** ** POST /auth/forgot-password *)

Lemma find_by_email_Some (st : State) (v : string) (U : User.t) :
  find_by_email v st = Some U →
  User_query_get st (User.id U) = Some U ∧ User.email U = v.
Proof.
  unfold find_by_email. intros Hfind.
  destruct (query_first _ (user_table st)) as [[k row]|] eqn:Hq; [| done].
  simpl in Hfind. apply query_first_Some in Hq as [Hrow HP].
  apply bool_decide_eq_true in HP.
  pose proof (User_query_get_id _ _ _ Hfind) as Hid. rewrite Hid. split; [done |].
  apply User_query_get_Some in Hfind as (row' & Hrow' & ->). simpl. congruence.
Qed.


(** What the view answers on each of its two paths past validation. *)
Lemma forgot_password_paths (st : State) (email token : string) :
  email ≠ "" →
  (find_by_email email st = None →
   forgot_password (Some email) token st
   = ((message_body "If the email exists, a reset token has been generated", 200%Z),
      st))
  ∧ (∀ U, find_by_email email st = Some U →
          forgot_password (Some email) token st
          = ((JObj [("message", JStr "Password reset token generated");
                    ("reset_token", JStr token)], 200%Z),
             set_reset_tokens (<[token := User.id U]>) st)).
Proof.
  intros Hne. unfold forgot_password. simpl.
  rewrite bool_decide_eq_false_2 by done. simpl.
  split; [by intros -> | by intros U ->].
Qed.

(** C2, on the code.  The seeded database knows john.doe@hrms.com and
    not nobody@hrms.com.  For the known address the view answers
    "Password reset token generated" and puts the token itself in the
    body; for the unknown one it answers "If the email exists, a reset
    token has been generated" with no token.  The two responses differ,
    so the caller learns whether the account exists. *)
Theorem forgot_password_reveals_account :
  let known := (forgot_password (Some "john.doe@hrms.com") Seed.token Seed.state).1 in
  let unknown := (forgot_password (Some "nobody@hrms.com") Seed.token Seed.state).1 in
  known = (JObj [("message", JStr "Password reset token generated");
                 ("reset_token", JStr Seed.token)], 200%Z)
  ∧ unknown
    = (message_body "If the email exists, a reset token has been generated", 200%Z)
  ∧ has_field "reset_token" known = true
  ∧ has_field "reset_token" unknown = false
  ∧ known ≠ unknown.
Proof.
  split_and!; [reflexivity | reflexivity | reflexivity | reflexivity |].
  vm_compute. discriminate.
Qed.

(** The same on every state: a known and an unknown address never get
    the same response. *)
Lemma forgot_password_never_uniform (st : State) (known unknown token : string) :
  known ≠ "" → unknown ≠ "" →
  is_Some (find_by_email known st) →
  find_by_email unknown st = None →
  (forgot_password (Some known) token st).1
  ≠ (forgot_password (Some unknown) token st).1.
Proof.
  intros Hk Hu [U HU] Hnone.
  destruct (forgot_password_paths st known token Hk) as [_ Hyes].
  destruct (forgot_password_paths st unknown token Hu) as [Hno _].
  rewrite (Hyes _ HU), (Hno Hnone). simpl. unfold message_body. discriminate.
Qed.

(** ** POST /auth/login *)








Section Login.
Context `{Bcrypt} `{JWT}.

Lemma login_paths (st : State) (username password : string) :
  username ≠ "" → password ≠ "" →
  login (mk_login_data (Some username) (Some password)) st
  = match find_by_username_or_email username st with
    | None => ((error_body "Invalid credentials", 401%Z), st)
    | Some user =>
        match check_password user password with
        | inl msg => ((error_body msg, 500%Z), st)
        | inr false => ((error_body "Invalid credentials", 401%Z), st)
        | inr true =>
            if negb (User.is_active user)
            then ((error_body "Account is deactivated", 401%Z), st)
            else (login_success user, st)
        end
    end.
Proof.
  intros Hu Hp. unfold login. simpl.
  rewrite !bool_decide_eq_false_2 by done. simpl.
  destruct (find_by_username_or_email username st) as [user|]; [| done].
  simpl. destruct (check_password user password) as [msg | []]; [done | | done].
  simpl. by destruct (User.is_active user).
Qed.


Lemma login_state_unchanged (st : State) (data : login_data) :
  (login data st).2 = st.
Proof.
  unfold login.
  destruct data as [[username|] [password|]]; simpl;
    [| rewrite ?orb_true_r; done..].
  destruct (bool_decide (username = "")); simpl; [done |].
  destruct (bool_decide (password = "")); simpl; [done |].
  destruct (find_by_username_or_email username st) as [U|]; simpl; [| done].
  destruct (check_password U password) as [msg | []]; simpl; [done | | done].
  by destruct (User.is_active U).
Qed.

End Login.


Lemma unique_on_NoDup {A : Type} (column : A → string) (m : gmap Z A) :
  NoDup ((λ kv, column kv.2) <$> map_to_list m) → unique_on column m.
Proof.
  intros Hnd i j a b Ha Hb Hcol.
  assert ((i, a) = (j, b)) as Heq; [| congruence].
  apply elem_of_map_to_list in Ha, Hb.
  apply list_elem_of_lookup in Ha as [n Hn], Hb as [n' Hn'].
  assert (n = n') as <-.
  { apply (NoDup_lookup _ _ _ (column a) Hnd);
      rewrite list_lookup_fmap; [by rewrite Hn | by rewrite Hn', Hcol]. }
  congruence.
Qed.


(** ** POST /auth/reset-password *)

Section ResetPassword.
Context `{Bcrypt}.

Lemma set_password_inr (self user : User.t) (password : string) :
  set_password self password = inr user
  ↔ ∃ hashed, generate_password_hash password = inr hashed
              ∧ user = User_with_password hashed self.
Proof.
  unfold set_password. destruct (generate_password_hash password) as [msg|hashed].
  - split; [done | by intros (? & ? & _)].
  - split; [intros [= <-]; by exists hashed | by intros (? & [= <-] & ->)].
Qed.

Lemma set_password_inl (self : User.t) (password msg : string) :
  set_password self password = inl msg ↔ generate_password_hash password = inl msg.
Proof.
  unfold set_password. destruct (generate_password_hash password); split; congruence.
Qed.

(** The ways out of the view, with both fields of the body filled in. *)
Lemma reset_password_paths (utcnow : Utcnow) (st : State)
    (token new_password : string) :
  token ≠ "" → new_password ≠ "" →
  reset_password utcnow (mk_reset_password_data (Some token) (Some new_password)) st
  = match reset_tokens st !! token with
    | None => ((error_body "Invalid or expired token", 400%Z), st)
    | Some user_id =>
        if bool_decide (user_id = 0%Z)
        then ((error_body "Invalid or expired token", 400%Z), st)
        else match User_query_get st user_id with
             | None => ((error_body "User not found", 404%Z), st)
             | Some loaded =>
                 match set_password loaded new_password with
                 | inl msg => ((error_body msg, 500%Z), st)
                 | inr user =>
                     ((message_body "Password reset successfully", 200%Z),
                      after_reset utcnow st token loaded user)
                 end
             end
    end.
Proof.
  intros Ht Hp. unfold reset_password. simpl.
  rewrite !bool_decide_eq_false_2 by done. simpl.
  destruct (reset_tokens st !! token) as [user_id|]; simpl; [| done].
  case_bool_decide; simpl; [done |].
  destruct (User_query_get st user_id) as [loaded|]; [| done].
  by destruct (set_password loaded new_password).
Qed.

(** With a field missing or empty the view stops at validation. *)
Lemma reset_password_invalid (utcnow : Utcnow) (st : State)
    (data : reset_password_data) :
  truthy_str (reset_token data) = false
  ∨ truthy_str (reset_new_password data) = false →
  reset_password utcnow data st
  = ((error_body "Token and new password are required", 400%Z), st).
Proof.
  unfold reset_password. intros [-> | ->]; simpl; [done |].
  by rewrite orb_true_r.
Qed.

Lemma truthy_str_cases (v : option string) :
  truthy_str v = false ∨ ∃ s, v = Some s ∧ s ≠ "".
Proof.
  destruct v as [s|]; simpl; [| by left].
  case_bool_decide; [by left | right; by exists s].
Qed.

(** After the commit the user is the object the request held, with
    [updated_at] renewed if a column changed. *)
Lemma session_update_user_get (utcnow : Utcnow) (st : State) (user_id : Z)
    (loaded user : User.t) :
  User_query_get st user_id = Some loaded →
  User.id user = user_id →
  User.roles user = User.roles loaded →
  User_query_get (session_update_user utcnow loaded user st) user_id
  = Some (User_committed utcnow loaded user).
Proof.
  intros Hget Hid Hroles.
  pose proof (User_query_get_id _ _ _ Hget) as Hid'.
  pose proof (User_query_get_roles _ _ _ Hget) as Hloaded.
  unfold session_update_user, User_committed.
  case_bool_decide as Hrow.
  - rewrite Hget. f_equal. destruct loaded, user. simpl in *.
    injection Hrow as -> -> -> -> -> -> -> ->. congruence.
  - unfold User_query_get. simpl. rewrite Hid, lookup_insert_eq. simpl.
    unfold User_with_updated_at. rewrite Hid, Hroles, Hloaded. reflexivity.
Qed.

Lemma after_reset_user (utcnow : Utcnow) (st : State) (token new_password : string)
    (user_id : Z) (loaded user : User.t) :
  User_query_get st user_id = Some loaded →
  set_password loaded new_password = inr user →
  User_query_get (after_reset utcnow st token loaded user) user_id
  = Some (User_committed utcnow loaded user).
Proof.
  intros Hget (hashed & _ & ->)%set_password_inr.
  pose proof (User_query_get_id _ _ _ Hget) as Hid.
  unfold after_reset.
  rewrite <- (session_update_user_get utcnow st user_id loaded
                (User_with_password hashed loaded)) by done.
  unfold User_query_get, User_roles. simpl. done.
Qed.

Lemma session_update_user_reset_tokens (utcnow : Utcnow) (st : State)
    (loaded user : User.t) :
  reset_tokens (session_update_user utcnow loaded user st) = reset_tokens st.
Proof. unfold session_update_user. by case_bool_decide. Qed.

Lemma after_reset_tokens (utcnow : Utcnow) (st : State) (token : string)
    (loaded user : User.t) (t : string) :
  reset_tokens (after_reset utcnow st token loaded user) !! t
  = if decide (token = t) then None else reset_tokens st !! t.
Proof.
  unfold after_reset. simpl. rewrite session_update_user_reset_tokens.
  apply lookup_delete.
Qed.

(** The statements of the view, run one after the other with no other
    request in between, are the view. *)
Lemma reset_password_steps_sequential (utcnow : Utcnow)
    (data : reset_password_data) (st : State) :
  reset_password_steps 5 utcnow data at_get_token st
  = (returned (reset_password utcnow data st).1, (reset_password utcnow data st).2).
Proof.
  destruct (truthy_str_cases (reset_token data)) as [Hbad | (token & Htok & Htne)].
  { rewrite reset_password_invalid by (by left). simpl. by rewrite Hbad. }
  destruct (truthy_str_cases (reset_new_password data))
    as [Hbad | (new_password & Hpw & Hpne)].
  { rewrite reset_password_invalid by (by right). simpl.
    by rewrite Hbad, orb_true_r. }
  destruct data as [dt dp]. simpl in Htok, Hpw. subst dt dp.
  rewrite reset_password_paths by done. simpl.
  rewrite !bool_decide_eq_false_2 by done. simpl.
  destruct (reset_tokens st !! token) as [user_id|] eqn:Hmap; simpl; [| done].
  case_bool_decide; simpl; [done |].
  destruct (User_query_get st user_id) as [loaded|] eqn:Hget; simpl; [| done].
  destruct (set_password loaded new_password) as [msg|user] eqn:Hset; simpl;
    [done |].
  apply set_password_inr in Hset as (hashed & _ & ->).
  pose proof (User_query_get_id _ _ _ Hget) as Hid.
  apply User_query_get_Some in Hget as (row & Hrow & ->).
  unfold after_reset, session_update_user. simpl.
  case_bool_decide as Hsame; simpl.
  - by rewrite Hmap.
  - rewrite Hrow. simpl. by rewrite Hmap.
Qed.

End ResetPassword.

(** What two requests with the same token are answered when their
    threads take turns: the first 200, the second 500 (the [KeyError] of
    [del]).  Both have committed by then, the second last: the password
    of the account is the one of the request that was answered 500. *)
Lemma reset_password_overlapped :
  Seed.overlapped
  = (returned (message_body "Password reset successfully", 200%Z),
     returned (error_body (str_KeyError Seed.token), 500%Z),
     Seed.overlapped.2)
  ∧ col_password <$> user_table Seed.overlapped.2 !! 3%Z
    = Some (Seed.hashed "0ther-passw0rd")
  ∧ reset_tokens Seed.overlapped.2 !! Seed.token = None.
Proof. split_and!; vm_compute; reflexivity. Qed.

(** C7, as the claim has it, fails: the lookup of the token and its
    removal are two statements of the view with the hashing and the
    commit between them, and two requests presenting the same token at
    the same time can both get past the lookup.  Served in turns, the
    two requests of the seeded deployment leave a state and get answers
    that serving them one after the other, in either order, does not
    give. *)
Lemma reset_password_not_atomic :
  ¬ served_atomically Seed.first_reset Seed.second_reset Seed.with_token.
Proof.
  intros Hatomic.
  destruct reset_password_overlapped as (Hrun & _ & _).
  destruct (Hatomic Seed.taking_turns _ _ _ Hrun)
    as [(st1 & Hfirst & Hsecond) | (st1 & Hsecond & Hfirst)].
  - assert (st1 = (reset_password (request_utcnow Seed.first_reset)
                     (request_data Seed.first_reset) Seed.with_token).2) as ->
      by (by rewrite Hfirst).
    apply (f_equal (λ x, status x.1)) in Hsecond.
    vm_compute in Hsecond. discriminate Hsecond.
  - assert (st1 = (reset_password (request_utcnow Seed.second_reset)
                     (request_data Seed.second_reset) Seed.with_token).2) as ->
      by (by rewrite Hsecond).
    apply (f_equal (λ x, status x.1)) in Hfirst.
    vm_compute in Hfirst. discriminate Hfirst.
Qed.

(** C7, amended.  [reset_password] looks the token up and removes it in
    a later statement, after the new password has been hashed and
    committed; run without another request in between, its statements
    are one transition, and then a reset token works at most once.
    Whatever the body, a token that [reset_tokens] does not hold never
    resets anything: the answer is a 400 and the state is unchanged;
    with both fields filled in, that 400 is "Invalid or expired token".
    When the token maps to an existing user and flask_bcrypt hashes the
    new password, the answer is 200 "Password reset successfully", the
    password of the user is the new hash ([updated_at] is renewed,
    nothing else of the user changes), the token is gone from
    [reset_tokens] (no other token is), and presenting the same body
    again is refused with "Invalid or expired token".  When flask_bcrypt
    raises instead, the answer is 500 and nothing changes: the token
    stays. *)
Theorem reset_token_single_use `{Bcrypt} (utcnow : Utcnow) (st : State) :
  (∀ data,
     reset_password_steps 5 utcnow data at_get_token st
     = (returned (reset_password utcnow data st).1,
        (reset_password utcnow data st).2))
  ∧ (∀ data,
       (∀ t, reset_token data = Some t → reset_tokens st !! t = None) →
       status (reset_password utcnow data st).1 = 400%Z
       ∧ (reset_password utcnow data st).2 = st)
  ∧ (∀ token new_password,
       token ≠ "" → new_password ≠ "" →
       let data := mk_reset_password_data (Some token) (Some new_password) in
       (reset_tokens st !! token = None →
        reset_password utcnow data st
        = ((error_body "Invalid or expired token", 400%Z), st))
       ∧ (∀ user_id loaded,
            reset_tokens st !! token = Some user_id →
            user_id ≠ 0%Z →
            User_query_get st user_id = Some loaded →
            (∀ hashed,
               generate_password_hash new_password = inr hashed →
               ∃ st',
                 reset_password utcnow data st
                 = ((message_body "Password reset successfully", 200%Z), st')
                 ∧ User_query_get st' user_id
                   = Some (User_committed utcnow loaded
                             (User_with_password hashed loaded))
                 ∧ reset_tokens st' !! token = None
                 ∧ (∀ t, t ≠ token → reset_tokens st' !! t = reset_tokens st !! t)
                 ∧ ∀ utcnow', reset_password utcnow' data st'
                              = ((error_body "Invalid or expired token", 400%Z), st'))
            ∧ (∀ msg,
                 generate_password_hash new_password = inl msg →
                 reset_password utcnow data st = ((error_body msg, 500%Z), st)))).
Proof.
  split_and!.
  - intros data. apply reset_password_steps_sequential.
  - intros data Habsent.
    destruct (truthy_str_cases (reset_token data)) as [Ht | (token & Ht & Htne)].
    { rewrite reset_password_invalid by (by left). done. }
    destruct (truthy_str_cases (reset_new_password data))
      as [Hp | (new_password & Hp & Hpne)].
    { rewrite reset_password_invalid by (by right). done. }
    destruct data as [dt dp]. simpl in *. subst dt dp.
    rewrite reset_password_paths by done.
    by rewrite (Habsent token eq_refl).
  - intros token new_password Ht Hp data. subst data. split.
    + intros Hnone. rewrite reset_password_paths by done. by rewrite Hnone.
    + intros user_id loaded Htok Hnz Hget. split.
      * intros hashed Hhash.
        assert (set_password loaded new_password
                = inr (User_with_password hashed loaded)) as Hset
          by (apply set_password_inr; by exists hashed).
        exists (after_reset utcnow st token loaded (User_with_password hashed loaded)).
        split_and!.
        -- rewrite reset_password_paths by done. rewrite Htok.
           rewrite bool_decide_eq_false_2 by done. by rewrite Hget, Hset.
        -- by apply (after_reset_user utcnow st token new_password).
        -- rewrite after_reset_tokens. by rewrite decide_True.
        -- intros t Hne. rewrite after_reset_tokens. by rewrite decide_False.
        -- intros utcnow'. rewrite reset_password_paths by done.
           rewrite after_reset_tokens. by rewrite decide_True.
      * intros msg Hraise. apply (set_password_inl loaded) in Hraise.
        rewrite reset_password_paths by done. rewrite Htok.
        rewrite bool_decide_eq_false_2 by done. by rewrite Hget, Hraise.
Qed.

Lemma reset_token_single_use_witness :
  (∃ st',
     reset_password Seed.utcnow
       (mk_reset_password_data (Some Seed.token) (Some "n3w-passw0rd")) Seed.with_token
     = ((message_body "Password reset successfully", 200%Z), st')
     ∧ User.password <$> User_query_get st' 3 = Some (Seed.hashed "n3w-passw0rd")
     ∧ User.updated_at <$> User_query_get st' 3
       = Some (Some (for_updated_at Seed.utcnow))
     ∧ reset_tokens st' !! Seed.token = None
     ∧ reset_password Seed.utcnow_later
         (mk_reset_password_data (Some Seed.token) (Some "n3w-passw0rd")) st'
       = ((error_body "Invalid or expired token", 400%Z), st'))
  ∧ reset_password Seed.utcnow
      (mk_reset_password_data (Some "never-issued") (Some "n3w-passw0rd"))
      Seed.with_token
    = ((error_body "Invalid or expired token", 400%Z), Seed.with_token)
  ∧ reset_password Seed.utcnow
      (mk_reset_password_data (Some Seed.token) (Some Seed.long_password))
      Seed.with_token
    = ((error_body Seed.str_too_long, 500%Z), Seed.with_token).
Proof.
  destruct (reset_token_single_use Seed.utcnow Seed.with_token) as (_ & _ & Hpaths).
  split_and!.
  - destruct (Hpaths Seed.token "n3w-passw0rd") as [_ Hok]; [done | done |].
    destruct (Hok 3%Z (default (User.mk 0 "" "" "" "" "" false None None [])
                         (User_query_get Seed.with_token 3)))
      as [Hhashed _].
    + vm_compute. reflexivity.
    + discriminate.
    + vm_compute. reflexivity.
    + destruct (Hhashed (Seed.hashed "n3w-passw0rd"))
        as (st' & Hrun & Huser & Hgone & _ & Hagain); [vm_compute; reflexivity |].
      exists st'. split_and!; [exact Hrun | | | exact Hgone | apply Hagain].
      * rewrite Huser. vm_compute. reflexivity.
      * rewrite Huser. vm_compute. reflexivity.
  - destruct (Hpaths "never-issued" "n3w-passw0rd") as [Hnone _]; [done | done |].
    apply Hnone. vm_compute. reflexivity.
  - destruct (Hpaths Seed.token Seed.long_password) as [_ Hok]; [done | done |].
    destruct (Hok 3%Z (default (User.mk 0 "" "" "" "" "" false None None [])
                         (User_query_get Seed.with_token 3)))
      as [_ Hraise].
    + vm_compute. reflexivity.
    + discriminate.
    + vm_compute. reflexivity.
    + apply Hraise. vm_compute. reflexivity.
Defined.

(** C10.  If the token is in [reset_tokens] but the user id it maps to
    has no row any more, the answer is 404 "User not found" and the
    state is unchanged: the token is still there, and presenting it
    again gets the same answer.  A call that makes a token disappear
    from [reset_tokens] is a call with that token that answered 200 and
    committed the new password of the user the token mapped to. *)
Theorem reset_password_stale_token_kept `{Bcrypt} (utcnow : Utcnow) (st : State) :
  (∀ token new_password user_id,
     token ≠ "" → new_password ≠ "" →
     reset_tokens st !! token = Some user_id →
     user_id ≠ 0%Z →
     user_table st !! user_id = None →
     let data := mk_reset_password_data (Some token) (Some new_password) in
     reset_password utcnow data st = ((error_body "User not found", 404%Z), st)
     ∧ reset_tokens (reset_password utcnow data st).2 !! token = Some user_id
     ∧ ∀ utcnow',
         reset_password utcnow' data (reset_password utcnow data st).2
         = ((error_body "User not found", 404%Z), st))
  ∧ (∀ data t,
       is_Some (reset_tokens st !! t) →
       reset_tokens (reset_password utcnow data st).2 !! t = None →
       (reset_password utcnow data st).1
       = (message_body "Password reset successfully", 200%Z)
       ∧ reset_token data = Some t
       ∧ ∃ new_password user_id loaded user,
           reset_new_password data = Some new_password
           ∧ reset_tokens st !! t = Some user_id
           ∧ User_query_get st user_id = Some loaded
           ∧ set_password loaded new_password = inr user
           ∧ User_query_get (reset_password utcnow data st).2 user_id
             = Some (User_committed utcnow loaded user)).
Proof.
  split.
  - intros token new_password user_id Ht Hp Htok Hnz Hnone data. subst data.
    assert (∀ now, reset_password now
              (mk_reset_password_data (Some token) (Some new_password)) st
            = ((error_body "User not found", 404%Z), st)) as Hrun.
    { intros now. rewrite reset_password_paths by done. rewrite Htok.
      rewrite bool_decide_eq_false_2 by done.
      unfold User_query_get. by rewrite Hnone. }
    rewrite !Hrun. simpl. split_and!; [done | done |]. intros now. by rewrite Hrun.
  - intros data t [user_id Ht] Hgone.
    destruct (truthy_str_cases (reset_token data)) as [Hbad | (token & Htok & Htne)].
    { rewrite reset_password_invalid in Hgone by (by left). simpl in Hgone.
      congruence. }
    destruct (truthy_str_cases (reset_new_password data))
      as [Hbad | (new_password & Hpw & Hpne)].
    { rewrite reset_password_invalid in Hgone by (by right). simpl in Hgone.
      congruence. }
    destruct data as [dt dp]. simpl in *. subst dt dp.
    rewrite reset_password_paths in Hgone |- * by done.
    destruct (reset_tokens st !! token) as [uid|] eqn:Hmap;
      [| simpl in Hgone; congruence].
    case_bool_decide; [simpl in Hgone; congruence |].
    destruct (User_query_get st uid) as [loaded|] eqn:Hget;
      [| simpl in Hgone; congruence].
    destruct (set_password loaded new_password) as [msg|user] eqn:Hset;
      [simpl in Hgone; congruence |].
    change (reset_tokens (after_reset utcnow st token loaded user) !! t = None)
      in Hgone.
    rewrite after_reset_tokens in Hgone. simpl.
    case_decide as Heq; [subst t | congruence].
    split_and!; [done | done |].
    exists new_password, uid, loaded, user. split_and!; try done.
    by apply (after_reset_user utcnow st token new_password).
Qed.

Lemma reset_password_stale_token_kept_witness :
  reset_password Seed.utcnow
    (mk_reset_password_data (Some Seed.token) (Some "n3w-passw0rd")) Seed.stale
  = ((error_body "User not found", 404%Z), Seed.stale)
  ∧ reset_tokens Seed.stale !! Seed.token = Some 3%Z.
Proof.
  destruct (reset_password_stale_token_kept Seed.utcnow Seed.stale) as [Hstale _].
  destruct (Hstale Seed.token "n3w-passw0rd" 3%Z) as (Hrun & Hkept & _).
  - done.
  - done.
  - vm_compute. reflexivity.
  - discriminate.
  - vm_compute. reflexivity.
  - split; [exact Hrun |]. by rewrite Hrun in Hkept.
Defined.

(** ** PUT /users/<id> and PUT /roles/<id> *)

Lemma elem_of_assoc_replace (k : Z) (old new : list Z) (assoc : gset (Z * Z))
    (a b : Z) :
  (a, b) ∈ assoc_replace k old new assoc
  ↔ (a = k ∧ b ∈ new) ∨ ((a, b) ∈ assoc ∧ ¬ (a = k ∧ b ∈ old)).
Proof.
  unfold assoc_replace.
  rewrite elem_of_union, elem_of_list_to_set, list_elem_of_fmap, elem_of_filter.
  simpl. split.
  - intros [(v & [= -> ->] & Hv) | [Hnot Hin]]; [left | right]; done.
  - intros [[-> Hb] | [Hin Hnot]]; [left; by exists b | right; done].
Qed.

(** What the commit of a user leaves alone. *)
Lemma session_update_user_frame (utcnow : Utcnow) (loaded user : User.t)
    (st : State) :
  let st' := session_update_user utcnow loaded user st in
  role_table st' = role_table st
  ∧ permission_table st' = permission_table st
  ∧ user_roles st' = user_roles st
  ∧ role_permissions st' = role_permissions st
  ∧ reset_tokens st' = reset_tokens st
  ∧ blacklisted_tokens st' = blacklisted_tokens st
  ∧ (∀ k, k ≠ User.id user → user_table st' !! k = user_table st !! k)
  ∧ (is_Some (user_table st !! User.id user) →
     dom (user_table st') = dom (user_table st)).
Proof.
  unfold session_update_user. case_bool_decide; simpl; [done |].
  split_and!; try done.
  - intros k Hk. by rewrite lookup_insert_ne.
  - intros Hrow%elem_of_dom. rewrite dom_insert_L. set_solver.
Qed.

Lemma from_option_User_roles {A : Type} (f : A → User.t → User.t) (u : User.t)
    (o : option A) :
  (∀ v, User.roles (f v u) = User.roles u) →
  (∀ v, User.id (f v u) = User.id u) →
  User.roles (from_option (λ v, f v u) u o) = User.roles u
  ∧ User.id (from_option (λ v, f v u) u o) = User.id u.
Proof. intros Hr Hi. destruct o; simpl; [by rewrite Hr, Hi | done]. Qed.

Section UpdateUser.
Context `{Bcrypt} `{Sqlite}.

(** The successful path of [PUT /users/<id>]: the object that is
    committed is the loaded user with attributes assigned, and the rows
    of [user_roles] are replaced when the body has [role_ids]. *)
Lemma update_user_body_ok (utcnow : Utcnow) (st : State) (user_id : Z)
    (data : update_user_data) (loaded : User.t) :
  User_query_get st user_id = Some loaded →
  (∀ v, upd_username data = Some v → username_taken v user_id st = false) →
  (∀ v, upd_email data = Some v → email_taken v user_id st = false) →
  password_accepted (upd_password data) = true →
  (∀ ids, upd_role_ids data = Some ids → bindable ids = true) →
  ∃ body user,
    User.id user = user_id
    ∧ User.roles user = User.roles loaded
    ∧ User.username user = default (User.username loaded) (upd_username data)
    ∧ User.email user = default (User.email loaded) (upd_email data)
    ∧ User.is_active user = default (User.is_active loaded) (upd_is_active data)
    ∧ match upd_role_ids data with
      | Some ids =>
          ∃ found,
            query_ids_in ids (role_table st) = inr found
            ∧ update_user_body utcnow user_id data st
              = ((body, 200%Z),
                 set_user_roles
                   (assoc_replace user_id (Role.id <$> User.roles loaded) found)
                   (session_update_user utcnow loaded user st))
      | None =>
          update_user_body utcnow user_id data st
          = ((body, 200%Z), session_update_user utcnow loaded user st)
      end.
Proof.
  intros Hget Hname Hemail Hpw Hids.
  pose proof (User_query_get_id _ _ _ Hget) as Hid.
  unfold update_user_body. rewrite Hget. simpl.
  destruct data as [dn de df dl da dp dr]. simpl in *.
  unfold password_accepted in Hpw.
  destruct dn as [n|]; simpl; [rewrite (Hname n eq_refl); simpl |];
    (destruct de as [e|]; simpl; [rewrite (Hemail e eq_refl); simpl |]);
    (destruct (truthy_str dp); simpl;
     [unfold set_password;
      destruct (generate_password_hash (default "" dp)) as [msg|hashed];
      [discriminate Hpw |]; simpl |]);
    destruct df, dl, da; simpl;
    (destruct dr as [ids|]; simpl;
     [destruct (query_ids_in_bindable ids (role_table st) (Hids ids eq_refl))
        as [found Hq]; rewrite Hq; simpl;
      eexists _, _; split_and!; [| | | | | exists found; split; [done | reflexivity]]
     | eexists _, _; split_and!; [| | | | | reflexivity]]);
    done.
Qed.

(** The two ways the update fails after the name checks: flask_bcrypt
    raises on the password, or SQLite cannot bind the ids.  The answer
    is 500 and nothing is written. *)
Lemma update_user_body_raises (utcnow : Utcnow) (st : State) (user_id : Z)
    (data : update_user_data) :
  is_Some (user_table st !! user_id) →
  (∀ v, upd_username data = Some v → username_taken v user_id st = false) →
  (∀ v, upd_email data = Some v → email_taken v user_id st = false) →
  password_accepted (upd_password data) = false
  ∨ (∃ ids, upd_role_ids data = Some ids ∧ bindable ids = false) →
  ∃ body, update_user_body utcnow user_id data st = ((body, 500%Z), st).
Proof.
  intros [loaded Hget]%User_query_get_is_Some Hname Hemail Hraise.
  unfold update_user_body. rewrite Hget. simpl.
  destruct data as [dn de df dl da dp dr]. simpl in *.
  unfold password_accepted in Hraise.
  destruct dn as [n|]; simpl; [rewrite (Hname n eq_refl); simpl |];
    (destruct de as [e|]; simpl; [rewrite (Hemail e eq_refl); simpl |]);
    (destruct (truthy_str dp); simpl;
     [unfold set_password;
      destruct (generate_password_hash (default "" dp)) as [msg|hashed];
      simpl; [by eexists |] |]);
    (destruct Hraise as [Hpw | (ids & [= ->] & Hids)]; [discriminate Hpw |];
     destruct (query_ids_in_not_bindable ids (role_table st) Hids) as [msg' Hq];
     rewrite Hq; simpl; by eexists).
Qed.

End UpdateUser.

Section UpdateRole.
Context `{Sqlite}.

Lemma update_role_body_ok (st : State) (role_id : Z) (data : update_role_data)
    (role : Role.t) :
  Role_query_get st role_id = Some role →
  (∀ v, upd_name data = Some v → role_name_taken v role_id st = false) →
  (∀ ids, upd_permission_ids data = Some ids → bindable ids = true) →
  ∃ body row,
    col_role_name row = default (Role.name role) (upd_name data)
    ∧ match upd_permission_ids data with
      | Some ids =>
          ∃ found,
            query_ids_in ids (permission_table st) = inr found
            ∧ update_role_body role_id data st
              = ((body, 200%Z),
                 set_role_permissions
                   (assoc_replace role_id (Permission.id <$> Role.permissions role)
                      found)
                   (set_role_table (<[role_id := row]>) st))
      | None =>
          update_role_body role_id data st
          = ((body, 200%Z), set_role_table (<[role_id := row]>) st)
      end.
Proof.
  intros Hget Hname Hids.
  unfold update_role_body. rewrite Hget. simpl.
  destruct data as [dn dd dp]. simpl in *.
  destruct dn as [n|]; simpl; [rewrite (Hname n eq_refl); simpl |];
    destruct dd; simpl;
    (destruct dp as [ids|]; simpl;
     [destruct (query_ids_in_bindable ids (permission_table st) (Hids ids eq_refl))
        as [found Hq]; rewrite Hq; simpl;
      eexists _, _; split; [| exists found; split; [done | reflexivity]]
     | eexists _, _; split; [| reflexivity]]);
    done.
Qed.

Lemma update_role_body_raises (st : State) (role_id : Z) (data : update_role_data)
    (ids : list Z) :
  is_Some (role_table st !! role_id) →
  (∀ v, upd_name data = Some v → role_name_taken v role_id st = false) →
  upd_permission_ids data = Some ids →
  bindable ids = false →
  ∃ body, update_role_body role_id data st = ((body, 500%Z), st).
Proof.
  intros [role Hget]%Role_query_get_is_Some Hname Hdata Hids.
  unfold update_role_body. rewrite Hget. simpl.
  destruct data as [dn dd dp]. simpl in *. subst dp.
  destruct (query_ids_in_not_bindable ids (permission_table st) Hids) as [msg Hq].
  destruct dn as [n|]; simpl; [rewrite (Hname n eq_refl); simpl |];
    rewrite Hq; simpl; by eexists.
Qed.

End UpdateRole.

(** C9.  When the body of [PUT /users/<id>] has [role_ids], SQLite can
    bind them (each a 64-bit integer, no more of them than a statement
    takes variables) and flask_bcrypt hashes the password the body may
    carry, the update (past the username and email checks) answers 200
    whatever the ids are, and afterwards the user holds exactly the
    roles that exist and whose id is in [role_ids]: ids held before and
    ids not held before are taken alike, ids of no role are dropped,
    roles held before and not listed are gone; the rows of other users
    stay.  [PUT /roles/<id>] with [permission_ids] does the same to the
    permissions of the role.  When SQLite cannot bind the ids, or
    flask_bcrypt raises, the answer is 500 and nothing is replaced. *)
Theorem update_replaces_associations `{Bcrypt} `{Sqlite} (utcnow : Utcnow)
    (st : State) (identity : Z) :
  foreign_keys st →
  (∀ user_id data role_ids,
     authorized st identity "user_write" →
     is_Some (user_table st !! user_id) →
     (∀ v, upd_username data = Some v → username_taken v user_id st = false) →
     (∀ v, upd_email data = Some v → email_taken v user_id st = false) →
     upd_role_ids data = Some role_ids →
     (bindable role_ids = true →
      password_accepted (upd_password data) = true →
      ∃ body st',
        update_user utcnow identity user_id data st = ((body, 200%Z), st')
        ∧ (∀ role_id, (user_id, role_id) ∈ user_roles st'
                      ↔ role_id ∈ role_ids ∧ is_Some (role_table st !! role_id))
        ∧ (∀ u r, u ≠ user_id → (u, r) ∈ user_roles st' ↔ (u, r) ∈ user_roles st)
        ∧ role_table st' = role_table st)
     ∧ (bindable role_ids = false ∨ password_accepted (upd_password data) = false →
        ∃ body, update_user utcnow identity user_id data st = ((body, 500%Z), st)))
  ∧ (∀ role_id data permission_ids,
       authorized st identity "role_write" →
       is_Some (role_table st !! role_id) →
       (∀ v, upd_name data = Some v → role_name_taken v role_id st = false) →
       upd_permission_ids data = Some permission_ids →
       (bindable permission_ids = true →
        ∃ body st',
          update_role identity role_id data st = ((body, 200%Z), st')
          ∧ (∀ permission_id,
               (role_id, permission_id) ∈ role_permissions st'
               ↔ permission_id ∈ permission_ids
                 ∧ is_Some (permission_table st !! permission_id))
          ∧ (∀ r p, r ≠ role_id →
                    (r, p) ∈ role_permissions st' ↔ (r, p) ∈ role_permissions st)
          ∧ permission_table st' = permission_table st)
       ∧ (bindable permission_ids = false →
          ∃ body, update_role identity role_id data st = ((body, 500%Z), st))).
Proof.
  intros [Hfk_ur Hfk_rp]. split.
  - intros user_id data role_ids Hauth Huser Hname Hemail Hids. split.
    + intros Hbind Hpw.
      pose proof Huser as [loaded Hget]%User_query_get_is_Some.
      pose proof (User_query_get_roles _ _ _ Hget) as Hroles.
      destruct (update_user_body_ok utcnow st user_id data loaded)
        as (body & user & Hid & _ & _ & _ & _ & Hrun); try done.
      { intros ids Heq. congruence. }
      rewrite Hids in Hrun. destruct Hrun as (found & Hq & Hrun).
      destruct (session_update_user_frame utcnow loaded user st)
        as (Hrt & _ & Hur & _).
      eexists body, _. split_and!.
      * unfold update_user. rewrite require_permission_authorized by done.
        exact Hrun.
      * intros role_id. simpl. rewrite Hur, elem_of_assoc_replace.
        rewrite (elem_of_query_ids_in _ _ _ _ Hq).
        split; [| intros ?; by left].
        intros [[_ Hnew] | [Hold Hnot]]; [done |]. exfalso. apply Hnot.
        split; [done |]. rewrite Hroles. unfold User_roles.
        rewrite omap_Role_query_get_ids, list_elem_of_filter, elem_of_related.
        split; [| done]. by apply (Hfk_ur user_id role_id).
      * intros u r Hne. simpl. rewrite Hur, elem_of_assoc_replace. split.
        -- intros [[-> _] | [Hin _]]; done.
        -- intros Hin. right. split; [done |]. by intros [-> _].
      * simpl. exact Hrt.
    + intros Hraise. unfold update_user.
      rewrite require_permission_authorized by done.
      apply update_user_body_raises; try done.
      destruct Hraise as [Hbind | Hpw]; [right; by exists role_ids | by left].
  - intros role_id data permission_ids Hauth Hrole Hname Hids. split.
    + intros Hbind.
      pose proof Hrole as [role Hget]%Role_query_get_is_Some.
      pose proof (Role_query_get_permissions _ _ _ Hget) as Hperms.
      destruct (update_role_body_ok st role_id data role)
        as (body & row & _ & Hrun); try done.
      { intros ids Heq. congruence. }
      rewrite Hids in Hrun. destruct Hrun as (found & Hq & Hrun).
      eexists body, _. split_and!.
      * unfold update_role. rewrite require_permission_authorized by done.
        exact Hrun.
      * intros permission_id. simpl. rewrite elem_of_assoc_replace.
        rewrite (elem_of_query_ids_in _ _ _ _ Hq).
        split; [| intros ?; by left].
        intros [[_ Hnew] | [Hold Hnot]]; [done |]. exfalso. apply Hnot.
        split; [done |]. rewrite Hperms. unfold Role_permissions.
        rewrite omap_Permission_query_get_ids, list_elem_of_filter, elem_of_related.
        split; [| done]. by apply (Hfk_rp role_id permission_id).
      * intros r p Hne. simpl. rewrite elem_of_assoc_replace. split.
        -- intros [[-> _] | [Hin _]]; done.
        -- intros Hin. right. split; [done |]. by intros [-> _].
      * done.
    + intros Hbind. unfold update_role.
      rewrite require_permission_authorized by done.
      by apply (update_role_body_raises st role_id data permission_ids).
Qed.

Lemma foreign_keys_seed : foreign_keys Seed.state.
Proof.
  split.
  - intros u r Hin. apply elem_of_elements in Hin.
    vm_compute elements in Hin.
    repeat (apply elem_of_cons in Hin as [[= -> ->] | Hin];
            [split; vm_compute; eauto |]).
    by apply elem_of_nil in Hin.
  - intros r p Hin. apply elem_of_elements in Hin.
    vm_compute elements in Hin.
    repeat (apply elem_of_cons in Hin as [[= -> ->] | Hin];
            [split; vm_compute; eauto |]).
    by apply elem_of_nil in Hin.
Qed.

Ltac in_list :=
  repeat first [ apply list_elem_of_here
               | apply list_elem_of_further ].

Ltac not_in_list H :=
  repeat (apply elem_of_cons in H as [H | H]; [discriminate H |]);
  by apply elem_of_nil in H.

Lemma update_replaces_associations_witness :
  (∃ body st',
     update_user Seed.utcnow 1 2
       (mk_update_user_data None None None None None None (Some [2; 3; 42]%Z))
       Seed.state = ((body, 200%Z), st')
     ∧ (2, 2)%Z ∈ user_roles st' ∧ (2, 3)%Z ∈ user_roles st'
     ∧ (2, 42)%Z ∉ user_roles st')
  ∧ (∃ body st',
       update_user Seed.utcnow 1 2
         (mk_update_user_data None None None None None None (Some [3]%Z))
         Seed.state = ((body, 200%Z), st')
       ∧ ((2, 2)%Z ∉ user_roles st') ∧ (2, 3)%Z ∈ user_roles st')
  ∧ (∃ body,
       update_user Seed.utcnow 1 2
         (mk_update_user_data None None None None None None
            (Some [3; 9223372036854775808]%Z))
         Seed.state = ((body, 500%Z), Seed.state))
  ∧ (∃ body,
       update_user Seed.utcnow 1 2
         (mk_update_user_data None None None None None (Some Seed.long_password)
            (Some [3]%Z))
         Seed.state = ((body, 500%Z), Seed.state))
  ∧ (∃ body st',
       update_role 1 3 (mk_update_role_data None None (Some [2; 99]%Z))
         Seed.state = ((body, 200%Z), st')
       ∧ ((3, 1)%Z ∉ role_permissions st') ∧ (3, 2)%Z ∈ role_permissions st'
       ∧ (3, 99)%Z ∉ role_permissions st').
Proof.
  destruct (update_replaces_associations Seed.utcnow Seed.state 1 foreign_keys_seed)
    as [Huser Hrole].
  assert (authorized Seed.state 1 "user_write") as Hwrite
    by (eexists; split; vm_compute; reflexivity).
  split_and!.
  - destruct (Huser 2%Z
                (mk_update_user_data None None None None None None (Some [2; 3; 42]%Z))
                [2; 3; 42]%Z) as [Hok _];
      [done | vm_compute; eauto | discriminate | discriminate | reflexivity |].
    destruct Hok as (body & st' & Hrun & Hiff & _); [reflexivity.. |].
    exists body, st'. split_and!; [exact Hrun | ..].
    + apply Hiff. split; [in_list | vm_compute; eauto].
    + apply Hiff. split; [in_list | vm_compute; eauto].
    + intros [_ [row Hrow]]%Hiff. vm_compute in Hrow. discriminate Hrow.
  - destruct (Huser 2%Z
                (mk_update_user_data None None None None None None (Some [3]%Z))
                [3]%Z) as [Hok _];
      [done | vm_compute; eauto | discriminate | discriminate | reflexivity |].
    destruct Hok as (body & st' & Hrun & Hiff & _); [reflexivity.. |].
    exists body, st'. split_and!; [exact Hrun | ..].
    + intros [Hin _]%Hiff. not_in_list Hin.
    + apply Hiff. split; [in_list | vm_compute; eauto].
  - destruct (Huser 2%Z
                (mk_update_user_data None None None None None None
                   (Some [3; 9223372036854775808]%Z))
                [3; 9223372036854775808]%Z) as [_ Hraise];
      [done | vm_compute; eauto | discriminate | discriminate | reflexivity |].
    apply Hraise. left. reflexivity.
  - destruct (Huser 2%Z
                (mk_update_user_data None None None None None
                   (Some Seed.long_password) (Some [3]%Z))
                [3]%Z) as [_ Hraise];
      [done | vm_compute; eauto | discriminate | discriminate | reflexivity |].
    apply Hraise. right. reflexivity.
  - destruct (Hrole 3%Z (mk_update_role_data None None (Some [2; 99]%Z)) [2; 99]%Z)
      as [Hok _];
      [eexists; split; vm_compute; reflexivity | vm_compute; eauto | discriminate
      | reflexivity |].
    destruct Hok as (body & st' & Hrun & Hiff & _); [reflexivity |].
    exists body, st'. split_and!; [exact Hrun | ..].
    + intros [Hin _]%Hiff. not_in_list Hin.
    + apply Hiff. split; [in_list | vm_compute; eauto].
    + intros [_ [row Hrow]]%Hiff. vm_compute in Hrow. discriminate Hrow.
Defined.

(** ** The foreign keys are an invariant of the views *)

Lemma loaded_role_ids (st : State) (user_id role_id : Z) :
  role_id ∈ Role.id <$> User_roles st user_id
  ↔ (user_id, role_id) ∈ user_roles st ∧ is_Some (role_table st !! role_id).
Proof.
  unfold User_roles.
  rewrite omap_Role_query_get_ids, list_elem_of_filter, elem_of_related. tauto.
Qed.

Lemma loaded_permission_ids (st : State) (role_id permission_id : Z) :
  permission_id ∈ Permission.id <$> Role_permissions st role_id
  ↔ (role_id, permission_id) ∈ role_permissions st
    ∧ is_Some (permission_table st !! permission_id).
Proof.
  unfold Role_permissions.
  rewrite omap_Permission_query_get_ids, list_elem_of_filter, elem_of_related. tauto.
Qed.

Lemma require_permission_preserves (Inv : State → Prop) (p : string)
    (f : State → Response * State) (identity : Z) (st : State) :
  Inv st → Inv (f st).2 → Inv (require_permission p f identity st).2.
Proof.
  intros Hst Hf. unfold require_permission.
  destruct (User_query_get st identity) as [user|]; [| done].
  by destruct (has_permission user p).
Qed.

Lemma delete_user_body_foreign_keys (st : State) (current_user_id user_id : Z) :
  foreign_keys st → foreign_keys (delete_user_body current_user_id user_id st).2.
Proof.
  intros Hfk. unfold delete_user_body.
  case_bool_decide; simpl; [done |].
  destruct (User_query_get st user_id) as [user|] eqn:Hget; simpl; [| done].
  pose proof (User_query_get_id _ _ _ Hget) as Hid.
  pose proof (User_query_get_roles _ _ _ Hget) as Hroles.
  unfold session_delete_user. rewrite Hid, Hroles.
  destruct Hfk as [Hur Hrp]. split; simpl; [| done].
  intros u r Hin. apply elem_of_filter in Hin as [Hnot Hin]. simpl in Hnot.
  destruct (Hur _ _ Hin) as [Hu Hr]. split; [| done].
  rewrite lookup_delete_ne; [done |].
  intros <-. apply Hnot. split; [done |]. by apply loaded_role_ids.
Qed.

Lemma assign_role_to_user_body_foreign_keys (st : State) (user_id : Z)
    (data_role_id : option Z) :
  foreign_keys st →
  foreign_keys (assign_role_to_user_body user_id data_role_id st).2.
Proof.
  intros Hfk. unfold assign_role_to_user_body.
  destruct (User_query_get st user_id) as [user|] eqn:Hu; simpl; [| done].
  destruct (truthy_int data_role_id); simpl; [| done].
  destruct (Role_query_get st (default 0%Z data_role_id)) as [role|] eqn:Hr;
    simpl; [| done].
  destruct (role_in role (User.roles user)); simpl; [done |].
  pose proof (Role_query_get_id _ _ _ Hr) as Hid.
  destruct Hfk as [Hur Hrp]. split; simpl; [| done].
  intros u r Hin. unfold assoc_add in Hin.
  apply elem_of_union in Hin as [Hin | Hin]; [| by apply Hur].
  apply elem_of_singleton in Hin as [= -> ->]. split.
  - apply User_query_get_is_Some. by exists user.
  - apply Role_query_get_is_Some. rewrite Hid. by exists role.
Qed.

Lemma remove_role_from_user_body_foreign_keys (st : State) (user_id role_id : Z) :
  foreign_keys st → foreign_keys (remove_role_from_user_body user_id role_id st).2.
Proof.
  intros Hfk. unfold remove_role_from_user_body.
  destruct (User_query_get st user_id) as [user|]; simpl; [| done].
  destruct (Role_query_get st role_id) as [role|]; simpl; [| done].
  destruct (role_in role (User.roles user)); simpl; [| done].
  destruct Hfk as [Hur Hrp]. split; simpl; [| done].
  intros u r Hin. unfold assoc_remove in Hin.
  apply elem_of_difference in Hin as [Hin _]. by apply Hur.
Qed.

Lemma assign_permission_to_role_body_foreign_keys (st : State) (role_id : Z)
    (data_permission_id : option Z) :
  foreign_keys st →
  foreign_keys (assign_permission_to_role_body role_id data_permission_id st).2.
Proof.
  intros Hfk. unfold assign_permission_to_role_body.
  destruct (Role_query_get st role_id) as [role|] eqn:Hr; simpl; [| done].
  destruct (truthy_int data_permission_id); simpl; [| done].
  destruct (Permission_query_get st (default 0%Z data_permission_id))
    as [permission|] eqn:Hp; simpl; [| done].
  destruct (permission_in permission (Role.permissions role)); simpl; [done |].
  pose proof (Permission_query_get_id _ _ _ Hp) as Hid.
  destruct Hfk as [Hur Hrp]. split; simpl; [done |].
  intros r p Hin. unfold assoc_add in Hin.
  apply elem_of_union in Hin as [Hin | Hin]; [| by apply Hrp].
  apply elem_of_singleton in Hin as [= -> ->]. split.
  - apply Role_query_get_is_Some. by exists role.
  - apply Permission_query_get_is_Some. rewrite Hid. by exists permission.
Qed.

Lemma remove_permission_from_role_body_foreign_keys (st : State)
    (role_id permission_id : Z) :
  foreign_keys st →
  foreign_keys (remove_permission_from_role_body role_id permission_id st).2.
Proof.
  intros Hfk. unfold remove_permission_from_role_body.
  destruct (Role_query_get st role_id) as [role|]; simpl; [| done].
  destruct (Permission_query_get st permission_id) as [permission|]; simpl; [| done].
  destruct (permission_in permission (Role.permissions role)); simpl; [| done].
  destruct Hfk as [Hur Hrp]. split; simpl; [done |].
  intros r p Hin. unfold assoc_remove in Hin.
  apply elem_of_difference in Hin as [Hin _]. by apply Hrp.
Qed.

Lemma delete_role_body_foreign_keys (st : State) (role_id : Z) :
  foreign_keys st → foreign_keys (delete_role_body role_id st).2.
Proof.
  intros Hfk. unfold delete_role_body.
  destruct (Role_query_get st role_id) as [role|] eqn:Hget; simpl; [| done].
  destruct (decide (Role_users st role_id = [])) as [Hnil | Hne].
  2: { by rewrite bool_decide_eq_false_2. }
  rewrite bool_decide_eq_true_2 by done. simpl.
  pose proof (Role_query_get_id _ _ _ Hget) as Hid.
  pose proof (Role_query_get_permissions _ _ _ Hget) as Hperms.
  unfold session_delete_role. rewrite Hid, Hperms, Hnil.
  destruct Hfk as [Hur Hrp]. split; simpl.
  - intros u r Hin. apply elem_of_filter in Hin as [_ Hin].
    destruct (Hur _ _ Hin) as [Hu Hr]. split; [done |].
    rewrite lookup_delete_ne; [done |]. intros <-.
    by apply (Role_users_nonempty st role_id u).
  - intros r p Hin. apply elem_of_filter in Hin as [Hnot Hin]. simpl in Hnot.
    destruct (Hrp _ _ Hin) as [Hr Hp]. split; [| done].
    rewrite lookup_delete_ne; [done |]. intros <-. apply Hnot.
    split; [done |]. by apply loaded_permission_ids.
Qed.

Lemma delete_permission_body_foreign_keys (st : State) (permission_id : Z) :
  foreign_keys st → foreign_keys (delete_permission_body permission_id st).2.
Proof.
  intros Hfk. unfold delete_permission_body.
  destruct (Permission_query_get st permission_id) as [permission|] eqn:Hget;
    simpl; [| done].
  destruct (decide (Permission_roles st permission_id = [])) as [Hnil | Hne].
  2: { by rewrite bool_decide_eq_false_2. }
  rewrite bool_decide_eq_true_2 by done. simpl.
  pose proof (Permission_query_get_id _ _ _ Hget) as Hid.
  unfold session_delete_permission. rewrite Hid, Hnil.
  destruct Hfk as [Hur Hrp]. split; simpl; [done |].
  intros r p Hin. apply elem_of_filter in Hin as [_ Hin].
  destruct (Hrp _ _ Hin) as [Hr Hp]. split; [done |].
  rewrite lookup_delete_ne; [done |]. intros <-.
  by apply (Permission_roles_nonempty st permission_id r).
Qed.

Lemma update_user_body_state `{Bcrypt} `{Sqlite} (utcnow : Utcnow) (st : State)
    (user_id : Z) (data : update_user_data) :
  (update_user_body utcnow user_id data st).2 = st
  ∨ (is_Some (user_table st !! user_id)
     ∧ dom (user_table (update_user_body utcnow user_id data st).2)
       = dom (user_table st)
     ∧ role_table (update_user_body utcnow user_id data st).2 = role_table st
     ∧ permission_table (update_user_body utcnow user_id data st).2
       = permission_table st
     ∧ role_permissions (update_user_body utcnow user_id data st).2
       = role_permissions st
     ∧ reset_tokens (update_user_body utcnow user_id data st).2 = reset_tokens st
     ∧ blacklisted_tokens (update_user_body utcnow user_id data st).2
       = blacklisted_tokens st
     ∧ (user_roles (update_user_body utcnow user_id data st).2 = user_roles st
        ∨ ∃ role_ids found,
            query_ids_in role_ids (role_table st) = inr found
            ∧ user_roles (update_user_body utcnow user_id data st).2
              = assoc_replace user_id (Role.id <$> User_roles st user_id)
                  found (user_roles st))).
Proof.
  unfold update_user_body.
  destruct (User_query_get st user_id) as [loaded|] eqn:Hget; simpl; [| by left].
  pose proof (User_query_get_roles _ _ _ Hget) as Hroles.
  pose proof (User_query_get_id _ _ _ Hget) as Hid.
  assert (is_Some (user_table st !! user_id)) as Hrow
    by (apply User_query_get_is_Some; by exists loaded).
  destruct data as [dn de df dl da dp dr]. simpl.
  destruct dn as [n|]; simpl;
    [destruct (username_taken n user_id st); simpl; [by left |] |];
    (destruct de as [e|]; simpl;
     [destruct (email_taken e user_id st); simpl; [by left |] |]);
    (destruct (truthy_str dp); simpl;
     [unfold set_password;
      destruct (generate_password_hash (default "" dp)) as [msg|hashed];
      simpl; [by left |] |]);
    (destruct dr as [ids|]; simpl;
     [destruct (query_ids_in ids (role_table st)) as [msg'|found] eqn:Hq;
      simpl; [by left |] |]);
    right; destruct df, dl, da; simpl;
    match goal with
    | |- context [session_update_user ?u ?l ?x ?s] =>
        destruct (session_update_user_frame u l x s)
          as (-> & -> & -> & -> & -> & -> & _ & Hdom);
        simpl in Hdom; rewrite Hid in Hdom; rewrite (Hdom Hrow)
    end;
    (split_and!; [done | done | done | done | done | done | done |]);
    first [ by left | right; eexists _, found; by rewrite <- Hroles ].
Qed.

Lemma update_role_body_state `{Sqlite} (st : State) (role_id : Z)
    (data : update_role_data) :
  (update_role_body role_id data st).2 = st
  ∨ (is_Some (role_table st !! role_id)
     ∧ dom (role_table (update_role_body role_id data st).2) = dom (role_table st)
     ∧ user_table (update_role_body role_id data st).2 = user_table st
     ∧ permission_table (update_role_body role_id data st).2 = permission_table st
     ∧ user_roles (update_role_body role_id data st).2 = user_roles st
     ∧ reset_tokens (update_role_body role_id data st).2 = reset_tokens st
     ∧ blacklisted_tokens (update_role_body role_id data st).2
       = blacklisted_tokens st
     ∧ (role_permissions (update_role_body role_id data st).2 = role_permissions st
        ∨ ∃ permission_ids found,
            query_ids_in permission_ids (permission_table st) = inr found
            ∧ role_permissions (update_role_body role_id data st).2
              = assoc_replace role_id (Permission.id <$> Role_permissions st role_id)
                  found (role_permissions st))).
Proof.
  unfold update_role_body.
  destruct (Role_query_get st role_id) as [role|] eqn:Hget; simpl; [| by left].
  pose proof (Role_query_get_permissions _ _ _ Hget) as Hperms.
  assert (role_id ∈ dom (role_table st)) as Hdom.
  { apply elem_of_dom, Role_query_get_is_Some. by exists role. }
  destruct data as [dn dd dp]. simpl.
  destruct dn as [n|]; simpl;
    [destruct (role_name_taken n role_id st); simpl; [by left |] |];
    (destruct dp as [ids|]; simpl;
     [destruct (query_ids_in ids (permission_table st)) as [msg|found] eqn:Hq;
      simpl; [by left |] |]);
    right;
    (split_and!;
     [by apply elem_of_dom | rewrite dom_insert_L; set_solver
     | done | done | done | done | done |]);
    first [ by left
          | right; eexists _, found; split; [done |];
            by destruct dd; simpl; rewrite Hperms ].
Qed.

Lemma is_Some_dom_eq {A : Type} (m m' : gmap Z A) (k : Z) :
  dom m' = dom m → is_Some (m !! k) → is_Some (m' !! k).
Proof. intros Hdom Hk. apply elem_of_dom. rewrite Hdom. by apply elem_of_dom. Qed.

Lemma update_user_body_foreign_keys `{Bcrypt} `{Sqlite} (utcnow : Utcnow)
    (st : State) (user_id : Z) (data : update_user_data) :
  foreign_keys st → foreign_keys (update_user_body utcnow user_id data st).2.
Proof.
  intros Hfk.
  destruct (update_user_body_state utcnow st user_id data)
    as [-> | (Huser & Hdom & Hroles & Hperms & Hrp & _ & _ & Hur)]; [done |].
  destruct Hfk as [Hfk_ur Hfk_rp]. split.
  - intros u r Hin. rewrite Hroles.
    assert ((u, r) ∈ user_roles st
            ∨ (u = user_id ∧ is_Some (role_table st !! r))) as [Hold | [-> Hr]].
    { destruct Hur as [Heq | (ids & found & Hq & Heq)]; rewrite Heq in Hin;
        [by left |].
      apply elem_of_assoc_replace in Hin as [[-> Hnew] | [Hold _]]; [| by left].
      apply (elem_of_query_ids_in _ _ _ _ Hq) in Hnew as [_ Hr]. by right. }
    + destruct (Hfk_ur _ _ Hold) as [Hu Hr]. split; [| done].
      by apply (is_Some_dom_eq (user_table st)).
    + split; [| done]. by apply (is_Some_dom_eq (user_table st)).
  - intros r p Hin. rewrite Hroles, Hperms. rewrite Hrp in Hin. by apply Hfk_rp.
Qed.

Lemma update_role_body_foreign_keys `{Sqlite} (st : State) (role_id : Z)
    (data : update_role_data) :
  foreign_keys st → foreign_keys (update_role_body role_id data st).2.
Proof.
  intros Hfk.
  destruct (update_role_body_state st role_id data)
    as [-> | (Hrole & Hdom & Husers & Hperms & Hur & _ & _ & Hrp)]; [done |].
  destruct Hfk as [Hfk_ur Hfk_rp]. split.
  - intros u r Hin. rewrite Husers. rewrite Hur in Hin.
    destruct (Hfk_ur _ _ Hin) as [Hu Hr]. split; [done |].
    by apply (is_Some_dom_eq (role_table st)).
  - intros r p Hin. rewrite Hperms.
    assert ((r, p) ∈ role_permissions st
            ∨ (r = role_id ∧ is_Some (permission_table st !! p)))
      as [Hold | [-> Hp]].
    { destruct Hrp as [Heq | (ids & found & Hq & Heq)]; rewrite Heq in Hin;
        [by left |].
      apply elem_of_assoc_replace in Hin as [[-> Hnew] | [Hold _]]; [| by left].
      apply (elem_of_query_ids_in _ _ _ _ Hq) in Hnew as [_ Hp]. by right. }
    + destruct (Hfk_rp _ _ Hold) as [Hr Hp]. split; [| done].
      by apply (is_Some_dom_eq (role_table st)).
    + split; [| done]. by apply (is_Some_dom_eq (role_table st)).
Qed.

Lemma reset_password_foreign_keys `{Bcrypt} (utcnow : Utcnow) (st : State)
    (data : reset_password_data) :
  foreign_keys st → foreign_keys (reset_password utcnow data st).2.
Proof.
  intros Hfk.
  destruct (truthy_str_cases (reset_token data)) as [Hbad | (token & Htok & Htne)].
  { by rewrite reset_password_invalid by (by left). }
  destruct (truthy_str_cases (reset_new_password data))
    as [Hbad | (new_password & Hpw & Hpne)].
  { by rewrite reset_password_invalid by (by right). }
  destruct data as [dt dp]. simpl in *. subst dt dp.
  rewrite reset_password_paths by done.
  destruct (reset_tokens st !! token) as [uid|]; [| done].
  case_bool_decide; [done |].
  destruct (User_query_get st uid) as [loaded|] eqn:Hget; [| done].
  destruct (set_password loaded new_password) as [msg|user] eqn:Hset; [done |].
  apply set_password_inr in Hset as (hashed & _ & ->).
  pose proof (User_query_get_id _ _ _ Hget) as Hid.
  assert (is_Some (user_table st !! uid)) as Hrow
    by (apply User_query_get_is_Some; by exists loaded).
  destruct (session_update_user_frame utcnow loaded
              (User_with_password hashed loaded) st)
    as (Hrt & Hpt & Hur & Hrp & _ & _ & _ & Hdom).
  simpl in Hdom. rewrite Hid in Hdom. specialize (Hdom Hrow).
  destruct Hfk as [Hfk_ur Hfk_rp]. unfold after_reset. split; simpl.
  - intros u r. rewrite Hur, Hrt. intros Hin.
    destruct (Hfk_ur _ _ Hin) as [Hu Hr]. split; [| done].
    apply elem_of_dom. rewrite Hdom. by apply elem_of_dom.
  - intros r p. rewrite Hrp, Hrt, Hpt. apply Hfk_rp.
Qed.

Lemma forgot_password_foreign_keys (st : State) (data_email : option string)
    (token : string) :
  foreign_keys st → foreign_keys (forgot_password data_email token st).2.
Proof.
  intros Hfk. unfold forgot_password.
  destruct (truthy_str data_email); simpl; [| done].
  by destruct (find_by_email (default "" data_email) st).
Qed.

(** Every view modelled here keeps the foreign keys of the two
    association tables: a state reached from a consistent database
    through these views is consistent. *)
Lemma views_keep_foreign_keys `{Bcrypt} `{JWT} `{Sqlite} (st : State)
    (identity : Z) :
  foreign_keys st →
  (∀ user_id, foreign_keys (delete_user identity user_id st).2)
  ∧ (∀ utcnow user_id data,
       foreign_keys (update_user utcnow identity user_id data st).2)
  ∧ (∀ user_id role_id,
       foreign_keys (assign_role_to_user identity user_id role_id st).2)
  ∧ (∀ user_id role_id,
       foreign_keys (remove_role_from_user identity user_id role_id st).2)
  ∧ (∀ role_id data, foreign_keys (update_role identity role_id data st).2)
  ∧ (∀ role_id, foreign_keys (delete_role identity role_id st).2)
  ∧ (∀ role_id permission_id,
       foreign_keys (assign_permission_to_role identity role_id permission_id st).2)
  ∧ (∀ role_id permission_id,
       foreign_keys (remove_permission_from_role identity role_id permission_id st).2)
  ∧ (∀ permission_id, foreign_keys (delete_permission identity permission_id st).2)
  ∧ (∀ data, foreign_keys (login data st).2)
  ∧ (∀ jti, foreign_keys (logout jti st).2)
  ∧ (∀ data_email token, foreign_keys (forgot_password data_email token st).2)
  ∧ (∀ utcnow data, foreign_keys (reset_password utcnow data st).2).
Proof.
  intros Hfk. split_and!; intros.
  - apply (require_permission_preserves foreign_keys); [done |].
    by apply delete_user_body_foreign_keys.
  - apply (require_permission_preserves foreign_keys); [done |].
    by apply update_user_body_foreign_keys.
  - apply (require_permission_preserves foreign_keys); [done |].
    by apply assign_role_to_user_body_foreign_keys.
  - apply (require_permission_preserves foreign_keys); [done |].
    by apply remove_role_from_user_body_foreign_keys.
  - apply (require_permission_preserves foreign_keys); [done |].
    by apply update_role_body_foreign_keys.
  - apply (require_permission_preserves foreign_keys); [done |].
    by apply delete_role_body_foreign_keys.
  - apply (require_permission_preserves foreign_keys); [done |].
    by apply assign_permission_to_role_body_foreign_keys.
  - apply (require_permission_preserves foreign_keys); [done |].
    by apply remove_permission_from_role_body_foreign_keys.
  - apply (require_permission_preserves foreign_keys); [done |].
    by apply delete_permission_body_foreign_keys.
  - by rewrite login_state_unchanged.
  - done.
  - by apply forgot_password_foreign_keys.
  - by apply reset_password_foreign_keys.
Qed.

(** ** Mutations are seen by the next check *)

(** Right after a permission has been assigned to a role, every user
    holding that role passes [has_permission] for it: the check reads
    the tables as they are, nothing is cached. *)
Lemma assign_permission_takes_effect (st st' : State) (role_id permission_id : Z)
    (body : json) (user_id : Z) (U : User.t) (row : permission_row) :
  assign_permission_to_role_body role_id (Some permission_id) st
  = ((body, 200%Z), st') →
  (user_id, role_id) ∈ user_roles st →
  permission_table st !! permission_id = Some row →
  User_query_get st' user_id = Some U →
  has_permission U (col_permission_name row) = true.
Proof.
  unfold assign_permission_to_role_body. intros Hrun Hheld Hrow Hload.
  destruct (Role_query_get st role_id) as [role|] eqn:Hr; simpl in Hrun;
    [| by injection Hrun].
  destruct (bool_decide (permission_id = 0%Z)); simpl in Hrun;
    [by injection Hrun |].
  destruct (Permission_query_get st permission_id) as [permission|] eqn:Hp;
    simpl in Hrun; [| by injection Hrun].
  destruct (permission_in permission (Role.permissions role)); simpl in Hrun;
    [by injection Hrun |].
  injection Hrun as _ <-.
  pose proof (Permission_query_get_id _ _ _ Hp) as Hid.
  eapply has_permission_loaded; [exact Hload |].
  exists role_id, permission_id, row. simpl. split_and!; try done.
  - apply Role_query_get_is_Some. by exists role.
  - rewrite Hid. unfold assoc_add. set_solver.
Qed.
(** * Beyond the claims: the remaining views, the start-up code and the
    seeding script *)

(** ** Row ids and lookups by column *)

Lemma foldr_max_ge (k : Z) (ks : list Z) (x : Z) :
  x ∈ k :: ks → (x ≤ foldr Z.max k ks)%Z.
Proof.
  induction ks as [|y ks IH]; simpl.
  - intros Hx. apply list_elem_of_singleton in Hx. lia.
  - intros Hx. apply elem_of_cons in Hx as [-> | Hx].
    + assert (k ∈ k :: ks) as Hk by left. apply IH in Hk. lia.
    + apply elem_of_cons in Hx as [-> | Hx]; [lia |].
      assert (x ∈ k :: ks) as Hk by (by right). apply IH in Hk. lia.
Qed.

Lemma next_rowid_above {A : Type} (table : gmap Z A) (k : Z) :
  is_Some (table !! k) → (k < next_rowid table)%Z.
Proof.
  intros [a Ha]. unfold next_rowid.
  assert (k ∈ (map_to_list table).*1) as Hk.
  { apply list_elem_of_fmap. exists (k, a). split; [done |].
    by apply elem_of_map_to_list. }
  destruct ((map_to_list table).*1) as [|k0 ks]; [by apply elem_of_nil in Hk |].
  apply foldr_max_ge in Hk. lia.
Qed.

Lemma next_rowid_fresh {A : Type} (table : gmap Z A) :
  table !! next_rowid table = None.
Proof.
  destruct (table !! next_rowid table) as [a|] eqn:Hk; [| done].
  assert (next_rowid table < next_rowid table)%Z
    by (apply next_rowid_above; eauto).
  lia.
Qed.

Lemma query_exists_false {A : Type} (P : Z → A → bool) (table : gmap Z A) :
  bool_decide (is_Some (query_first P table)) = false
  ↔ ∀ k v, table !! k = Some v → P k v = false.
Proof.
  rewrite bool_decide_eq_false, <- query_first_None.
  rewrite <- eq_None_not_Some. done.
Qed.

Lemma query_exists_true {A : Type} (P : Z → A → bool) (table : gmap Z A) :
  bool_decide (is_Some (query_first P table)) = true
  ↔ ∃ k v, table !! k = Some v ∧ P k v = true.
Proof.
  rewrite bool_decide_eq_true. split.
  - intros [[k v] Hq]. exists k, v. by apply query_first_Some in Hq.
  - intros (k & v & Hkv & HP).
    destruct (query_first P table) as [kv|] eqn:Hq; [eauto |].
    rewrite query_first_None in Hq. rewrite (Hq _ _ Hkv) in HP. done.
Qed.

Lemma username_exists_false (v : string) (st : State) :
  username_exists v st = false
  ↔ ∀ k row, user_table st !! k = Some row → col_username row ≠ v.
Proof.
  unfold username_exists. rewrite query_exists_false.
  split; intros Hall k row Hrow; specialize (Hall k row Hrow).
  - by apply bool_decide_eq_false in Hall.
  - by apply bool_decide_eq_false.
Qed.

Lemma email_exists_false (v : string) (st : State) :
  email_exists v st = false
  ↔ ∀ k row, user_table st !! k = Some row → col_email row ≠ v.
Proof.
  unfold email_exists. rewrite query_exists_false.
  split; intros Hall k row Hrow; specialize (Hall k row Hrow).
  - by apply bool_decide_eq_false in Hall.
  - by apply bool_decide_eq_false.
Qed.

Lemma role_name_exists_false (v : string) (st : State) :
  role_name_exists v st = false
  ↔ ∀ k row, role_table st !! k = Some row → col_role_name row ≠ v.
Proof.
  unfold role_name_exists. rewrite query_exists_false.
  split; intros Hall k row Hrow; specialize (Hall k row Hrow).
  - by apply bool_decide_eq_false in Hall.
  - by apply bool_decide_eq_false.
Qed.

Lemma permission_name_exists_false (v : string) (st : State) :
  permission_name_exists v st = false
  ↔ ∀ k row, permission_table st !! k = Some row → col_permission_name row ≠ v.
Proof.
  unfold permission_name_exists. rewrite query_exists_false.
  split; intros Hall k row Hrow; specialize (Hall k row Hrow).
  - by apply bool_decide_eq_false in Hall.
  - by apply bool_decide_eq_false.
Qed.

Lemma taken_false {A : Type} (column : A → string) (v : string) (id : Z)
    (table : gmap Z A) :
  bool_decide (is_Some (query_first
    (λ k row, bool_decide (column row = v) && negb (bool_decide (k = id))) table))
  = false
  ↔ ∀ k row, k ≠ id → table !! k = Some row → column row ≠ v.
Proof.
  rewrite query_exists_false. split.
  - intros Hall k row Hne Hrow Hv. specialize (Hall k row Hrow).
    rewrite bool_decide_eq_true_2, bool_decide_eq_false_2 in Hall by done. done.
  - intros Hall k row Hrow.
    destruct (decide (k = id)) as [-> | Hne].
    + rewrite (bool_decide_eq_true_2 (id = id)) by done. apply andb_false_r.
    + rewrite (bool_decide_eq_false_2 (column row = v)); [done |].
      by apply (Hall k).
Qed.

(** ** An id that no row has *)

Lemma User_query_get_None (st : State) (k : Z) :
  user_table st !! k = None → User_query_get st k = None.
Proof. intros Hk. unfold User_query_get. by rewrite Hk. Qed.

Lemma Role_query_get_None (st : State) (k : Z) :
  role_table st !! k = None → Role_query_get st k = None.
Proof. intros Hk. unfold Role_query_get. by rewrite Hk. Qed.

Lemma Permission_query_get_None (st : State) (k : Z) :
  permission_table st !! k = None → Permission_query_get st k = None.
Proof. intros Hk. unfold Permission_query_get. by rewrite Hk. Qed.

(** X1.  The views on one user fetch the row with [get_or_404] inside
    their [try] block, so the [NotFound] it raises is caught by [except
    Exception]: an authorised caller who addresses a user id that has no
    row gets 500 with werkzeug's "404 Not Found: ..." text as the error
    (not a 404), and nothing changes. *)
Theorem unknown_user_answers_500 `{Bcrypt} `{Sqlite} (st : State) (identity : Z)
    (user_id : Z) :
  path_id user_id →
  user_table st !! user_id = None →
  let not_found := ((error_body str_NotFound, 500%Z), st) in
  (authorized st identity "user_read" → get_user identity user_id st = not_found)
  ∧ (authorized st identity "user_write" →
     ∀ utcnow data, update_user utcnow identity user_id data st = not_found)
  ∧ (authorized st identity "user_delete" →
     delete_user identity user_id st = not_found).
Proof.
  intros [_ Hint] Hnone%User_query_get_None not_found. subst not_found.
  split_and!.
  - intros Hauth. unfold get_user. rewrite require_permission_authorized by done.
    unfold get_user_body. rewrite Hnone. simpl. by rewrite Hint.
  - intros Hauth utcnow data. unfold update_user.
    rewrite require_permission_authorized by done.
    unfold update_user_body. rewrite Hnone. simpl. by rewrite Hint.
  - intros Hauth. unfold delete_user.
    rewrite require_permission_authorized by done.
    unfold delete_user_body. case_bool_decide as Hself; simpl.
    + subst user_id. destruct Hauth as (caller & Hget & _). congruence.
    + rewrite Hnone. simpl. by rewrite Hint.
Qed.

Lemma unknown_user_answers_500_witness :
  get_user 1 42 Seed.state = ((error_body str_NotFound, 500%Z), Seed.state)
  ∧ update_user Seed.utcnow 1 42
      (mk_update_user_data None None (Some "J.") None None None None) Seed.state
    = ((error_body str_NotFound, 500%Z), Seed.state)
  ∧ delete_user 1 42 Seed.state = ((error_body str_NotFound, 500%Z), Seed.state).
Proof.
  destruct (unknown_user_answers_500 Seed.state 1 42) as (Hget & Hupdate & Hdelete).
  - split; [done | reflexivity].
  - reflexivity.
  - split_and!.
    + apply Hget. eexists; split; vm_compute; reflexivity.
    + apply Hupdate. eexists; split; vm_compute; reflexivity.
    + apply Hdelete. eexists; split; vm_compute; reflexivity.
Defined.

(** X2.  The same for the views on one role: a role id that has no row
    is answered 500 with the "404 Not Found: ..." text, and nothing
    changes. *)
Theorem unknown_role_answers_500 `{Sqlite} (st : State) (identity : Z)
    (role_id : Z) :
  path_id role_id →
  role_table st !! role_id = None →
  let not_found := ((error_body str_NotFound, 500%Z), st) in
  (authorized st identity "role_read" → get_role identity role_id st = not_found)
  ∧ (authorized st identity "role_write" →
     ∀ data, update_role identity role_id data st = not_found)
  ∧ (authorized st identity "role_delete" →
     delete_role identity role_id st = not_found).
Proof.
  intros [_ Hint] Hnone%Role_query_get_None not_found. subst not_found.
  split_and!.
  - intros Hauth. unfold get_role. rewrite require_permission_authorized by done.
    unfold get_role_body. rewrite Hnone. simpl. by rewrite Hint.
  - intros Hauth data. unfold update_role.
    rewrite require_permission_authorized by done.
    unfold update_role_body. rewrite Hnone. simpl. by rewrite Hint.
  - intros Hauth. unfold delete_role.
    rewrite require_permission_authorized by done.
    unfold delete_role_body. rewrite Hnone. simpl. by rewrite Hint.
Qed.

Lemma unknown_role_answers_500_witness :
  get_role 1 42 Seed.state = ((error_body str_NotFound, 500%Z), Seed.state)
  ∧ update_role 1 42 (mk_update_role_data (Some "Auditor") None None) Seed.state
    = ((error_body str_NotFound, 500%Z), Seed.state)
  ∧ delete_role 1 42 Seed.state = ((error_body str_NotFound, 500%Z), Seed.state).
Proof.
  destruct (unknown_role_answers_500 Seed.state 1 42) as (Hget & Hupdate & Hdelete).
  - split; [done | reflexivity].
  - reflexivity.
  - split_and!.
    + apply Hget. eexists; split; vm_compute; reflexivity.
    + apply Hupdate. eexists; split; vm_compute; reflexivity.
    + apply Hdelete. eexists; split; vm_compute; reflexivity.
Defined.

(** X3.  The same for the views on one permission. *)
Theorem unknown_permission_answers_500 (st : State) (identity : Z)
    (permission_id : Z) :
  path_id permission_id →
  permission_table st !! permission_id = None →
  let not_found := ((error_body str_NotFound, 500%Z), st) in
  (authorized st identity "permission_read" →
   get_permission identity permission_id st = not_found)
  ∧ (authorized st identity "permission_write" →
     ∀ data, update_permission identity permission_id data st = not_found)
  ∧ (authorized st identity "permission_delete" →
     delete_permission identity permission_id st = not_found).
Proof.
  intros [_ Hint] Hnone%Permission_query_get_None not_found. subst not_found.
  split_and!.
  - intros Hauth. unfold get_permission.
    rewrite require_permission_authorized by done.
    unfold get_permission_body. rewrite Hnone. simpl. by rewrite Hint.
  - intros Hauth data. unfold update_permission.
    rewrite require_permission_authorized by done.
    unfold update_permission_body. rewrite Hnone. simpl.
    by rewrite Hint.
  - intros Hauth. unfold delete_permission.
    rewrite require_permission_authorized by done.
    unfold delete_permission_body. rewrite Hnone. simpl.
    by rewrite Hint.
Qed.

Lemma unknown_permission_answers_500_witness :
  get_permission 1 42 Seed.state = ((error_body str_NotFound, 500%Z), Seed.state)
  ∧ update_permission 1 42 (mk_permission_data (Some "audit") None) Seed.state
    = ((error_body str_NotFound, 500%Z), Seed.state)
  ∧ delete_permission 1 42 Seed.state
    = ((error_body str_NotFound, 500%Z), Seed.state).
Proof.
  destruct (unknown_permission_answers_500 Seed.state 1 42)
    as (Hget & Hupdate & Hdelete).
  - split; [done | reflexivity].
  - reflexivity.
  - split_and!.
    + apply Hget. eexists; split; vm_compute; reflexivity.
    + apply Hupdate. eexists; split; vm_compute; reflexivity.
    + apply Hdelete. eexists; split; vm_compute; reflexivity.
Defined.

(** X4.  The four views that assign and remove associations answer an
    id that has no row in the same way, whether it is the id of the
    entity in the path or the id of the entity to assign or remove: 500
    with the "404 Not Found: ..." text, nothing changed.  (An id 0 in
    the body stops at the "is required" check before.) *)
Theorem unknown_id_in_association_answers_500 (st : State) (identity : Z) :
  let not_found := ((error_body str_NotFound, 500%Z), st) in
  (authorized st identity "user_write" →
   (∀ user_id,
      path_id user_id → user_table st !! user_id = None →
      (∀ data_role_id,
         assign_role_to_user identity user_id data_role_id st = not_found)
      ∧ (∀ role_id, remove_role_from_user identity user_id role_id st = not_found))
   ∧ (∀ user_id role_id,
        is_Some (user_table st !! user_id) →
        sqlite_int role_id = true → role_table st !! role_id = None →
        (role_id ≠ 0%Z →
         assign_role_to_user identity user_id (Some role_id) st = not_found)
        ∧ remove_role_from_user identity user_id role_id st = not_found))
  ∧ (authorized st identity "role_write" →
     (∀ role_id,
        path_id role_id → role_table st !! role_id = None →
        (∀ data_permission_id,
           assign_permission_to_role identity role_id data_permission_id st
           = not_found)
        ∧ (∀ permission_id,
             remove_permission_from_role identity role_id permission_id st
             = not_found))
     ∧ (∀ role_id permission_id,
          is_Some (role_table st !! role_id) →
          sqlite_int permission_id = true →
          permission_table st !! permission_id = None →
          (permission_id ≠ 0%Z →
           assign_permission_to_role identity role_id (Some permission_id) st
           = not_found)
          ∧ remove_permission_from_role identity role_id permission_id st
            = not_found)).
Proof.
  intros not_found. subst not_found. split.
  - intros Hauth. split.
    + intros user_id [_ Hint] Hnone%User_query_get_None. split; intros.
      * unfold assign_role_to_user. rewrite require_permission_authorized by done.
        unfold assign_role_to_user_body. rewrite Hnone. simpl.
        by rewrite Hint.
      * unfold remove_role_from_user. rewrite require_permission_authorized by done.
        unfold remove_role_from_user_body. rewrite Hnone. simpl.
        by rewrite Hint.
    + intros user_id role_id [user Huser]%User_query_get_is_Some Hint
        Hnone%Role_query_get_None. split.
      * intros Hnz. unfold assign_role_to_user.
        rewrite require_permission_authorized by done.
        unfold assign_role_to_user_body. rewrite Huser. simpl.
        rewrite bool_decide_eq_false_2 by done. simpl. rewrite Hnone. simpl.
        by rewrite Hint.
      * unfold remove_role_from_user. rewrite require_permission_authorized by done.
        unfold remove_role_from_user_body. rewrite Huser. simpl. rewrite Hnone.
        simpl. by rewrite Hint.
  - intros Hauth. split.
    + intros role_id [_ Hint] Hnone%Role_query_get_None. split; intros.
      * unfold assign_permission_to_role.
        rewrite require_permission_authorized by done.
        unfold assign_permission_to_role_body. rewrite Hnone. simpl.
        by rewrite Hint.
      * unfold remove_permission_from_role.
        rewrite require_permission_authorized by done.
        unfold remove_permission_from_role_body. rewrite Hnone. simpl.
        by rewrite Hint.
    + intros role_id permission_id [role Hrole]%Role_query_get_is_Some Hint
        Hnone%Permission_query_get_None. split.
      * intros Hnz. unfold assign_permission_to_role.
        rewrite require_permission_authorized by done.
        unfold assign_permission_to_role_body. rewrite Hrole. simpl.
        rewrite bool_decide_eq_false_2 by done. simpl. rewrite Hnone. simpl.
        by rewrite Hint.
      * unfold remove_permission_from_role.
        rewrite require_permission_authorized by done.
        unfold remove_permission_from_role_body. rewrite Hrole. simpl.
        rewrite Hnone. simpl. by rewrite Hint.
Qed.

Lemma unknown_id_in_association_answers_500_witness :
  assign_role_to_user 1 42 (Some 2%Z) Seed.state
  = ((error_body str_NotFound, 500%Z), Seed.state)
  ∧ assign_role_to_user 1 3 (Some 42%Z) Seed.state
    = ((error_body str_NotFound, 500%Z), Seed.state)
  ∧ remove_permission_from_role 1 42 1 Seed.state
    = ((error_body str_NotFound, 500%Z), Seed.state)
  ∧ remove_permission_from_role 1 3 42 Seed.state
    = ((error_body str_NotFound, 500%Z), Seed.state).
Proof.
  destruct (unknown_id_in_association_answers_500 Seed.state 1) as [Huser Hrole].
  destruct Huser as [Huser_gone Hrole_gone];
    [eexists; split; vm_compute; reflexivity |].
  destruct Hrole as [Hrole_gone' Hperm_gone];
    [eexists; split; vm_compute; reflexivity |].
  split_and!.
  - apply (Huser_gone 42%Z); [split; [done | reflexivity] | reflexivity].
  - destruct (Hrole_gone 3%Z 42%Z) as [Hassign _];
      [vm_compute; eauto | reflexivity | reflexivity |].
    apply Hassign. discriminate.
  - apply (Hrole_gone' 42%Z); [split; [done | reflexivity] | reflexivity].
  - destruct (Hperm_gone 3%Z 42%Z) as [_ Hremove];
      [vm_compute; eauto | reflexivity | reflexivity |].
    exact Hremove.
Defined.

(** ** POST /auth/register and POST /users *)

Lemma truthy_str_Some (s : string) : s ≠ "" → truthy_str (Some s) = true.
Proof. intros Hs. simpl. by rewrite bool_decide_eq_false_2. Qed.

Section Register.
Context `{Bcrypt}.

(** The row and the state that [register] commits. *)
Lemma register_paths (utcnow : Utcnow) (st : State)
    (username email password hashed : string)
    (first_name last_name : option string) :
  username ≠ "" → email ≠ "" → password ≠ "" →
  username_exists username st = false →
  email_exists email st = false →
  generate_password_hash password = inr hashed →
  ∃ body,
    register utcnow
      (mk_register_data (Some username) (Some email) (Some password)
         first_name last_name) st
    = ((body, 201%Z),
       session_add_user utcnow
         (User.mk (next_rowid (user_table st)) username email hashed
            (default "" first_name) (default "" last_name) true None None [])
         (from_option (λ role, [Role.id role]) []
            (find_role_by_name "Employee" st)) st).
Proof.
  intros Hu He Hp Hufree Hefree Hhash. unfold register. simpl.
  rewrite !bool_decide_eq_false_2 by done. simpl.
  rewrite Hufree, Hefree. simpl. unfold set_password. rewrite Hhash. simpl.
  eexists. reflexivity.
Qed.

Lemma create_user_body_paths `{Sqlite} (utcnow : Utcnow) (st : State)
    (username email password hashed : string)
    (first_name last_name : option string) (is_active : option bool)
    (role_ids : option (list Z)) (found : list Z) :
  username ≠ "" → email ≠ "" → password ≠ "" →
  username_exists username st = false →
  email_exists email st = false →
  generate_password_hash password = inr hashed →
  match role_ids with
  | Some ids => query_ids_in ids (role_table st) = inr found
  | None => found = []
  end →
  ∃ body,
    create_user_body utcnow
      (mk_create_user_data (Some username) (Some email) (Some password)
         first_name last_name is_active role_ids) st
    = ((body, 201%Z),
       session_add_user utcnow
         (User.mk (next_rowid (user_table st)) username email hashed
            (default "" first_name) (default "" last_name)
            (default true is_active) None None [])
         found st).
Proof.
  intros Hu He Hp Hufree Hefree Hhash Hfound. unfold create_user_body. simpl.
  rewrite !bool_decide_eq_false_2 by done. simpl.
  rewrite Hufree, Hefree. simpl. unfold set_password. rewrite Hhash. simpl.
  destruct role_ids as [ids|]; [rewrite Hfound | subst found]; simpl;
    eexists; reflexivity.
Qed.

End Register.

(** X5.  [register] and the admin's [create_user] refuse, in this
    order: a missing or empty [username], [email], [password] (400
    "<field> is required", naming the first one missing), a username in
    use (400 "Username already exists", whatever the email), an email
    in use (400 "Email already exists").  None of the refusals changes
    the state. *)
Theorem registration_refusals `{Bcrypt} `{Sqlite} (utcnow : Utcnow) (st : State) :
  (∀ data,
     (truthy_str (reg_username data) = false →
      register utcnow data st = ((error_body "username is required", 400%Z), st))
     ∧ (truthy_str (reg_username data) = true →
        truthy_str (reg_email data) = false →
        register utcnow data st = ((error_body "email is required", 400%Z), st))
     ∧ (truthy_str (reg_username data) = true →
        truthy_str (reg_email data) = true →
        truthy_str (reg_password data) = false →
        register utcnow data st
        = ((error_body "password is required", 400%Z), st))
     ∧ (truthy_str (reg_username data) = true →
        truthy_str (reg_email data) = true →
        truthy_str (reg_password data) = true →
        (username_exists (default "" (reg_username data)) st = true →
         register utcnow data st
         = ((error_body "Username already exists", 400%Z), st))
        ∧ (username_exists (default "" (reg_username data)) st = false →
           email_exists (default "" (reg_email data)) st = true →
           register utcnow data st
           = ((error_body "Email already exists", 400%Z), st))))
  ∧ (∀ identity data,
       authorized st identity "user_write" →
       (truthy_str (new_username data) = false →
        create_user utcnow identity data st
        = ((error_body "username is required", 400%Z), st))
       ∧ (truthy_str (new_username data) = true →
          truthy_str (new_email data) = false →
          create_user utcnow identity data st
          = ((error_body "email is required", 400%Z), st))
       ∧ (truthy_str (new_username data) = true →
          truthy_str (new_email data) = true →
          truthy_str (new_password data) = false →
          create_user utcnow identity data st
          = ((error_body "password is required", 400%Z), st))
       ∧ (truthy_str (new_username data) = true →
          truthy_str (new_email data) = true →
          truthy_str (new_password data) = true →
          (username_exists (default "" (new_username data)) st = true →
           create_user utcnow identity data st
           = ((error_body "Username already exists", 400%Z), st))
          ∧ (username_exists (default "" (new_username data)) st = false →
             email_exists (default "" (new_email data)) st = true →
             create_user utcnow identity data st
             = ((error_body "Email already exists", 400%Z), st)))).
Proof.
  split.
  - intros data. unfold register. simpl. split_and!.
    + by intros ->.
    + by intros -> ->.
    + by intros -> -> ->.
    + intros -> -> ->. simpl. split.
      * by intros ->.
      * by intros -> ->.
  - intros identity data Hauth. unfold create_user.
    rewrite require_permission_authorized by done.
    unfold create_user_body. simpl. split_and!.
    + by intros ->.
    + by intros -> ->.
    + by intros -> -> ->.
    + intros -> -> ->. simpl. split.
      * by intros ->.
      * by intros -> ->.
Qed.

Lemma registration_refusals_witness :
  register Seed.utcnow
    (mk_register_data (Some "alice") None (Some "pw") None None) Seed.state
  = ((error_body "email is required", 400%Z), Seed.state)
  ∧ register Seed.utcnow
      (mk_register_data (Some "john_doe") (Some "admin@hrms.com") (Some "pw")
         None None) Seed.state
    = ((error_body "Username already exists", 400%Z), Seed.state)
  ∧ create_user Seed.utcnow 1
      (mk_create_user_data (Some "alice") (Some "admin@hrms.com") (Some "pw")
         None None None None) Seed.state
    = ((error_body "Email already exists", 400%Z), Seed.state).
Proof.
  destruct (registration_refusals Seed.utcnow Seed.state) as [Hreg Hnew].
  split_and!.
  - apply Hreg; reflexivity.
  - apply Hreg; reflexivity.
  - apply Hnew; try reflexivity.
    eexists; split; vm_compute; reflexivity.
Defined.

Lemma find_role_by_name_Some (st : State) (v : string) (R : Role.t) :
  find_role_by_name v st = Some R →
  Role_query_get st (Role.id R) = Some R ∧ Role.name R = v.
Proof.
  unfold find_role_by_name. intros Hfind.
  destruct (query_first _ (role_table st)) as [[k row]|] eqn:Hq; [| done].
  simpl in Hfind. apply query_first_Some in Hq as [Hrow HP].
  apply bool_decide_eq_true in HP.
  pose proof (Role_query_get_id _ _ _ Hfind) as Hid. rewrite Hid. split; [done |].
  apply Role_query_get_Some in Hfind as (row' & Hrow' & ->). simpl. congruence.
Qed.

Lemma find_role_by_name_None (st : State) (v : string) :
  find_role_by_name v st = None ↔ role_name_exists v st = false.
Proof.
  unfold find_role_by_name, role_name_exists.
  destruct (query_first _ (role_table st)) as [[k row]|] eqn:Hq; simpl.
  - apply query_first_Some in Hq as [Hrow _].
    unfold Role_query_get. rewrite Hrow. simpl. split; [done |].
    discriminate.
  - done.
Qed.

(** The permissions a loaded role carries, read off the tables. *)
Lemma role_permissions_have_loaded (st : State) (role_id : Z) (R : Role.t)
    (p : string) :
  Role_query_get st role_id = Some R →
  permissions_have (Role.permissions R) p = true
  ↔ ∃ permission_id row,
      (role_id, permission_id) ∈ role_permissions st
      ∧ permission_table st !! permission_id = Some row
      ∧ col_permission_name row = p.
Proof.
  intros Hget. rewrite (Role_query_get_permissions _ _ _ Hget).
  rewrite permissions_have_true. split.
  - intros (q & Hq & Hname). apply elem_of_Role_permissions in Hq as [Hin Hq].
    apply Permission_query_get_Some in Hq as (row & Hrow & Hqeq).
    exists (Permission.id q), row. split_and!; [done | done |].
    by rewrite Hqeq in Hname.
  - intros (pid & row & Hin & Hrow & Hname).
    exists (Permission.mk pid (col_permission_name row)
              (col_permission_description row)).
    split; [| done]. apply elem_of_Role_permissions. simpl. split; [done |].
    apply Permission_query_get_Some. by exists row.
Qed.

Lemma elem_of_session_add_user_roles (utcnow : Utcnow) (user : User.t)
    (role_ids : list Z) (st : State) (u r : Z) :
  (u, r) ∈ user_roles (session_add_user utcnow user role_ids st)
  ↔ (u = User.id user ∧ r ∈ role_ids) ∨ (u, r) ∈ user_roles st.
Proof.
  unfold session_add_user. simpl.
  rewrite elem_of_union, elem_of_list_to_set, list_elem_of_fmap. split.
  - intros [(v & [= -> ->] & Hv) | Hin]; [by left | by right].
  - intros [[-> Hr] | Hin]; [left; by exists r | by right].
Qed.

(** X6.  A registration that passes the checks, with a password that
    flask_bcrypt hashes, answers 201 and inserts one row under an id no
    user had: the given username and email, the hash of the password,
    [is_active] true, both timestamps from the clock.  No existing user
    row, role, permission or store entry changes.  The new user is given
    the role named Employee when there is one and no other role, so (on
    a database whose association rows point at existing rows) the new
    user's permissions are exactly those of the Employee role.  When
    flask_bcrypt raises on the password, the answer is 500 and nothing
    is written. *)
Theorem register_creates_employee `{Bcrypt} (utcnow : Utcnow) (st : State)
    (username email password : string) (first_name last_name : option string) :
  username ≠ "" → email ≠ "" → password ≠ "" →
  username_exists username st = false →
  email_exists email st = false →
  let data := mk_register_data (Some username) (Some email) (Some password)
                first_name last_name in
  let id := next_rowid (user_table st) in
  (∀ hashed,
     generate_password_hash password = inr hashed →
     ∃ body st',
       register utcnow data st = ((body, 201%Z), st')
       ∧ user_table st !! id = None
       ∧ user_table st'
         = <[id := mk_user_row username email hashed
                     (default "" first_name) (default "" last_name) true
                     (Some (for_created_at utcnow)) (Some (for_updated_at utcnow))]>
             (user_table st)
       ∧ (∀ u r, (u, r) ∈ user_roles st'
                 ↔ (u = id ∧ ∃ role, find_role_by_name "Employee" st = Some role
                                     ∧ Role.id role = r)
                   ∨ (u, r) ∈ user_roles st)
       ∧ role_table st' = role_table st
       ∧ permission_table st' = permission_table st
       ∧ role_permissions st' = role_permissions st
       ∧ reset_tokens st' = reset_tokens st
       ∧ blacklisted_tokens st' = blacklisted_tokens st
       ∧ (foreign_keys st →
          ∀ U p, User_query_get st' id = Some U →
                 has_permission U p = true
                 ↔ ∃ role, find_role_by_name "Employee" st = Some role
                           ∧ permissions_have (Role.permissions role) p = true))
  ∧ (∀ msg,
       generate_password_hash password = inl msg →
       register utcnow data st = ((error_body msg, 500%Z), st)).
Proof.
  intros Hu He Hp Hufree Hefree data id. subst data. split.
  2: { intros msg Hraise. unfold register. simpl.
       rewrite !bool_decide_eq_false_2 by done. simpl.
       rewrite Hufree, Hefree. simpl. unfold set_password. by rewrite Hraise. }
  intros hashed Hhash.
  destruct (register_paths utcnow st username email password hashed first_name
              last_name Hu He Hp Hufree Hefree Hhash) as [body Hrun].
  eexists body, _. split; [exact Hrun |].
  assert (user_table st !! id = None) as Hfresh by apply next_rowid_fresh.
  assert (∀ u r,
            (u, r) ∈ user_roles
              (session_add_user utcnow
                 (User.mk id username email hashed
                    (default "" first_name) (default "" last_name) true
                    None None [])
                 (from_option (λ role, [Role.id role]) []
                    (find_role_by_name "Employee" st)) st)
            ↔ (u = id ∧ ∃ role, find_role_by_name "Employee" st = Some role
                                ∧ Role.id role = r)
              ∨ (u, r) ∈ user_roles st) as Hrows.
  { intros u r. rewrite elem_of_session_add_user_roles. simpl.
    destruct (find_role_by_name "Employee" st) as [role|]; simpl.
    - rewrite list_elem_of_singleton. split.
      + intros [[-> ->] | Hin]; [left; split; [done | by exists role] | by right].
      + intros [[-> (role' & [= <-] & <-)] | Hin]; [by left | by right].
    - split.
      + intros [[_ Hr] | Hin]; [by apply elem_of_nil in Hr | by right].
      + intros [[_ (role' & Hno & _)] | Hin]; [done | by right]. }
  split_and!; try done.
  intros [Hfk_ur Hfk_rp] U p Hload.
  rewrite (has_permission_loaded _ _ _ _ Hload). split.
  - intros (rid & pid & row & Hur & Hrole & Hrp & Hrow & Hname).
    apply Hrows in Hur as [[_ (role & Hfind & Hid)] | Hold].
    + exists role. split; [done |].
      apply find_role_by_name_Some in Hfind as [Hget _].
      apply (role_permissions_have_loaded st _ _ _ Hget).
      exists pid, row. rewrite Hid. done.
    + destruct (Hfk_ur _ _ Hold) as [[? Hrow'] _]. congruence.
  - intros (role & Hfind & Hhave).
    pose proof Hfind as Hfind'.
    apply find_role_by_name_Some in Hfind as [Hget _].
    apply (role_permissions_have_loaded st _ _ _ Hget) in Hhave
      as (pid & row & Hrp & Hrow & Hname).
    exists (Role.id role), pid, row. split_and!; try done.
    + apply Hrows. left. split; [done | by exists role].
    + apply Role_query_get_is_Some. simpl. by exists role.
Qed.

Lemma register_creates_employee_witness :
  (∃ body st',
     register Seed.utcnow
       (mk_register_data (Some "alice") (Some "alice@hrms.com")
          (Some "s3cret") None None) Seed.state = ((body, 201%Z), st')
     ∧ user_table st' !! 4%Z
       = Some (mk_user_row "alice" "alice@hrms.com" (Seed.hashed "s3cret") "" ""
                 true (Some (for_created_at Seed.utcnow))
                 (Some (for_updated_at Seed.utcnow)))
     ∧ (4, 3)%Z ∈ user_roles st')
  ∧ register Seed.utcnow
      (mk_register_data (Some "alice") (Some "alice@hrms.com")
         (Some Seed.long_password) None None) Seed.state
    = ((error_body Seed.str_too_long, 500%Z), Seed.state).
Proof.
  split.
  - destruct (register_creates_employee Seed.utcnow Seed.state "alice"
                "alice@hrms.com" "s3cret" None None) as [Hok _];
      [done | done | done | reflexivity | reflexivity |].
    destruct (Hok (Seed.hashed "s3cret"))
      as (body & st' & Hrun & _ & Htable & Hrows & _); [reflexivity |].
    exists body, st'. split_and!; [exact Hrun | |].
    + rewrite Htable. change (next_rowid (user_table Seed.state)) with 4%Z.
      apply lookup_insert_eq.
    + apply Hrows. left. split; [reflexivity |].
      eexists. split; vm_compute; reflexivity.
  - destruct (register_creates_employee Seed.utcnow Seed.state "alice"
                "alice@hrms.com" Seed.long_password None None) as [_ Hraise];
      [done | done | done | reflexivity | reflexivity |].
    apply Hraise. reflexivity.
Defined.

(** X7.  Registering and then logging in under the new username with
    the same password succeeds (200, with a token for the new id),
    taking that flask_bcrypt accepts the password a hash was made from.
    The e-mail addresses of the other accounts do not matter: [login]
    looks for the username first. *)
Theorem register_then_login `{Bcrypt} `{JWT} (utcnow : Utcnow) (st : State)
    (username email password hashed : string)
    (first_name last_name : option string) :
  bcrypt_accepts_own →
  username ≠ "" → email ≠ "" → password ≠ "" →
  username_exists username st = false →
  email_exists email st = false →
  generate_password_hash password = inr hashed →
  ∃ body st' user,
    register utcnow
      (mk_register_data (Some username) (Some email) (Some password)
         first_name last_name) st = ((body, 201%Z), st')
    ∧ (login (mk_login_data (Some username) (Some password)) st').1
      = (JObj [("message", JStr "Login successful");
               ("access_token",
                JStr (create_access_token
                        (pretty (next_rowid (user_table st))) 24%Z));
               ("user", user)], 200%Z).
Proof.
  intros Hlaw Hu He Hp Hufree Hefree Hhash.
  destruct (register_paths utcnow st username email password hashed first_name
              last_name Hu He Hp Hufree Hefree Hhash) as [body Hrun].
  set (id := next_rowid (user_table st)) in *.
  set (row := mk_user_row username email hashed
                (default "" first_name) (default "" last_name) true
                (Some (for_created_at utcnow)) (Some (for_updated_at utcnow))).
  set (st' := session_add_user _ _ _ st) in Hrun.
  assert (user_table st' = <[id := row]> (user_table st)) as Htable by done.
  assert (user_table st' !! id = Some row) as Hrow
    by (rewrite Htable; apply lookup_insert_eq).
  assert (find_by_username_or_email username st' = User_query_get st' id) as Hfind.
  { unfold find_by_username_or_email, find_by_username.
    rewrite (query_first_unique _ (user_table st') id row); [| done | |].
    - simpl. unfold User_query_get. by rewrite Hrow.
    - simpl. by rewrite bool_decide_eq_true_2.
    - intros k' row' Hrow' HP%bool_decide_eq_true.
      destruct (decide (k' = id)) as [-> | Hne]; [done |]. exfalso.
      rewrite Htable, lookup_insert_ne in Hrow' by done.
      rewrite username_exists_false in Hufree.
      by apply (Hufree _ _ Hrow'). }
  exists body, st'. eexists. split; [exact Hrun |].
  rewrite login_paths by done. rewrite Hfind.
  unfold User_query_get. rewrite Hrow. simpl.
  unfold check_password. simpl. rewrite (Hlaw _ _ Hhash). simpl. reflexivity.
Qed.

Lemma register_then_login_witness :
  ∃ body st' user,
    register Seed.utcnow
      (mk_register_data (Some "hr@hrms.com") (Some "alice@hrms.com")
         (Some "s3cret") None None) Seed.state = ((body, 201%Z), st')
    ∧ (login (mk_login_data (Some "hr@hrms.com") (Some "s3cret")) st').1
      = (JObj [("message", JStr "Login successful");
               ("access_token", JStr (create_access_token "4" 24%Z));
               ("user", user)], 200%Z).
Proof.
  apply (register_then_login Seed.utcnow Seed.state "hr@hrms.com" "alice@hrms.com"
           "s3cret" (Seed.hashed "s3cret") None None).
  - intros pw hashed. simpl. case_bool_decide; [done |]. intros [= <-].
    by rewrite bool_decide_eq_true_2.
  - done.
  - done.
  - done.
  - reflexivity.
  - reflexivity.
  - reflexivity.
Defined.

(** ** What [require_permission] depends on *)

(** Passing [require_permission(p)] is a matter of having a user row
    and of the four tables behind [has_permission]; no column of the
    user's row enters. *)
Lemma authorized_tables (st : State) (identity : Z) (p : string) :
  authorized st identity p
  ↔ is_Some (user_table st !! identity)
    ∧ ∃ role_id permission_id row,
        (identity, role_id) ∈ user_roles st
        ∧ is_Some (role_table st !! role_id)
        ∧ (role_id, permission_id) ∈ role_permissions st
        ∧ permission_table st !! permission_id = Some row
        ∧ col_permission_name row = p.
Proof.
  unfold authorized. split.
  - intros (caller & Hget & Hperm). split.
    + apply User_query_get_is_Some. by exists caller.
    + by apply (has_permission_loaded st identity caller).
  - intros [[caller Hget]%User_query_get_is_Some Hrows].
    exists caller. split; [done |].
    by apply (has_permission_loaded st identity caller).
Qed.

Lemma authorized_same_tables (st st' : State) (identity : Z) (p : string) :
  dom (user_table st') = dom (user_table st) →
  user_roles st' = user_roles st →
  role_table st' = role_table st →
  role_permissions st' = role_permissions st →
  permission_table st' = permission_table st →
  authorized st' identity p ↔ authorized st identity p.
Proof.
  intros Hdom Hur Hr Hrp Hp. rewrite !authorized_tables, Hur, Hr, Hrp, Hp.
  rewrite <- !elem_of_dom, Hdom. done.
Qed.

(** The row a commit leaves under the id of the user it wrote. *)
Lemma session_update_user_row (utcnow : Utcnow) (st : State) (user_id : Z)
    (loaded user : User.t) :
  User_query_get st user_id = Some loaded →
  User.id user = user_id →
  user_table (session_update_user utcnow loaded user st) !! user_id
  = Some (User_row (User_committed utcnow loaded user)).
Proof.
  intros Hget Hid. unfold session_update_user, User_committed.
  case_bool_decide as Hrow.
  - apply User_query_get_Some in Hget as (row & -> & ->). rewrite Hrow.
    by destruct row.
  - simpl. by rewrite Hid, lookup_insert_eq.
Qed.

Lemma session_update_user_authorized (utcnow : Utcnow) (st : State)
    (loaded user : User.t) (who : Z) (p : string) :
  is_Some (user_table st !! User.id user) →
  authorized (session_update_user utcnow loaded user st) who p
  ↔ authorized st who p.
Proof.
  intros Hrow.
  destruct (session_update_user_frame utcnow loaded user st)
    as (Hrt & Hpt & Hur & Hrp & _ & _ & _ & Hdom).
  apply authorized_same_tables; auto.
Qed.

(** ** PUT /auth/profile and POST /auth/change-password *)

Lemma update_profile_state (utcnow : Utcnow) (st : State) (identity : Z)
    (data : update_profile_data) :
  (update_profile utcnow identity data st).2 = st
  ∨ ∃ loaded user,
      User_query_get st identity = Some loaded
      ∧ (update_profile utcnow identity data st).2
        = session_update_user utcnow loaded user st
      ∧ User.id user = identity
      ∧ User.username user = User.username loaded
      ∧ User.password user = User.password loaded
      ∧ User.is_active user = User.is_active loaded
      ∧ User.created_at user = User.created_at loaded
      ∧ User.email user = default (User.email loaded) (prof_email data)
      ∧ User.first_name user
        = default (User.first_name loaded) (prof_first_name data)
      ∧ User.last_name user
        = default (User.last_name loaded) (prof_last_name data).
Proof.
  unfold update_profile.
  destruct (User_query_get st identity) as [loaded|] eqn:Hget; simpl; [| by left].
  pose proof (User_query_get_id _ _ _ Hget) as Hid.
  destruct data as [df dl de]. simpl.
  destruct de as [e|]; simpl;
    [destruct (email_taken e identity st); simpl; [by left |] |];
    right; destruct df, dl; simpl; eexists loaded, _;
    (split; [done |]); (split; [reflexivity |]); done.
Qed.

(** X8.  The self-service profile update can change the caller's first
    name, last name and e-mail address (and with them [updated_at]) and
    nothing else: username, password hash, [is_active] and [created_at]
    of the caller stay, every other user's row stays, and so do roles,
    permissions and both stores.  Hence nobody's answer from
    [require_permission] changes.  An address that another user has is
    refused with 400 "Email already exists", the names sent along with
    it not being stored either. *)
Theorem update_profile_scope (utcnow : Utcnow) (st : State) (identity : Z)
    (data : update_profile_data) :
  let st' := (update_profile utcnow identity data st).2 in
  (∀ k, k ≠ identity → user_table st' !! k = user_table st !! k)
  ∧ (∀ row, user_table st !! identity = Some row →
            ∃ row', user_table st' !! identity = Some row'
                    ∧ col_username row' = col_username row
                    ∧ col_password row' = col_password row
                    ∧ col_is_active row' = col_is_active row
                    ∧ col_created_at row' = col_created_at row)
  ∧ user_roles st' = user_roles st
  ∧ role_table st' = role_table st
  ∧ permission_table st' = permission_table st
  ∧ role_permissions st' = role_permissions st
  ∧ reset_tokens st' = reset_tokens st
  ∧ blacklisted_tokens st' = blacklisted_tokens st
  ∧ (∀ who p, authorized st' who p ↔ authorized st who p)
  ∧ (∀ v, prof_email data = Some v → email_taken v identity st = true →
          is_Some (user_table st !! identity) →
          update_profile utcnow identity data st
          = ((error_body "Email already exists", 400%Z), st)).
Proof.
  intros st'. subst st'.
  assert (∀ v, prof_email data = Some v → email_taken v identity st = true →
               is_Some (user_table st !! identity) →
               update_profile utcnow identity data st
               = ((error_body "Email already exists", 400%Z), st)) as Hrefuse.
  { intros v Hv Htaken [user Hget]%User_query_get_is_Some.
    unfold update_profile. rewrite Hget, Hv. simpl. by rewrite Htaken. }
  destruct (update_profile_state utcnow st identity data)
    as [-> | (loaded & user & Hget & -> & Hid & Hu & Hp & Ha & Hc & _)].
  { split_and!; try done. intros row Hrow. by exists row. }
  assert (is_Some (user_table st !! User.id user)) as Hrow.
  { rewrite Hid. apply User_query_get_is_Some. by exists loaded. }
  destruct (session_update_user_frame utcnow loaded user st)
    as (Hrt & Hpt & Hur & Hrp & Htok & Hbl & Hother & _).
  split_and!; try done.
  - intros k Hne. apply Hother. by rewrite Hid.
  - intros row0 Hrow0.
    rewrite (session_update_user_row utcnow st identity loaded user) by done.
    eexists. split; [done |].
    apply User_query_get_Some in Hget as (row & Hrow' & ->).
    assert (row = row0) as -> by congruence. simpl in *.
    unfold User_committed. by case_bool_decide.
  - intros who p. by apply session_update_user_authorized.
Qed.

Lemma update_profile_scope_witness :
  update_profile Seed.utcnow 3
    (mk_update_profile_data (Some "Johnny") None (Some "admin@hrms.com")) Seed.state
  = ((error_body "Email already exists", 400%Z), Seed.state).
Proof.
  destruct (update_profile_scope Seed.utcnow Seed.state 3
              (mk_update_profile_data (Some "Johnny") None (Some "admin@hrms.com")))
    as (_ & _ & _ & _ & _ & _ & _ & _ & _ & Hrefuse).
  apply (Hrefuse "admin@hrms.com").
  - reflexivity.
  - reflexivity.
  - vm_compute. eauto.
Defined.

(** X9.  [change_password] wants the current password: when
    [check_password] answers [False] for it, the view answers 400
    "Current password is incorrect" and changes nothing.  When it
    answers [True] and flask_bcrypt hashes the new password, the view
    answers 200 and stores the new hash in the caller's row (with
    [updated_at]), leaving the rest of the row, every other user, roles
    and permissions alone — and both stores too: it revokes no session
    token and no outstanding reset token.  Afterwards the new password
    passes [check_password], taking that flask_bcrypt accepts the
    password a hash was made from.  When flask_bcrypt raises, on either
    password, the answer is 500 and nothing changes. *)
Theorem change_password_outcomes `{Bcrypt} (utcnow : Utcnow) (st : State)
    (identity : Z) (current new : string) (loaded : User.t) :
  current ≠ "" → new ≠ "" →
  User_query_get st identity = Some loaded →
  let data := mk_change_password_data (Some current) (Some new) in
  (check_password loaded current = inr false →
   change_password utcnow identity data st
   = ((error_body "Current password is incorrect", 400%Z), st))
  ∧ (∀ msg, check_password loaded current = inl msg →
            change_password utcnow identity data st = ((error_body msg, 500%Z), st))
  ∧ (check_password loaded current = inr true →
     (∀ msg, generate_password_hash new = inl msg →
             change_password utcnow identity data st
             = ((error_body msg, 500%Z), st))
     ∧ (∀ hashed,
          generate_password_hash new = inr hashed →
          ∃ st',
            change_password utcnow identity data st
            = ((message_body "Password changed successfully", 200%Z), st')
            ∧ User_query_get st' identity
              = Some (User_committed utcnow loaded
                        (User_with_password hashed loaded))
            ∧ (∀ k, k ≠ identity → user_table st' !! k = user_table st !! k)
            ∧ user_roles st' = user_roles st
            ∧ role_table st' = role_table st
            ∧ permission_table st' = permission_table st
            ∧ role_permissions st' = role_permissions st
            ∧ reset_tokens st' = reset_tokens st
            ∧ blacklisted_tokens st' = blacklisted_tokens st
            ∧ (bcrypt_accepts_own →
               check_password (User_with_password hashed loaded) new = inr true))).
Proof.
  intros Hc Hn Hget data. subst data. unfold change_password.
  rewrite Hget. simpl. rewrite !bool_decide_eq_false_2 by done. simpl.
  pose proof (User_query_get_id _ _ _ Hget) as Hid.
  split_and!.
  - by intros ->.
  - by intros msg ->.
  - intros ->. simpl. unfold set_password. split.
    + by intros msg ->.
    + intros hashed Hhash. rewrite Hhash. simpl.
      eexists. split; [reflexivity |].
      destruct (session_update_user_frame utcnow loaded
                  (User_with_password hashed loaded) st)
        as (Hrt & Hpt & Hur & Hrp & Htok & Hbl & Hother & _).
      split_and!; try done.
      * by apply session_update_user_get.
      * intros k Hne. apply Hother. simpl. by rewrite Hid.
      * intros Hlaw. unfold check_password. simpl. by apply Hlaw.
Qed.

Lemma change_password_outcomes_witness :
  change_password Seed.utcnow 3
    (mk_change_password_data (Some "guess") (Some "n3w")) Seed.state
  = ((error_body "Current password is incorrect", 400%Z), Seed.state)
  ∧ (∃ st',
       change_password Seed.utcnow 3
         (mk_change_password_data (Some "employee123") (Some "n3w")) Seed.state
       = ((message_body "Password changed successfully", 200%Z), st')
       ∧ User.password <$> User_query_get st' 3 = Some (Seed.hashed "n3w"))
  ∧ change_password Seed.utcnow 3
      (mk_change_password_data (Some "employee123") (Some Seed.long_password))
      Seed.state
    = ((error_body Seed.str_too_long, 500%Z), Seed.state).
Proof.
  set (john := default (User.mk 0 "" "" "" "" "" false None None [])
                 (User_query_get Seed.state 3)).
  split_and!.
  - eapply (change_password_outcomes Seed.utcnow Seed.state 3 "guess" "n3w" john);
      [done | done | ..].
    + vm_compute. reflexivity.
    + vm_compute. reflexivity.
  - destruct (change_password_outcomes Seed.utcnow Seed.state 3 "employee123" "n3w"
                john) as (_ & _ & Hok); [done | done | vm_compute; reflexivity |].
    destruct Hok as [_ Hok]; [vm_compute; reflexivity |].
    destruct (Hok (Seed.hashed "n3w")) as (st' & Hrun & Huser & _);
      [reflexivity |].
    exists st'. split; [exact Hrun |]. rewrite Huser. vm_compute. reflexivity.
  - destruct (change_password_outcomes Seed.utcnow Seed.state 3 "employee123"
                Seed.long_password john) as (_ & _ & Hok);
      [done | done | vm_compute; reflexivity |].
    destruct Hok as [Hraise _]; [vm_compute; reflexivity |].
    apply Hraise. reflexivity.
Defined.

(** ** Deactivating a user *)

(** X10.  [is_active] is looked at by [login] only.  When an admin
    switches a user's [is_active] off, the update answers 200 and the
    row says false, so a new login is refused; but whoever passed
    [require_permission] before passes it after, the deactivated user
    included: a token issued earlier keeps opening the same routes. *)
Theorem deactivation_keeps_gate `{Bcrypt} `{Sqlite} (utcnow : Utcnow) (st : State)
    (identity user_id : Z) :
  authorized st identity "user_write" →
  is_Some (user_table st !! user_id) →
  let data := mk_update_user_data None None None None (Some false) None None in
  ∃ body st',
    update_user utcnow identity user_id data st = ((body, 200%Z), st')
    ∧ col_is_active <$> user_table st' !! user_id = Some false
    ∧ (∀ who p, authorized st' who p ↔ authorized st who p)
    ∧ (∀ p f, authorized st user_id p → require_permission p f user_id st' = f st').
Proof.
  intros Hauth Huser data. subst data.
  pose proof Huser as [loaded Hget]%User_query_get_is_Some.
  destruct (update_user_body_ok utcnow st user_id
              (mk_update_user_data None None None None (Some false) None None)
              loaded) as (body & user & Hid & _ & _ & _ & Hactive & Hrun);
    [done | done | done | reflexivity | done |].
  simpl in Hrun, Hactive.
  set (st' := session_update_user utcnow loaded user st) in *.
  assert (∀ who p, authorized st' who p ↔ authorized st who p) as Hgate.
  { intros who p. apply session_update_user_authorized. by rewrite Hid. }
  exists body, st'. split_and!.
  - unfold update_user. by rewrite require_permission_authorized.
  - unfold st'.
    rewrite (session_update_user_row utcnow st user_id loaded user) by done.
    simpl. unfold User_committed. case_bool_decide; simpl; by rewrite Hactive.
  - done.
  - intros p f Hp'. apply require_permission_authorized. by apply Hgate.
Qed.

Lemma deactivation_keeps_gate_witness :
  ∃ body st',
    update_user Seed.utcnow 1 2
      (mk_update_user_data None None None None (Some false) None None)
      Seed.state = ((body, 200%Z), st')
    ∧ (login (mk_login_data (Some "hr_manager") (Some "hr123")) st').1
      = (error_body "Account is deactivated", 401%Z)
    ∧ status (get_user 2 3 st').1 = 200%Z.
Proof.
  destruct (deactivation_keeps_gate Seed.utcnow Seed.state 1 2)
    as (body & st' & Hrun & _ & _ & Hgate).
  - eexists; split; vm_compute; reflexivity.
  - vm_compute. eauto.
  - exists body, st'. split; [exact Hrun |].
    assert (st' = (update_user Seed.utcnow 1 2
                     (mk_update_user_data None None None None (Some false) None None)
                     Seed.state).2) as -> by (by rewrite Hrun).
    split; [vm_compute; reflexivity |].
    unfold get_user. rewrite Hgate.
    + vm_compute. reflexivity.
    + eexists; split; vm_compute; reflexivity.
Defined.

(** ** The two in-memory stores *)

(** Case analysis along every branch a view can take. *)
Ltac view_branches :=
  unfold run_view, return_if, get_or_404, caught, set_password, check_password,
    session_update_user, mbind, view_bind; simpl;
  repeat match goal with
         | |- context [match ?x with _ => _ end] =>
             lazymatch x with
             | context [match _ with _ => _ end] => fail
             | _ => destruct x; simpl
             end
         end.

Section Stores.
Context `{Bcrypt} `{JWT} `{Sqlite}.

Lemma require_permission_frame {A : Type} (proj : State → A) (p : string)
    (f : State → Response * State) (identity : Z) (st : State) :
  proj (f st).2 = proj st → proj (require_permission p f identity st).2 = proj st.
Proof.
  intros Hf. unfold require_permission.
  destruct (User_query_get st identity) as [user|]; [| done].
  by destruct (has_permission user p).
Qed.

Lemma jwt_required_frame {A : Type} (proj : State → A) (token : Jwt)
    (view : State → Response * State) (st : State) :
  proj (view st).2 = proj st → proj (jwt_required token view st).2 = proj st.
Proof.
  intros Hview. unfold jwt_required.
  by destruct (check_if_token_revoked (jwt_jti token) st).
Qed.

Lemma update_user_body_stores (utcnow : Utcnow) (user_id : Z)
    (data : update_user_data) (st : State) :
  reset_tokens (update_user_body utcnow user_id data st).2 = reset_tokens st
  ∧ blacklisted_tokens (update_user_body utcnow user_id data st).2
    = blacklisted_tokens st.
Proof.
  destruct (update_user_body_state utcnow st user_id data)
    as [-> | (_ & _ & _ & _ & _ & -> & -> & _)]; done.
Qed.

Lemma update_role_body_stores (role_id : Z) (data : update_role_data) (st : State) :
  reset_tokens (update_role_body role_id data st).2 = reset_tokens st
  ∧ blacklisted_tokens (update_role_body role_id data st).2
    = blacklisted_tokens st.
Proof.
  destruct (update_role_body_state st role_id data)
    as [-> | (_ & _ & _ & _ & _ & -> & -> & _)]; done.
Qed.

Ltac frame_public view := unfold view; simpl; view_branches; done.
Ltac frame_jwt proj view :=
  apply (jwt_required_frame proj); unfold view; simpl; view_branches; done.
Ltac frame_gated proj body :=
  apply (jwt_required_frame proj); apply (require_permission_frame proj);
  unfold body; simpl; view_branches; done.

(** No view but [logout] writes to [blacklisted_tokens], and [logout]
    only adds to it. *)
Lemma handle_blacklisted_tokens (utcnow : Utcnow) (req : Main.request)
    (st : State) :
  blacklisted_tokens (Main.handle utcnow req st).2 = blacklisted_tokens st
  ∨ ∃ token, req = Main.Logout token
             ∧ blacklisted_tokens (Main.handle utcnow req st).2
               = {[ jwt_jti token ]} ∪ blacklisted_tokens st.
Proof.
  destruct req; simpl.
  - left. frame_public @register.
  - left. by rewrite login_state_unchanged.
  - unfold jwt_required. destruct (check_if_token_revoked (jwt_jti token) st);
      [by left | right; by exists token].
  - left. frame_jwt blacklisted_tokens get_profile.
  - left. frame_jwt blacklisted_tokens update_profile.
  - left. frame_jwt blacklisted_tokens @change_password.
  - left. frame_public forgot_password.
  - left. frame_public @reset_password.
  - left. frame_gated blacklisted_tokens @create_user_body.
  - left. frame_gated blacklisted_tokens get_user_body.
  - left. apply (jwt_required_frame blacklisted_tokens),
      (require_permission_frame blacklisted_tokens), update_user_body_stores.
  - left. frame_gated blacklisted_tokens delete_user_body.
  - left. frame_gated blacklisted_tokens assign_role_to_user_body.
  - left. frame_gated blacklisted_tokens remove_role_from_user_body.
  - left. frame_gated blacklisted_tokens @create_role_body.
  - left. frame_gated blacklisted_tokens get_role_body.
  - left. apply (jwt_required_frame blacklisted_tokens),
      (require_permission_frame blacklisted_tokens), update_role_body_stores.
  - left. frame_gated blacklisted_tokens delete_role_body.
  - left. frame_gated blacklisted_tokens assign_permission_to_role_body.
  - left. frame_gated blacklisted_tokens remove_permission_from_role_body.
  - left. frame_gated blacklisted_tokens create_permission_body.
  - left. frame_gated blacklisted_tokens get_permission_body.
  - left. frame_gated blacklisted_tokens update_permission_body.
  - left. frame_gated blacklisted_tokens delete_permission_body.
Qed.

Lemma serve_all_blacklisted_tokens (reqs : list (Utcnow * Main.request))
    (st : State) :
  blacklisted_tokens st ⊆ blacklisted_tokens (Main.serve_all reqs st).
Proof.
  revert st. induction reqs as [|[utcnow req] reqs IH]; intros st; simpl; [done |].
  etrans; [| apply IH].
  destruct (handle_blacklisted_tokens utcnow req st) as [-> | (token & _ & ->)];
    set_solver.
Qed.

(** The entries of [reset_tokens]: only [reset_password] deletes one,
    only [forgot_password] writes one. *)
Lemma handle_reset_tokens (utcnow : Utcnow) (req : Main.request) (st : State) :
  reset_tokens (Main.handle utcnow req st).2 = reset_tokens st
  ∨ (∃ data, req = Main.ResetPassword data)
  ∨ (∃ data_email drawn, req = Main.ForgotPassword data_email drawn).
Proof.
  destruct req; simpl.
  - left. frame_public @register.
  - left. by rewrite login_state_unchanged.
  - left. frame_jwt reset_tokens logout.
  - left. frame_jwt reset_tokens get_profile.
  - left. frame_jwt reset_tokens update_profile.
  - left. frame_jwt reset_tokens @change_password.
  - right. right. eauto.
  - right. left. eauto.
  - left. frame_gated reset_tokens @create_user_body.
  - left. frame_gated reset_tokens get_user_body.
  - left. apply (jwt_required_frame reset_tokens),
      (require_permission_frame reset_tokens), update_user_body_stores.
  - left. frame_gated reset_tokens delete_user_body.
  - left. frame_gated reset_tokens assign_role_to_user_body.
  - left. frame_gated reset_tokens remove_role_from_user_body.
  - left. frame_gated reset_tokens @create_role_body.
  - left. frame_gated reset_tokens get_role_body.
  - left. apply (jwt_required_frame reset_tokens),
      (require_permission_frame reset_tokens), update_role_body_stores.
  - left. frame_gated reset_tokens delete_role_body.
  - left. frame_gated reset_tokens assign_permission_to_role_body.
  - left. frame_gated reset_tokens remove_permission_from_role_body.
  - left. frame_gated reset_tokens create_permission_body.
  - left. frame_gated reset_tokens get_permission_body.
  - left. frame_gated reset_tokens update_permission_body.
  - left. frame_gated reset_tokens delete_permission_body.
Qed.

End Stores.

Lemma reset_password_other_token `{Bcrypt} (utcnow : Utcnow)
    (data : reset_password_data) (st : State) (t : string) :
  reset_token data ≠ Some t →
  reset_tokens (reset_password utcnow data st).2 !! t = reset_tokens st !! t.
Proof.
  intros Hother.
  destruct (truthy_str_cases (reset_token data)) as [Hbad | (token & Htok & Htne)].
  { by rewrite reset_password_invalid by (by left). }
  destruct (truthy_str_cases (reset_new_password data))
    as [Hbad | (new_password & Hpw & Hpne)].
  { by rewrite reset_password_invalid by (by right). }
  destruct data as [dt dp]. simpl in *. subst dt dp.
  rewrite reset_password_paths by done.
  destruct (reset_tokens st !! token) as [uid|] eqn:Hmap; [| done].
  case_bool_decide; [done |].
  destruct (User_query_get st uid) as [loaded|]; [| done].
  destruct (set_password loaded new_password) as [msg|user]; [done |].
  cbn [snd]. rewrite after_reset_tokens. rewrite decide_False; [done | congruence].
Qed.

Lemma forgot_password_other_token (data_email : option string)
    (drawn : string) (st : State) (t : string) :
  drawn ≠ t →
  reset_tokens (forgot_password data_email drawn st).2 !! t = reset_tokens st !! t.
Proof.
  intros Hne. unfold forgot_password.
  destruct (truthy_str data_email); simpl; [| done].
  destruct (find_by_email (default "" data_email) st); simpl; [| done].
  by rewrite lookup_insert_ne.
Qed.

(** X11.  Logging out is final.  Once [logout] has been served for a
    token, [check_if_token_revoked] says yes for its [jti] after any
    further requests, whatever they are, and every protected route
    called with a token of that [jti] is answered 401 "Token has been
    revoked" without running the view: nothing takes an entry out of
    [blacklisted_tokens]. *)
Theorem logout_is_final `{Bcrypt} `{JWT} `{Sqlite} (st : State) (token : Jwt)
    (utcnow : Utcnow) (reqs : list (Utcnow * Main.request)) :
  let st' := Main.serve_all reqs (Main.handle utcnow (Main.Logout token) st).2 in
  check_if_token_revoked (jwt_jti token) st' = true
  ∧ ∀ utcnow' req token',
      request_token req = Some token' →
      jwt_jti token' = jwt_jti token →
      Main.handle utcnow' req st'
      = ((JObj [("msg", JStr "Token has been revoked")], 401%Z), st').
Proof.
  intros st'.
  assert (check_if_token_revoked (jwt_jti token) st' = true) as Hrevoked.
  { unfold check_if_token_revoked. apply bool_decide_eq_true.
    apply (serve_all_blacklisted_tokens reqs). simpl. unfold jwt_required.
    destruct (check_if_token_revoked (jwt_jti token) st) eqn:Hbefore; simpl.
    - by apply bool_decide_eq_true in Hbefore.
    - set_solver. }
  split; [done |].
  intros utcnow' req token' Hreq Hjti. rewrite <- Hjti in Hrevoked.
  destruct req; simpl in Hreq; try discriminate Hreq;
    injection Hreq as ->; simpl; unfold jwt_required; by rewrite Hrevoked.
Qed.

(** X12.  An entry of [reset_tokens] outlives every request except a
    [reset_password] presenting that very token and a [forgot_password]
    that happens to draw the same string: logging in, changing the
    password, deactivating or deleting the user it points to, and a
    reset done with another token of the same user all leave it
    usable.  There is no expiry. *)
Theorem reset_token_outlives `{Bcrypt} `{JWT} `{Sqlite} (utcnow : Utcnow)
    (st : State) (req : Main.request) (t : string) :
  (∀ data, req = Main.ResetPassword data → reset_token data ≠ Some t) →
  (∀ data_email, req ≠ Main.ForgotPassword data_email t) →
  reset_tokens (Main.handle utcnow req st).2 !! t = reset_tokens st !! t.
Proof.
  intros Hreset Hforgot.
  destruct (handle_reset_tokens utcnow req st)
    as [-> | [[data ->] | (data_email & drawn & ->)]]; [done | |].
  - simpl. apply reset_password_other_token. by apply Hreset.
  - simpl. apply forgot_password_other_token. intros ->. by eapply Hforgot.
Qed.

Lemma reset_token_outlives_witness :
  reset_tokens
    (Main.handle Seed.utcnow (Main.DeleteUser (mk_Jwt 1 "jti-admin") 3)
       Seed.with_token).2 !! Seed.token = Some 3%Z
  ∧ reset_tokens
      (Main.handle Seed.utcnow
         (Main.ChangePassword (mk_Jwt 3 "jti-john")
            (mk_change_password_data (Some "employee123") (Some "n3w")))
         Seed.with_token).2 !! Seed.token = Some 3%Z.
Proof.
  split.
  - rewrite (reset_token_outlives Seed.utcnow Seed.with_token);
      [reflexivity | | ]; discriminate.
  - rewrite (reset_token_outlives Seed.utcnow Seed.with_token);
      [reflexivity | | ]; discriminate.
Defined.

(** ** forgot-password, then reset-password *)

(** X13.  The token that [forgot_password] stores for a known address
    is accepted by [reset_password], provided flask_bcrypt hashes the
    new password: the account's password becomes that hash (which
    [check_password] then accepts, taking that flask_bcrypt accepts the
    password a hash was made from), the token is used up, and the
    tokens issued before stay in [reset_tokens]: asking again does not
    cancel an earlier token. *)
Theorem forgot_then_reset `{Bcrypt} (utcnow : Utcnow) (st : State)
    (email token new_password hashed : string) (U : User.t) :
  email ≠ "" → token ≠ "" → new_password ≠ "" →
  find_by_email email st = Some U →
  User.id U ≠ 0%Z →
  generate_password_hash new_password = inr hashed →
  let st1 := (forgot_password (Some email) token st).2 in
  ∃ st2,
    reset_tokens st1 !! token = Some (User.id U)
    ∧ reset_password utcnow
        (mk_reset_password_data (Some token) (Some new_password)) st1
      = ((message_body "Password reset successfully", 200%Z), st2)
    ∧ User_query_get st2 (User.id U)
      = Some (User_committed utcnow U (User_with_password hashed U))
    ∧ reset_tokens st2 !! token = None
    ∧ (∀ t, t ≠ token → reset_tokens st2 !! t = reset_tokens st !! t)
    ∧ (bcrypt_accepts_own →
       check_password (User_with_password hashed U) new_password = inr true).
Proof.
  intros He Ht Hp Hfind Hnz Hhash st1. subst st1.
  destruct (forgot_password_paths st email token He) as [_ Hknown].
  rewrite (Hknown _ Hfind). simpl.
  apply find_by_email_Some in Hfind as [Hget _].
  set (st1 := set_reset_tokens (<[token := User.id U]>) st).
  assert (reset_tokens st1 !! token = Some (User.id U)) as Htok
    by apply lookup_insert_eq.
  assert (User_query_get st1 (User.id U) = Some U) as Hget1 by exact Hget.
  assert (set_password U new_password = inr (User_with_password hashed U)) as Hset.
  { apply set_password_inr. by exists hashed. }
  exists (after_reset utcnow st1 token U (User_with_password hashed U)). split_and!.
  - done.
  - rewrite reset_password_paths by done. rewrite Htok.
    rewrite bool_decide_eq_false_2 by done. by rewrite Hget1, Hset.
  - by apply (after_reset_user utcnow st1 token new_password).
  - rewrite after_reset_tokens. by rewrite decide_True.
  - intros t Hne. rewrite after_reset_tokens. rewrite decide_False by done.
    subst st1. simpl. by rewrite lookup_insert_ne.
  - intros Hlaw. unfold check_password. simpl. by apply Hlaw.
Qed.

Lemma forgot_then_reset_witness :
  ∃ st2,
    reset_password Seed.utcnow (mk_reset_password_data (Some "tok-2") (Some "n3w"))
      (forgot_password (Some "john.doe@hrms.com") "tok-2" Seed.with_token).2
    = ((message_body "Password reset successfully", 200%Z), st2)
    ∧ reset_tokens st2 !! "tok-2" = None
    ∧ reset_tokens st2 !! Seed.token = Some 3%Z.
Proof.
  edestruct (forgot_then_reset Seed.utcnow Seed.with_token "john.doe@hrms.com"
               "tok-2" "n3w" (Seed.hashed "n3w"))
    as (st2 & _ & Hrun & _ & Hgone & Hothers & _).
  - done.
  - done.
  - done.
  - vm_compute. reflexivity.
  - discriminate.
  - reflexivity.
  - exists st2. split_and!; [exact Hrun | exact Hgone |].
    rewrite Hothers by discriminate. reflexivity.
Defined.

(** X14.  Ids are handed out again.  When the user a reset token points
    to has been deleted and that id is the next one the database
    allots, the next successful registration gets the id, and the old
    token then resets the password of the newly registered account. *)
Theorem stale_token_resets_new_user `{Bcrypt} (utcnow utcnow' : Utcnow)
    (st : State) (token : string) (user_id : Z)
    (username email password new_password hashed hashed' : string)
    (first_name last_name : option string) :
  reset_tokens st !! token = Some user_id →
  user_id ≠ 0%Z →
  next_rowid (user_table st) = user_id →
  token ≠ "" → new_password ≠ "" →
  username ≠ "" → email ≠ "" → password ≠ "" →
  username_exists username st = false →
  email_exists email st = false →
  generate_password_hash password = inr hashed →
  generate_password_hash new_password = inr hashed' →
  ∃ body st1 st2 row,
    user_table st !! user_id = None
    ∧ register utcnow
        (mk_register_data (Some username) (Some email) (Some password)
           first_name last_name) st = ((body, 201%Z), st1)
    ∧ reset_password utcnow'
        (mk_reset_password_data (Some token) (Some new_password)) st1
      = ((message_body "Password reset successfully", 200%Z), st2)
    ∧ user_table st2 !! user_id = Some row
    ∧ col_username row = username
    ∧ col_email row = email
    ∧ col_password row = hashed'.
Proof.
  intros Htok Hnz Hnext Ht Hnp Hu He Hp Hufree Hefree Hhash Hhash'.
  destruct (register_paths utcnow st username email password hashed first_name
              last_name Hu He Hp Hufree Hefree Hhash) as [body Hrun].
  rewrite Hnext in Hrun.
  set (st1 := session_add_user _ _ _ st) in Hrun.
  assert (∃ row1, user_table st1 !! user_id = Some row1
                  ∧ col_username row1 = username
                  ∧ col_email row1 = email) as (row1 & Hrow & Hrow_u & Hrow_e).
  { eexists. split; [apply lookup_insert_eq | done]. }
  assert (reset_tokens st1 !! token = Some user_id) as Htok1 by exact Htok.
  destruct (User_query_get st1 user_id) as [loaded|] eqn:Hget;
    [| unfold User_query_get in Hget; by rewrite Hrow in Hget].
  pose proof (User_query_get_id _ _ _ Hget) as Hid.
  assert (set_password loaded new_password
          = inr (User_with_password hashed' loaded)) as Hset.
  { apply set_password_inr. by exists hashed'. }
  pose proof (after_reset_user utcnow' st1 token new_password user_id loaded _
                Hget Hset) as Hafter.
  apply User_query_get_Some in Hafter as (row & Hrow2 & Heq).
  exists body, st1, (after_reset utcnow' st1 token loaded
                       (User_with_password hashed' loaded)), row.
  split_and!.
  - rewrite <- Hnext. apply next_rowid_fresh.
  - exact Hrun.
  - rewrite reset_password_paths by done. rewrite Htok1.
    rewrite bool_decide_eq_false_2 by done. by rewrite Hget, Hset.
  - exact Hrow2.
  - apply User_query_get_Some in Hget as (row0 & Hrow0 & ->).
    assert (row0 = row1) as -> by congruence.
    apply (f_equal User.username) in Heq. rewrite <- Hrow_u.
    revert Heq. unfold User_committed. by case_bool_decide.
  - apply User_query_get_Some in Hget as (row0 & Hrow0 & ->).
    assert (row0 = row1) as -> by congruence.
    apply (f_equal User.email) in Heq. rewrite <- Hrow_e.
    revert Heq. unfold User_committed. by case_bool_decide.
  - apply (f_equal User.password) in Heq.
    revert Heq. unfold User_committed. by case_bool_decide.
Qed.

Lemma stale_token_resets_new_user_witness :
  ∃ body st1 st2,
    register Seed.utcnow
      (mk_register_data (Some "mallory-target") (Some "new@hrms.com")
         (Some "her-password") None None) Seed.stale = ((body, 201%Z), st1)
    ∧ reset_password Seed.utcnow_later
        (mk_reset_password_data (Some Seed.token) (Some "0wned")) st1
      = ((message_body "Password reset successfully", 200%Z), st2)
    ∧ col_password <$> user_table st2 !! 3%Z = Some (Seed.hashed "0wned").
Proof.
  destruct (stale_token_resets_new_user Seed.utcnow Seed.utcnow_later
              Seed.stale Seed.token 3
              "mallory-target" "new@hrms.com" "her-password" "0wned"
              (Seed.hashed "her-password") (Seed.hashed "0wned") None None)
    as (body & st1 & st2 & row & _ & Hreg & Hreset & Hrow & _ & _ & Hpw).
  - vm_compute. reflexivity.
  - discriminate.
  - vm_compute. reflexivity.
  - done.
  - done.
  - done.
  - done.
  - done.
  - vm_compute. reflexivity.
  - vm_compute. reflexivity.
  - reflexivity.
  - reflexivity.
  - exists body, st1, st2. split_and!; [exact Hreg | exact Hreset |].
    rewrite Hrow. simpl. by rewrite Hpw.
Defined.

Lemma logout_is_final_witness :
  let token := mk_Jwt 3 "jti-john" in
  let st' := Main.serve_all
               [(Seed.utcnow,
                 Main.Login (mk_login_data (Some "john_doe") (Some "employee123")));
                (Seed.utcnow_later, Main.Logout token)]
               (Main.handle Seed.utcnow (Main.Logout token) Seed.state).2 in
  Main.handle Seed.utcnow_later (Main.GetProfile token) st'
  = ((JObj [("msg", JStr "Token has been revoked")], 401%Z), st')
  ∧ Main.handle Seed.utcnow_later (Main.GetUser (mk_Jwt 3 "jti-john") 3) st'
    = ((JObj [("msg", JStr "Token has been revoked")], 401%Z), st').
Proof.
  intros token st'.
  destruct (logout_is_final Seed.state token Seed.utcnow
              [(Seed.utcnow,
                Main.Login (mk_login_data (Some "john_doe") (Some "employee123")));
               (Seed.utcnow_later, Main.Logout token)]) as [_ Hout].
  split; apply (Hout _ _ token); reflexivity.
Defined.

(** ** Creating and deleting *)

Lemma authorized_extend (st st' : State) (identity : Z) (p : string) :
  (∀ k, is_Some (user_table st !! k) → is_Some (user_table st' !! k)) →
  user_roles st ⊆ user_roles st' →
  (∀ k, is_Some (role_table st !! k) → is_Some (role_table st' !! k)) →
  role_permissions st ⊆ role_permissions st' →
  (∀ k row, permission_table st !! k = Some row →
            permission_table st' !! k = Some row) →
  authorized st identity p → authorized st' identity p.
Proof.
  intros Hu Hur Hr Hrp Hp. rewrite !authorized_tables.
  intros [Huser (rid & pid & row & H1 & H2 & H3 & H4 & H5)].
  split; [by apply Hu |]. exists rid, pid, row.
  split_and!; [by apply Hur | by apply Hr | by apply Hrp | by apply Hp | done].
Qed.

Lemma assoc_clear_added (k : Z) (old new : list Z) (assoc : gset (Z * Z)) :
  (∀ v, (k, v) ∉ assoc) →
  (∀ v, v ∈ new → v ∈ old) →
  assoc_clear k old (list_to_set ((λ v, (k, v)) <$> new) ∪ assoc) = assoc.
Proof.
  intros Hnone Hsub. unfold assoc_clear. apply set_eq. intros [a b].
  rewrite elem_of_filter, elem_of_union, elem_of_list_to_set, list_elem_of_fmap.
  simpl. split.
  - intros [Hnot [(v & [= -> ->] & Hv) | Hin]]; [| done].
    exfalso. apply Hnot. split; [done | by apply Hsub].
  - intros Hin. split; [| by right]. intros [-> _]. by apply (Hnone b).
Qed.

Lemma assoc_clear_nil (k : Z) (assoc : gset (Z * Z)) : assoc_clear k [] assoc = assoc.
Proof.
  unfold assoc_clear. apply set_eq. intros [a b]. rewrite elem_of_filter. simpl.
  split; [by intros [_ ?] |]. intros Hin. split; [| done].
  intros [_ Hb]. by apply elem_of_nil in Hb.
Qed.

Lemma assoc_clear_back_nil (k : Z) (assoc : gset (Z * Z)) :
  assoc_clear_back k [] assoc = assoc.
Proof.
  unfold assoc_clear_back. apply set_eq. intros [a b]. rewrite elem_of_filter.
  simpl. split; [by intros [_ ?] |]. intros Hin. split; [| done].
  intros [_ Hb]. by apply elem_of_nil in Hb.
Qed.

Lemma State_eq (st st' : State) :
  user_table st' = user_table st →
  role_table st' = role_table st →
  permission_table st' = permission_table st →
  user_roles st' = user_roles st →
  role_permissions st' = role_permissions st →
  reset_tokens st' = reset_tokens st →
  blacklisted_tokens st' = blacklisted_tokens st →
  st' = st.
Proof. destruct st, st'. simpl. by intros -> -> -> -> -> -> ->. Qed.

(** The ids that the [IN] query of a create view finds: all of the
    body's that exist, when SQLite can be handed the list. *)
Lemma ids_found `{Sqlite} {A : Type} (ids : option (list Z)) (table : gmap Z A) :
  from_option bindable true ids = true →
  ∃ found,
    match ids with
    | Some ids => query_ids_in ids table = inr found
    | None => found = []
    end
    ∧ ∀ k, k ∈ found ↔ ∃ l, ids = Some l ∧ k ∈ l ∧ is_Some (table !! k).
Proof.
  destruct ids as [l|]; simpl.
  - intros [found Hq]%(query_ids_in_bindable l table). exists found.
    split; [done |]. intros k. rewrite (elem_of_query_ids_in l table found k Hq).
    split; [intros [? ?]; by exists l | by intros (? & [= <-] & ? & ?)].
  - intros _. exists []. split; [done |]. intros k. split.
    + by intros ?%elem_of_nil.
    + by intros (? & ? & _).
Qed.

(** X15.  A user created by an admin through [POST /users] gets the
    roles listed in [role_ids] that exist and no other — in particular
    not the Employee role that [register] hands out: without [role_ids]
    the new user passes no [require_permission] at all.  [is_active] is
    what the body says, true when it says nothing.  Stated on a database
    whose association rows point at existing rows, for a password that
    flask_bcrypt hashes and a list of ids that SQLite takes. *)
Theorem create_user_roles `{Bcrypt} `{Sqlite} (utcnow : Utcnow) (st : State)
    (identity : Z) (username email password hashed : string)
    (first_name last_name : option string)
    (is_active : option bool) (role_ids : option (list Z)) :
  foreign_keys st →
  authorized st identity "user_write" →
  username ≠ "" → email ≠ "" → password ≠ "" →
  username_exists username st = false →
  email_exists email st = false →
  generate_password_hash password = inr hashed →
  from_option bindable true role_ids = true →
  let data := mk_create_user_data (Some username) (Some email) (Some password)
                first_name last_name is_active role_ids in
  let id := next_rowid (user_table st) in
  ∃ body st',
    create_user utcnow identity data st = ((body, 201%Z), st')
    ∧ user_table st'
      = <[id := mk_user_row username email hashed
                  (default "" first_name) (default "" last_name)
                  (default true is_active)
                  (Some (for_created_at utcnow)) (Some (for_updated_at utcnow))]>
          (user_table st)
    ∧ (∀ r, (id, r) ∈ user_roles st'
            ↔ ∃ ids, role_ids = Some ids ∧ r ∈ ids ∧ is_Some (role_table st !! r))
    ∧ (∀ u r, u ≠ id → (u, r) ∈ user_roles st' ↔ (u, r) ∈ user_roles st)
    ∧ (role_ids = None → ∀ p, ¬ authorized st' id p).
Proof.
  intros [Hfk_ur Hfk_rp] Hauth Hu He Hp Hufree Hefree Hhash Hbind data id.
  subst data.
  destruct (ids_found role_ids (role_table st) Hbind) as (found & Hq & Hfound).
  destruct (create_user_body_paths utcnow st username email password hashed
              first_name last_name is_active role_ids found
              Hu He Hp Hufree Hefree Hhash Hq) as [body Hrun].
  set (st' := session_add_user _ _ _ st) in Hrun.
  assert (user_table st !! id = None) as Hfresh by apply next_rowid_fresh.
  assert (∀ r, (id, r) ∈ user_roles st'
               ↔ ∃ ids, role_ids = Some ids ∧ r ∈ ids
                        ∧ is_Some (role_table st !! r)) as Hrows.
  { intros r. subst st'. rewrite elem_of_session_add_user_roles. simpl.
    rewrite <- Hfound. split.
    - intros [[_ Hr] | Hold]; [done |].
      destruct (Hfk_ur _ _ Hold) as [[? Hrow] _]. congruence.
    - intros Hr. by left. }
  exists body, st'. split_and!.
  - unfold create_user. by rewrite require_permission_authorized.
  - done.
  - done.
  - intros u r Hne. subst st'. rewrite elem_of_session_add_user_roles. simpl.
    split; [intros [[-> _] | Hin]; done | by right].
  - intros -> p [_ (rid & _ & _ & Hur & _)]%authorized_tables.
    apply Hrows in Hur as (ids & Hno & _). done.
Qed.

Lemma create_user_roles_witness :
  ∃ body st',
    create_user Seed.utcnow 1
      (mk_create_user_data (Some "carol") (Some "carol@hrms.com") (Some "pw")
         None None (Some false) (Some [2; 77]%Z)) Seed.state = ((body, 201%Z), st')
    ∧ (4, 2)%Z ∈ user_roles st'
    ∧ ((4, 77)%Z ∉ user_roles st')
    ∧ ((4, 3)%Z ∉ user_roles st')
    ∧ col_is_active <$> user_table st' !! 4%Z = Some false.
Proof.
  destruct (create_user_roles Seed.utcnow Seed.state 1 "carol" "carol@hrms.com"
              "pw" (Seed.hashed "pw") None None (Some false) (Some [2; 77]%Z))
    as (body & st' & Hrun & Htable & Hrows & _).
  - apply foreign_keys_seed.
  - eexists; split; vm_compute; reflexivity.
  - done.
  - done.
  - done.
  - reflexivity.
  - reflexivity.
  - reflexivity.
  - reflexivity.
  - change (next_rowid (user_table Seed.state)) with 4%Z in *.
    exists body, st'. split_and!; [exact Hrun | ..].
    + apply Hrows. exists [2; 77]%Z. split_and!; [done | in_list |].
      vm_compute. eauto.
    + intros (ids & [= <-] & _ & [row Hrow])%Hrows. vm_compute in Hrow.
      discriminate Hrow.
    + intros (ids & [= <-] & Hin & _)%Hrows. not_in_list Hin.
    + rewrite Htable, lookup_insert_eq. reflexivity.
Defined.

(** X16.  Creating a user and then deleting it is a round trip.  On a
    database whose association rows point at existing rows, a caller
    allowed to do both who creates a user (with whatever [role_ids]
    SQLite takes and a password flask_bcrypt hashes) and then deletes
    the row under the id it was given is answered 201 and 200 and leaves
    the database and both stores exactly as they were: the delete takes
    the association rows of the create with it. *)
Theorem create_user_then_delete `{Bcrypt} `{Sqlite} (utcnow : Utcnow) (st : State)
    (identity : Z) (username email password hashed : string)
    (first_name last_name : option string)
    (is_active : option bool) (role_ids : option (list Z)) :
  foreign_keys st →
  authorized st identity "user_write" →
  authorized st identity "user_delete" →
  username ≠ "" → email ≠ "" → password ≠ "" →
  username_exists username st = false →
  email_exists email st = false →
  generate_password_hash password = inr hashed →
  from_option bindable true role_ids = true →
  ∃ body st',
    create_user utcnow identity
      (mk_create_user_data (Some username) (Some email) (Some password)
         first_name last_name is_active role_ids) st
    = ((body, 201%Z), st')
    ∧ is_Some (user_table st' !! next_rowid (user_table st))
    ∧ delete_user identity (next_rowid (user_table st)) st'
      = ((message_body "User deleted successfully", 200%Z), st).
Proof.
  intros [Hfk_ur Hfk_rp] Hwrite Hdelete Hu He Hp Hufree Hefree Hhash Hbind.
  destruct (ids_found role_ids (role_table st) Hbind) as (new & Hq & Hnew).
  destruct (create_user_body_paths utcnow st username email password hashed
              first_name last_name is_active role_ids new
              Hu He Hp Hufree Hefree Hhash Hq) as [body Hrun].
  set (id := next_rowid (user_table st)) in *.
  set (st' := session_add_user _ _ new st) in Hrun.
  assert (user_table st !! id = None) as Hfresh by apply next_rowid_fresh.
  assert (∀ v, (id, v) ∉ user_roles st) as Hnorows.
  { intros v Hin. destruct (Hfk_ur _ _ Hin) as [[? Hrow] _]. congruence. }
  assert (identity ≠ id) as Hother.
  { intros ->. apply authorized_user_exists in Hwrite as [? Hrow]. congruence. }
  assert (authorized st' identity "user_delete") as Hdelete'.
  { apply (authorized_extend st); try done.
    - intros k [r Hk]. simpl. rewrite lookup_insert_ne; [eauto | congruence].
    - simpl. set_solver. }
  destruct (User_query_get st' id) as [user|] eqn:Hget.
  2: { unfold User_query_get in Hget. simpl in Hget.
       by rewrite lookup_insert_eq in Hget. }
  pose proof (User_query_get_id _ _ _ Hget) as Hid.
  pose proof (User_query_get_roles _ _ _ Hget) as Hroles.
  exists body, st'. split_and!.
  - unfold create_user. by rewrite require_permission_authorized.
  - simpl. rewrite lookup_insert_eq. eauto.
  - unfold delete_user. rewrite require_permission_authorized by done.
    unfold delete_user_body. rewrite bool_decide_eq_false_2 by done. simpl.
    rewrite Hget. simpl. f_equal. apply State_eq; simpl; try done.
    + rewrite Hid. by apply delete_insert_id.
    + rewrite Hid, Hroles. apply assoc_clear_added; [done |].
      intros v Hv. apply loaded_role_ids. simpl. split.
      * apply elem_of_union. left. apply elem_of_list_to_set, list_elem_of_fmap.
        by exists v.
      * by apply Hnew in Hv as (? & _ & _ & ?).
Qed.

Lemma create_user_then_delete_witness :
  ∃ body st',
    create_user Seed.utcnow 1
      (mk_create_user_data (Some "carol") (Some "carol@hrms.com") (Some "pw")
         None None None (Some [2; 3; 77]%Z)) Seed.state = ((body, 201%Z), st')
    ∧ delete_user 1 4 st'
      = ((message_body "User deleted successfully", 200%Z), Seed.state).
Proof.
  destruct (create_user_then_delete Seed.utcnow Seed.state 1 "carol"
              "carol@hrms.com" "pw" (Seed.hashed "pw") None None None
              (Some [2; 3; 77]%Z))
    as (body & st' & Hcreate & _ & Hdelete).
  - apply foreign_keys_seed.
  - eexists; split; vm_compute; reflexivity.
  - eexists; split; vm_compute; reflexivity.
  - done.
  - done.
  - done.
  - reflexivity.
  - reflexivity.
  - reflexivity.
  - reflexivity.
  - exists body, st'. split; [exact Hcreate | exact Hdelete].
Defined.

(** X17.  Creating a role and then deleting it is a round trip too: the
    new role gets the permissions of [permission_ids] that exist, no
    user holds it, so its delete is not blocked, and the delete takes
    the role's rows of [role_permissions] with it, leaving the database
    and both stores as they were. *)
Theorem create_role_then_delete `{Sqlite} (st : State) (identity : Z)
    (name : string) (description : option string)
    (permission_ids : option (list Z)) :
  foreign_keys st →
  authorized st identity "role_write" →
  authorized st identity "role_delete" →
  name ≠ "" →
  role_name_exists name st = false →
  from_option bindable true permission_ids = true →
  ∃ body st',
    create_role identity
      (mk_create_role_data (Some name) description permission_ids) st
    = ((body, 201%Z), st')
    ∧ (∀ p, (next_rowid (role_table st), p) ∈ role_permissions st'
            ↔ ∃ ids, permission_ids = Some ids ∧ p ∈ ids
                     ∧ is_Some (permission_table st !! p))
    ∧ delete_role identity (next_rowid (role_table st)) st'
      = ((message_body "Role deleted successfully", 200%Z), st).
Proof.
  intros [Hfk_ur Hfk_rp] Hwrite Hdelete Hname Hfree Hbind.
  destruct (ids_found permission_ids (permission_table st) Hbind)
    as (new & Hq & Hnew).
  set (id := next_rowid (role_table st)).
  assert (role_table st !! id = None) as Hfresh by apply next_rowid_fresh.
  set (st' := session_add_role (Role.mk id name (default "" description) []) new st).
  assert (∃ body, create_role_body
                    (mk_create_role_data (Some name) description permission_ids) st
                  = ((body, 201%Z), st')) as [body Hrun].
  { unfold create_role_body. simpl.
    rewrite bool_decide_eq_false_2 by done. simpl. rewrite Hfree. simpl.
    destruct permission_ids as [ids|]; [rewrite Hq | subst new]; simpl;
      eexists; reflexivity. }
  assert (∀ v, (id, v) ∉ role_permissions st) as Hnorows.
  { intros v Hin. destruct (Hfk_rp _ _ Hin) as [[? Hrow] _]. congruence. }
  assert (authorized st' identity "role_delete") as Hdelete'.
  { apply (authorized_extend st); try done.
    - intros k [r Hk]. simpl. rewrite lookup_insert_ne; [eauto | congruence].
    - simpl. set_solver. }
  destruct (Role_query_get st' id) as [role|] eqn:Hget.
  2: { unfold Role_query_get in Hget. simpl in Hget.
       by rewrite lookup_insert_eq in Hget. }
  pose proof (Role_query_get_id _ _ _ Hget) as Hid.
  pose proof (Role_query_get_permissions _ _ _ Hget) as Hperms.
  assert (Role_users st' id = []) as Hnone.
  { apply Role_users_empty. intros user_id Hin.
    destruct (Hfk_ur _ _ Hin) as [_ [? Hrow]]. congruence. }
  exists body, st'. split_and!.
  - unfold create_role. by rewrite require_permission_authorized.
  - intros p. simpl. rewrite <- Hnew.
    rewrite elem_of_union, elem_of_list_to_set, list_elem_of_fmap. split.
    + intros [(v & [= ->] & Hv) | Hin]; [done | by destruct (Hnorows p)].
    + intros Hp. left. by exists p.
  - unfold delete_role. rewrite require_permission_authorized by done.
    rewrite (delete_role_body_free st' id role Hget Hnone).
    f_equal. apply State_eq; simpl; try done.
    + rewrite Hid. by apply delete_insert_id.
    + rewrite Hid, Hnone. simpl. apply assoc_clear_back_nil.
    + rewrite Hid, Hperms. apply assoc_clear_added; [done |].
      intros v Hv. apply loaded_permission_ids. simpl. split.
      * apply elem_of_union. left. apply elem_of_list_to_set, list_elem_of_fmap.
        by exists v.
      * by apply Hnew in Hv as (? & _ & _ & ?).
Qed.

Lemma create_role_then_delete_witness :
  ∃ body st',
    create_role 1 (mk_create_role_data (Some "Auditor") None (Some [1; 4; 7]%Z))
      Seed.state = ((body, 201%Z), st')
    ∧ (4, 7)%Z ∈ role_permissions st'
    ∧ delete_role 1 4 st'
      = ((message_body "Role deleted successfully", 200%Z), Seed.state).
Proof.
  destruct (create_role_then_delete Seed.state 1 "Auditor" None
              (Some [1; 4; 7]%Z))
    as (body & st' & Hcreate & Hrows & Hdelete).
  - apply foreign_keys_seed.
  - eexists; split; vm_compute; reflexivity.
  - eexists; split; vm_compute; reflexivity.
  - done.
  - reflexivity.
  - reflexivity.
  - exists body, st'. split_and!; [exact Hcreate | | exact Hdelete].
    apply (Hrows 7%Z). exists [1; 4; 7]%Z.
    split_and!; [done | in_list | vm_compute; eauto].
Defined.

(** X18.  Creating a permission and then deleting it is a round trip:
    the new permission is in no role, so its delete is not blocked, and
    the database and both stores are left as they were. *)
Theorem create_permission_then_delete (st : State) (identity : Z) (name : string)
    (description : option string) :
  foreign_keys st →
  authorized st identity "permission_write" →
  authorized st identity "permission_delete" →
  name ≠ "" →
  permission_name_exists name st = false →
  ∃ body st',
    create_permission identity (mk_permission_data (Some name) description) st
    = ((body, 201%Z), st')
    ∧ permission_table st' !! next_rowid (permission_table st)
      = Some (mk_permission_row name (default "" description))
    ∧ delete_permission identity (next_rowid (permission_table st)) st'
      = ((message_body "Permission deleted successfully", 200%Z), st).
Proof.
  intros [Hfk_ur Hfk_rp] Hwrite Hdelete Hname Hfree.
  set (id := next_rowid (permission_table st)).
  assert (permission_table st !! id = None) as Hfresh by apply next_rowid_fresh.
  set (row := mk_permission_row name (default "" description)).
  set (st' := set_permission_table (<[id := row]>) st).
  assert (create_permission_body (mk_permission_data (Some name) description) st
          = ((JObj [("message", JStr "Permission created successfully");
                    ("permission",
                     Permission_to_dict
                       (Permission.mk id name (default "" description)))],
              201%Z), st')) as Hrun.
  { unfold create_permission_body. simpl.
    rewrite bool_decide_eq_false_2 by done. simpl. by rewrite Hfree. }
  assert (authorized st' identity "permission_delete") as Hdelete'.
  { apply (authorized_extend st); try done. intros k r Hk. simpl.
    rewrite lookup_insert_ne; [done | congruence]. }
  set (permission := Permission.mk id name (default "" description)).
  assert (Permission_query_get st' id = Some permission) as Hget.
  { unfold Permission_query_get. simpl. by rewrite lookup_insert_eq. }
  assert (Permission_roles st' id = []) as Hnone.
  { apply Permission_roles_empty. intros role_id Hin.
    destruct (Hfk_rp _ _ Hin) as [_ [? Hrow]]. congruence. }
  eexists _, st'. split_and!.
  - unfold create_permission. rewrite require_permission_authorized by done.
    exact Hrun.
  - simpl. by rewrite lookup_insert_eq.
  - unfold delete_permission. rewrite require_permission_authorized by done.
    rewrite (delete_permission_body_free st' id permission Hget Hnone).
    f_equal. apply State_eq; simpl; try done.
    + by apply delete_insert_id.
    + rewrite Hnone. simpl. apply assoc_clear_back_nil.
Qed.

Lemma create_permission_then_delete_witness :
  ∃ body st',
    create_permission 1 (mk_permission_data (Some "report_read") None) Seed.state
    = ((body, 201%Z), st')
    ∧ delete_permission 1 10 st'
      = ((message_body "Permission deleted successfully", 200%Z), Seed.state).
Proof.
  destruct (create_permission_then_delete Seed.state 1 "report_read" None)
    as (body & st' & Hcreate & _ & Hdelete).
  - apply foreign_keys_seed.
  - eexists; split; vm_compute; reflexivity.
  - eexists; split; vm_compute; reflexivity.
  - done.
  - reflexivity.
  - exists body, st'. split; [exact Hcreate | exact Hdelete].
Defined.

(** ** Two invariants of the whole application *)

Lemma foreign_keys_extend (st st' : State) :
  foreign_keys st →
  (∀ k, is_Some (user_table st !! k) → is_Some (user_table st' !! k)) →
  (∀ k, is_Some (role_table st !! k) → is_Some (role_table st' !! k)) →
  (∀ k, is_Some (permission_table st !! k) → is_Some (permission_table st' !! k)) →
  (∀ u r, (u, r) ∈ user_roles st' →
          (u, r) ∈ user_roles st
          ∨ (is_Some (user_table st' !! u) ∧ is_Some (role_table st' !! r))) →
  (∀ r p, (r, p) ∈ role_permissions st' →
          (r, p) ∈ role_permissions st
          ∨ (is_Some (role_table st' !! r) ∧ is_Some (permission_table st' !! p))) →
  foreign_keys st'.
Proof.
  intros [Hfk_ur Hfk_rp] Hu Hr Hp Hur Hrp. split.
  - intros u r [Hold | Hnew]%Hur; [| done].
    destruct (Hfk_ur _ _ Hold). split; [by apply Hu | by apply Hr].
  - intros r p [Hold | Hnew]%Hrp; [| done].
    destruct (Hfk_rp _ _ Hold). split; [by apply Hr | by apply Hp].
Qed.

Lemma is_Some_insert_mono {A : Type} (m : gmap Z A) (i k : Z) (x : A) :
  is_Some (m !! k) → is_Some (<[i := x]> m !! k).
Proof.
  intros Hk. destruct (decide (i = k)) as [-> | Hne].
  - rewrite lookup_insert_eq. eauto.
  - by rewrite lookup_insert_ne.
Qed.

Lemma jwt_required_preserves (Inv : State → Prop) (token : Jwt)
    (view : State → Response * State) (st : State) :
  Inv st → Inv (view st).2 → Inv (jwt_required token view st).2.
Proof.
  intros Hst Hview. unfold jwt_required.
  by destruct (check_if_token_revoked (jwt_jti token) st).
Qed.

Lemma session_update_user_foreign_keys (utcnow : Utcnow) (loaded user : User.t)
    (st : State) :
  foreign_keys st → foreign_keys (session_update_user utcnow loaded user st).
Proof.
  intros Hfk. unfold session_update_user. case_bool_decide; [done |].
  apply (foreign_keys_extend st); try done; try (intros; by left).
  intros k Hk. simpl. by apply is_Some_insert_mono.
Qed.

Section ForeignKeys.
Context `{Bcrypt} `{JWT} `{Sqlite}.

Lemma session_add_user_foreign_keys (utcnow : Utcnow) (user : User.t)
    (role_ids : list Z) (st : State) :
  foreign_keys st →
  (∀ r, r ∈ role_ids → is_Some (role_table st !! r)) →
  foreign_keys (session_add_user utcnow user role_ids st).
Proof.
  intros Hfk Hroles. apply (foreign_keys_extend st); try done.
  - intros k Hk. simpl. by apply is_Some_insert_mono.
  - intros u r [[-> Hr] | Hold]%elem_of_session_add_user_roles; [| by left].
    right. split; [| by apply Hroles]. simpl. rewrite lookup_insert_eq. eauto.
  - intros r p Hin. by left.
Qed.

Lemma register_foreign_keys (utcnow : Utcnow) (data : register_data)
    (st : State) :
  foreign_keys st → foreign_keys (register utcnow data st).2.
Proof.
  intros Hfk. unfold register.
  destruct (require_fields _) as [r|[]]; simpl; [done |].
  destruct (username_exists _ st); simpl; [done |].
  destruct (email_exists _ st); simpl; [done |].
  unfold set_password. destruct (generate_password_hash _); simpl; [done |].
  apply session_add_user_foreign_keys; [done |].
  intros r Hr. destruct (find_role_by_name "Employee" st) as [role|] eqn:Hfind;
    simpl in Hr; [| by apply elem_of_nil in Hr].
  apply list_elem_of_singleton in Hr as ->.
  apply find_role_by_name_Some in Hfind as [Hget _].
  apply Role_query_get_is_Some. eauto.
Qed.

Lemma create_user_body_foreign_keys (utcnow : Utcnow) (data : create_user_data)
    (st : State) :
  foreign_keys st → foreign_keys (create_user_body utcnow data st).2.
Proof.
  intros Hfk. unfold create_user_body.
  destruct (require_fields _) as [r|[]]; simpl; [done |].
  destruct (username_exists _ st); simpl; [done |].
  destruct (email_exists _ st); simpl; [done |].
  unfold set_password. destruct (generate_password_hash _); simpl; [done |].
  destruct (new_role_ids data) as [ids|]; simpl.
  - destruct (query_ids_in ids (role_table st)) as [msg|found] eqn:Hq; simpl;
      [done |].
    apply session_add_user_foreign_keys; [done |].
    intros r Hr. by apply (elem_of_query_ids_in _ _ _ _ Hq) in Hr as [_ ?].
  - apply session_add_user_foreign_keys; [done |].
    by intros r Hr%elem_of_nil.
Qed.

Lemma update_profile_foreign_keys (utcnow : Utcnow) (identity : Z)
    (data : update_profile_data) (st : State) :
  foreign_keys st → foreign_keys (update_profile utcnow identity data st).2.
Proof.
  intros Hfk.
  destruct (update_profile_state utcnow st identity data)
    as [-> | (loaded & user & _ & -> & _)]; [done |].
  by apply session_update_user_foreign_keys.
Qed.

Lemma change_password_foreign_keys (utcnow : Utcnow) (identity : Z)
    (data : change_password_data) (st : State) :
  foreign_keys st → foreign_keys (change_password utcnow identity data st).2.
Proof.
  intros Hfk. unfold change_password.
  destruct (User_query_get st identity) as [user|]; simpl; [| done].
  destruct (negb _ || negb _); simpl; [done |].
  destruct (check_password user _) as [msg|[]]; simpl; [done | | done].
  destruct (set_password user _) as [msg|user']; simpl; [done |].
  by apply session_update_user_foreign_keys.
Qed.

Lemma create_role_body_foreign_keys (data : create_role_data) (st : State) :
  foreign_keys st → foreign_keys (create_role_body data st).2.
Proof.
  intros Hfk. unfold create_role_body.
  destruct (negb (truthy_str (new_role_name data))); simpl; [done |].
  destruct (role_name_exists _ st); simpl; [done |].
  assert (∀ found,
            (∀ v, v ∈ found → is_Some (permission_table st !! v)) →
            foreign_keys
              (session_add_role
                 (Role.mk (next_rowid (role_table st))
                    (default "" (new_role_name data))
                    (default "" (new_role_description data)) []) found st))
    as Hadd.
  { intros found Hfound. apply (foreign_keys_extend st); try done.
    - intros k Hk. simpl. by apply is_Some_insert_mono.
    - intros u r Hin. by left.
    - intros r p Hin. simpl in Hin.
      apply elem_of_union in Hin as [Hnew | Hold]; [| by left].
      apply elem_of_list_to_set, list_elem_of_fmap in Hnew as (v & [= -> ->] & Hv).
      right. simpl. rewrite lookup_insert_eq. split; [eauto | by apply Hfound]. }
  destruct (new_permission_ids data) as [ids|]; simpl.
  - destruct (query_ids_in ids (permission_table st)) as [msg|found] eqn:Hq;
      simpl; [done |].
    apply Hadd. intros v Hv.
    by apply (elem_of_query_ids_in _ _ _ _ Hq) in Hv as [_ ?].
  - apply Hadd. by intros v Hv%elem_of_nil.
Qed.

Lemma create_permission_body_foreign_keys (data : permission_data) (st : State) :
  foreign_keys st → foreign_keys (create_permission_body data st).2.
Proof.
  intros Hfk. unfold create_permission_body.
  destruct (negb (truthy_str (perm_name data))); simpl; [done |].
  destruct (permission_name_exists _ st); simpl; [done |].
  apply (foreign_keys_extend st); try done; try (intros; by left).
  intros k Hk. simpl. by apply is_Some_insert_mono.
Qed.

Lemma update_permission_body_state (permission_id : Z) (data : permission_data)
    (st : State) :
  (update_permission_body permission_id data st).2 = st
  ∨ ∃ row,
      permission_table st !! permission_id = Some row
      ∧ (∀ v, perm_name data = Some v →
              permission_name_taken v permission_id st = false)
      ∧ (update_permission_body permission_id data st).2
        = set_permission_table
            (<[permission_id :=
                 mk_permission_row
                   (default (col_permission_name row) (perm_name data))
                   (default (col_permission_description row)
                      (perm_description data))]>) st.
Proof.
  unfold update_permission_body.
  destruct (Permission_query_get st permission_id) as [permission|] eqn:Hget;
    simpl; [| by left].
  apply Permission_query_get_Some in Hget as (row & Hrow & ->).
  destruct data as [dn dd]. simpl.
  destruct dn as [n|]; simpl.
  - destruct (permission_name_taken n permission_id st) eqn:Htaken; simpl;
      [by left |].
    right. exists row. split_and!; [done | by intros ? [= <-] |].
    by destruct dd.
  - right. exists row. split_and!; [done | done |]. by destruct dd.
Qed.

Lemma update_permission_body_foreign_keys (permission_id : Z)
    (data : permission_data) (st : State) :
  foreign_keys st → foreign_keys (update_permission_body permission_id data st).2.
Proof.
  intros Hfk.
  destruct (update_permission_body_state permission_id data st)
    as [-> | (row & Hrow & _ & ->)]; [done |].
  apply (foreign_keys_extend st); try done; try (intros; by left).
  intros k Hk. simpl. by apply is_Some_insert_mono.
Qed.

Lemma handle_foreign_keys (utcnow : Utcnow) (req : Main.request) (st : State) :
  foreign_keys st → foreign_keys (Main.handle utcnow req st).2.
Proof.
  intros Hfk. destruct req; simpl;
    try (apply (jwt_required_preserves foreign_keys); [done |]);
    try (apply (require_permission_preserves foreign_keys); [done |]).
  - by apply register_foreign_keys.
  - by rewrite login_state_unchanged.
  - done.
  - unfold get_profile. by destruct (User_query_get st (jwt_identity token)).
  - by apply update_profile_foreign_keys.
  - by apply change_password_foreign_keys.
  - by apply forgot_password_foreign_keys.
  - by apply reset_password_foreign_keys.
  - by apply create_user_body_foreign_keys.
  - unfold get_user_body. by destruct (User_query_get st user_id).
  - by apply update_user_body_foreign_keys.
  - by apply delete_user_body_foreign_keys.
  - by apply assign_role_to_user_body_foreign_keys.
  - by apply remove_role_from_user_body_foreign_keys.
  - by apply create_role_body_foreign_keys.
  - unfold get_role_body. by destruct (Role_query_get st role_id).
  - by apply update_role_body_foreign_keys.
  - by apply delete_role_body_foreign_keys.
  - by apply assign_permission_to_role_body_foreign_keys.
  - by apply remove_permission_from_role_body_foreign_keys.
  - by apply create_permission_body_foreign_keys.
  - unfold get_permission_body. by destruct (Permission_query_get st permission_id).
  - by apply update_permission_body_foreign_keys.
  - by apply delete_permission_body_foreign_keys.
Qed.

End ForeignKeys.

Lemma unique_on_insert {A : Type} (column : A → string) (m : gmap Z A)
    (i : Z) (x : A) :
  unique_on column m →
  (∀ k a, k ≠ i → m !! k = Some a → column a ≠ column x) →
  unique_on column (<[i := x]> m).
Proof.
  intros Huniq Hfree j k a b Ha Hb Hcol.
  destruct (decide (j = k)) as [| Hne]; [done |]. exfalso.
  destruct (decide (i = j)) as [-> | Hij].
  - rewrite lookup_insert_eq in Ha. injection Ha as <-.
    rewrite lookup_insert_ne in Hb by done.
    apply (Hfree k b); [done | done | by symmetry].
  - rewrite lookup_insert_ne in Ha by done.
    destruct (decide (i = k)) as [-> | Hik].
    + rewrite lookup_insert_eq in Hb. injection Hb as <-.
      apply (Hfree j a); [done | done | done].
    + rewrite lookup_insert_ne in Hb by done.
      apply Hne. by apply (Huniq j k a b).
Qed.

Lemma unique_on_insert_same {A : Type} (column : A → string) (m : gmap Z A)
    (i : Z) (x a0 : A) :
  unique_on column m →
  m !! i = Some a0 → column x = column a0 →
  unique_on column (<[i := x]> m).
Proof.
  intros Huniq Hi Hsame. apply unique_on_insert; [done |].
  intros k a Hne Hk Hcol. apply Hne. apply (Huniq k i a a0); [done | done |].
  congruence.
Qed.

Lemma unique_on_delete {A : Type} (column : A → string) (m : gmap Z A) (i : Z) :
  unique_on column m → unique_on column (delete i m).
Proof.
  intros Huniq j k a b Ha Hb Hcol.
  apply lookup_delete_Some in Ha as [_ Ha].
  apply lookup_delete_Some in Hb as [_ Hb].
  by apply (Huniq j k a b).
Qed.

Lemma unique_columns_same_tables (st st' : State) :
  user_table st' = user_table st →
  role_table st' = role_table st →
  permission_table st' = permission_table st →
  unique_columns st → unique_columns st'.
Proof. unfold unique_columns. by intros -> -> ->. Qed.

(** A commit keeps the two unique columns of [user] unique when the
    object's username and e-mail address are each either the ones its
    row had or in no other row. *)
Lemma session_update_user_unique (utcnow : Utcnow) (loaded user : User.t)
    (st : State) (row : user_row) :
  unique_columns st →
  user_table st !! User.id user = Some row →
  (User.username user = col_username row
   ∨ ∀ k a, k ≠ User.id user → user_table st !! k = Some a →
            col_username a ≠ User.username user) →
  (User.email user = col_email row
   ∨ ∀ k a, k ≠ User.id user → user_table st !! k = Some a →
            col_email a ≠ User.email user) →
  unique_columns (session_update_user utcnow loaded user st).
Proof.
  intros (Hun & Hem & Hrn & Hpn) Hrow Hname Hemail.
  unfold session_update_user. case_bool_decide; [by split_and! |].
  split_and!; simpl; try done.
  - destruct Hname as [Hsame | Hfree].
    + by apply (unique_on_insert_same _ _ _ _ row).
    + by apply unique_on_insert.
  - destruct Hemail as [Hsame | Hfree].
    + by apply (unique_on_insert_same _ _ _ _ row).
    + by apply unique_on_insert.
Qed.

Section UniqueColumns.
Context `{Bcrypt} `{JWT} `{Sqlite}.

Lemma session_add_user_unique (utcnow : Utcnow) (user : User.t)
    (role_ids : list Z) (st : State) :
  unique_columns st →
  username_exists (User.username user) st = false →
  email_exists (User.email user) st = false →
  unique_columns (session_add_user utcnow user role_ids st).
Proof.
  intros (Hun & Hem & Hrn & Hpn) Hufree Hefree.
  rewrite username_exists_false in Hufree. rewrite email_exists_false in Hefree.
  split_and!; simpl; try done.
  - apply unique_on_insert; [done |]. intros k a _ Hk. by apply (Hufree k).
  - apply unique_on_insert; [done |]. intros k a _ Hk. by apply (Hefree k).
Qed.

Lemma register_unique (utcnow : Utcnow) (data : register_data) (st : State) :
  unique_columns st → unique_columns (register utcnow data st).2.
Proof.
  intros Huniq. unfold register.
  destruct (require_fields _) as [r|[]]; simpl; [done |].
  destruct (username_exists _ st) eqn:Hu; simpl; [done |].
  destruct (email_exists _ st) eqn:He; simpl; [done |].
  unfold set_password. destruct (generate_password_hash _); simpl; [done |].
  by apply session_add_user_unique.
Qed.

Lemma create_user_body_unique (utcnow : Utcnow) (data : create_user_data)
    (st : State) :
  unique_columns st → unique_columns (create_user_body utcnow data st).2.
Proof.
  intros Huniq. unfold create_user_body.
  destruct (require_fields _) as [r|[]]; simpl; [done |].
  destruct (username_exists _ st) eqn:Hu; simpl; [done |].
  destruct (email_exists _ st) eqn:He; simpl; [done |].
  unfold set_password. destruct (generate_password_hash _); simpl; [done |].
  destruct (new_role_ids data) as [ids|]; simpl.
  - destruct (query_ids_in ids (role_table st)) as [msg|found]; simpl; [done |].
    by apply session_add_user_unique.
  - by apply session_add_user_unique.
Qed.

(** What [update_user] writes into the row. *)
Lemma update_user_body_row (utcnow : Utcnow) (user_id : Z)
    (data : update_user_data) (st : State) :
  (update_user_body utcnow user_id data st).2 = st
  ∨ ∃ loaded user,
      User_query_get st user_id = Some loaded
      ∧ user_table (update_user_body utcnow user_id data st).2
        = user_table (session_update_user utcnow loaded user st)
      ∧ role_table (update_user_body utcnow user_id data st).2 = role_table st
      ∧ permission_table (update_user_body utcnow user_id data st).2
        = permission_table st
      ∧ User.id user = user_id
      ∧ User.username user = default (User.username loaded) (upd_username data)
      ∧ User.email user = default (User.email loaded) (upd_email data)
      ∧ (∀ v, upd_username data = Some v → username_taken v user_id st = false)
      ∧ (∀ v, upd_email data = Some v → email_taken v user_id st = false).
Proof.
  unfold update_user_body.
  destruct (User_query_get st user_id) as [loaded|] eqn:Hget; simpl; [| by left].
  pose proof (User_query_get_id _ _ _ Hget) as Hid.
  destruct data as [dn de df dl da dp dr]. simpl.
  destruct dn as [n|]; simpl;
    [destruct (username_taken n user_id st) eqn:Hn; simpl; [by left |] |];
    (destruct de as [e|]; simpl;
     [destruct (email_taken e user_id st) eqn:He; simpl; [by left |] |]);
    (destruct (truthy_str dp); simpl;
     [unfold set_password;
      destruct (generate_password_hash (default "" dp)) as [msg|hashed];
      simpl; [by left |] |]);
    (destruct dr as [ids|]; simpl;
     [destruct (query_ids_in ids (role_table st)) as [msg'|found];
      simpl; [by left |] |]);
    right; destruct df, dl, da; simpl; exists loaded; eexists;
    (split; [done |]);
    (split; [reflexivity |]);
    match goal with
    | |- context [session_update_user ?u ?l ?x ?s] =>
        destruct (session_update_user_frame u l x s) as (-> & -> & _)
    end;
    (split_and!; [done | done | done | done | done | |]);
    intros ? [= <-]; done.
Qed.

Lemma taken_false_free {A : Type} (column : A → string) (v : string) (id : Z)
    (table : gmap Z A) :
  bool_decide (is_Some (query_first
    (λ k row, bool_decide (column row = v) && negb (bool_decide (k = id))) table))
  = false →
  ∀ k a, k ≠ id → table !! k = Some a → column a ≠ v.
Proof. intros Hfree. exact (proj1 (taken_false column v id table) Hfree). Qed.

Lemma update_user_body_unique (utcnow : Utcnow) (user_id : Z)
    (data : update_user_data) (st : State) :
  unique_columns st → unique_columns (update_user_body utcnow user_id data st).2.
Proof.
  intros Huniq.
  destruct (update_user_body_row utcnow user_id data st)
    as [-> | (loaded & user & Hget & Htable & Hr & Hp & Hid & Hname & Hemail
              & Hn & He)];
    [done |].
  apply User_query_get_Some in Hget as (row & Hrow & ->). simpl in *.
  assert (unique_columns (session_update_user utcnow
            (User.mk user_id (col_username row) (col_email row) (col_password row)
               (col_first_name row) (col_last_name row) (col_is_active row)
               (col_created_at row) (col_updated_at row) (User_roles st user_id))
            user st)) as (Hun & Hem & Hrn & Hpn).
  { apply (session_update_user_unique _ _ _ _ row); [done | by rewrite Hid | |].
    - rewrite Hname, Hid. destruct (upd_username data) as [v|]; simpl; [| by left].
      right. by apply taken_false_free, Hn.
    - rewrite Hemail, Hid. destruct (upd_email data) as [v|]; simpl; [| by left].
      right. by apply taken_false_free, He. }
  destruct Huniq as (_ & _ & Hrn0 & Hpn0).
  unfold unique_columns. rewrite Htable, Hr, Hp. by split_and!.
Qed.

Lemma update_profile_unique (utcnow : Utcnow) (identity : Z)
    (data : update_profile_data) (st : State) :
  unique_columns st → unique_columns (update_profile utcnow identity data st).2.
Proof.
  intros Huniq. unfold update_profile.
  destruct (User_query_get st identity) as [loaded|] eqn:Hget; simpl; [| done].
  apply User_query_get_Some in Hget as (row & Hrow & ->).
  destruct data as [df dl de]. simpl.
  destruct de as [e|]; simpl.
  - destruct (email_taken e identity st) eqn:He; simpl; [done |].
    apply (session_update_user_unique _ _ _ _ row); [done | ..];
      destruct df, dl; simpl; try done; try (by left);
      right; by apply taken_false_free.
  - apply (session_update_user_unique _ _ _ _ row); [done | ..];
      destruct df, dl; simpl; try done; by left.
Qed.

Lemma change_password_unique (utcnow : Utcnow) (identity : Z)
    (data : change_password_data) (st : State) :
  unique_columns st → unique_columns (change_password utcnow identity data st).2.
Proof.
  intros Huniq. unfold change_password.
  destruct (User_query_get st identity) as [loaded|] eqn:Hget; simpl; [| done].
  apply User_query_get_Some in Hget as (row & Hrow & ->).
  destruct (negb _ || negb _); simpl; [done |].
  destruct (check_password _ _) as [msg|[]]; simpl; [done | | done].
  unfold set_password. destruct (generate_password_hash _); simpl; [done |].
  apply (session_update_user_unique _ _ _ _ row); [done | done | by left | by left].
Qed.

Lemma reset_password_unique (utcnow : Utcnow) (data : reset_password_data)
    (st : State) :
  unique_columns st → unique_columns (reset_password utcnow data st).2.
Proof.
  intros Huniq.
  destruct (truthy_str_cases (reset_token data)) as [Hbad | (token & Htok & Htne)].
  { by rewrite reset_password_invalid by (by left). }
  destruct (truthy_str_cases (reset_new_password data))
    as [Hbad | (new_password & Hpw & Hpne)].
  { by rewrite reset_password_invalid by (by right). }
  destruct data as [dt dp]. simpl in *. subst dt dp.
  rewrite reset_password_paths by done.
  destruct (reset_tokens st !! token) as [uid|]; [| done].
  case_bool_decide; [done |].
  destruct (User_query_get st uid) as [loaded|] eqn:Hget; [| done].
  apply User_query_get_Some in Hget as (row & Hrow & ->).
  unfold set_password. destruct (generate_password_hash _); [done |].
  cbn [snd]. unfold after_reset.
  match goal with
  | |- unique_columns (set_reset_tokens _ ?s) =>
      apply (unique_columns_same_tables s); try done
  end.
  apply (session_update_user_unique _ _ _ _ row); [done | done | by left | by left].
Qed.

Lemma delete_user_body_unique (current_user_id user_id : Z) (st : State) :
  unique_columns st → unique_columns (delete_user_body current_user_id user_id st).2.
Proof.
  intros (Hun & Hem & Hrn & Hpn). unfold delete_user_body.
  case_bool_decide; simpl; [by split_and! |].
  destruct (User_query_get st user_id) as [user|]; simpl; [| by split_and!].
  split_and!; simpl; try done; by apply unique_on_delete.
Qed.

Lemma create_role_body_unique (data : create_role_data) (st : State) :
  unique_columns st → unique_columns (create_role_body data st).2.
Proof.
  intros (Hun & Hem & Hrn & Hpn). unfold create_role_body.
  destruct (negb (truthy_str (new_role_name data))); simpl; [by split_and! |].
  destruct (role_name_exists _ st) eqn:Hfree; simpl; [by split_and! |].
  rewrite role_name_exists_false in Hfree.
  destruct (new_permission_ids data) as [ids|]; simpl;
    [destruct (query_ids_in ids (permission_table st)); simpl; [by split_and! |] |];
    (split_and!; simpl; try done;
     apply unique_on_insert; [done |]; intros k a _ Hk; by apply (Hfree k)).
Qed.

Lemma update_role_body_unique (role_id : Z) (data : update_role_data) (st : State) :
  unique_columns st → unique_columns (update_role_body role_id data st).2.
Proof.
  intros (Hun & Hem & Hrn & Hpn). unfold update_role_body.
  destruct (Role_query_get st role_id) as [role|] eqn:Hget; simpl;
    [| by split_and!].
  apply Role_query_get_Some in Hget as (row & Hrow & ->).
  destruct data as [dn dd dp]. simpl.
  destruct dn as [n|]; simpl.
  - destruct (role_name_taken n role_id st) eqn:Hn; simpl; [by split_and! |].
    pose proof (taken_false_free col_role_name n role_id (role_table st) Hn)
      as Hfree.
    destruct dp as [ids|]; simpl;
      [destruct (query_ids_in ids (permission_table st)); simpl;
       [by split_and! |] |];
      (split_and!; simpl; try done;
       (apply unique_on_insert; [done |]); by destruct dd).
  - destruct dp as [ids|]; simpl;
      [destruct (query_ids_in ids (permission_table st)); simpl;
       [by split_and! |] |];
      (split_and!; simpl; try done;
       apply (unique_on_insert_same _ _ _ _ row); try done; by destruct dd).
Qed.

Lemma delete_role_body_unique (role_id : Z) (st : State) :
  unique_columns st → unique_columns (delete_role_body role_id st).2.
Proof.
  intros (Hun & Hem & Hrn & Hpn). unfold delete_role_body.
  destruct (Role_query_get st role_id) as [role|]; simpl; [| by split_and!].
  destruct (negb _); simpl; [by split_and! |].
  split_and!; simpl; try done; by apply unique_on_delete.
Qed.

Lemma create_permission_body_unique (data : permission_data) (st : State) :
  unique_columns st → unique_columns (create_permission_body data st).2.
Proof.
  intros (Hun & Hem & Hrn & Hpn). unfold create_permission_body.
  destruct (negb (truthy_str (perm_name data))); simpl; [by split_and! |].
  destruct (permission_name_exists _ st) eqn:Hfree; simpl; [by split_and! |].
  rewrite permission_name_exists_false in Hfree.
  split_and!; simpl; try done.
  apply unique_on_insert; [done |]. intros k a _ Hk. by apply (Hfree k).
Qed.

Lemma update_permission_body_unique (permission_id : Z) (data : permission_data)
    (st : State) :
  unique_columns st → unique_columns (update_permission_body permission_id data st).2.
Proof.
  intros (Hun & Hem & Hrn & Hpn).
  destruct (update_permission_body_state permission_id data st)
    as [-> | (row & Hrow & Hn & ->)]; [by split_and! |].
  split_and!; simpl; try done.
  destruct (perm_name data) as [v|]; simpl.
  - apply unique_on_insert; [done |]. simpl.
    exact (proj1 (taken_false col_permission_name v permission_id
                    (permission_table st)) (Hn v eq_refl)).
  - by apply (unique_on_insert_same _ _ _ _ row).
Qed.

Lemma delete_permission_body_unique (permission_id : Z) (st : State) :
  unique_columns st → unique_columns (delete_permission_body permission_id st).2.
Proof.
  intros (Hun & Hem & Hrn & Hpn). unfold delete_permission_body.
  destruct (Permission_query_get st permission_id) as [permission|]; simpl;
    [| by split_and!].
  destruct (negb _); simpl; [by split_and! |].
  split_and!; simpl; try done; by apply unique_on_delete.
Qed.

Lemma handle_unique_columns (utcnow : Utcnow) (req : Main.request) (st : State) :
  unique_columns st → unique_columns (Main.handle utcnow req st).2.
Proof.
  intros Huniq. destruct req; simpl;
    try (apply (jwt_required_preserves unique_columns); [done |]);
    try (apply (require_permission_preserves unique_columns); [done |]).
  - by apply register_unique.
  - by rewrite login_state_unchanged.
  - done.
  - unfold get_profile. by destruct (User_query_get st (jwt_identity token)).
  - by apply update_profile_unique.
  - by apply change_password_unique.
  - unfold forgot_password. destruct (truthy_str data_email); simpl; [| done].
    by destruct (find_by_email _ st).
  - by apply reset_password_unique.
  - by apply create_user_body_unique.
  - unfold get_user_body. by destruct (User_query_get st user_id).
  - by apply update_user_body_unique.
  - by apply delete_user_body_unique.
  - apply (unique_columns_same_tables st); [| | | done];
      unfold assign_role_to_user_body; view_branches; done.
  - apply (unique_columns_same_tables st); [| | | done];
      unfold remove_role_from_user_body; view_branches; done.
  - by apply create_role_body_unique.
  - unfold get_role_body. by destruct (Role_query_get st role_id).
  - by apply update_role_body_unique.
  - by apply delete_role_body_unique.
  - apply (unique_columns_same_tables st); [| | | done];
      unfold assign_permission_to_role_body; view_branches; done.
  - apply (unique_columns_same_tables st); [| | | done];
      unfold remove_permission_from_role_body; view_branches; done.
  - by apply create_permission_body_unique.
  - unfold get_permission_body. by destruct (Permission_query_get st permission_id).
  - by apply update_permission_body_unique.
  - by apply delete_permission_body_unique.
Qed.

End UniqueColumns.

Lemma unique_columns_seed : unique_columns Seed.state.
Proof.
  split_and!; apply unique_on_NoDup;
    (eapply bool_decide_unpack; vm_compute; exact I).
Qed.

Lemma foreign_keys_empty : foreign_keys SeedData.empty.
Proof. split; intros ? ? Hin; simpl in Hin; set_solver. Qed.

Lemma unique_columns_empty : unique_columns SeedData.empty.
Proof. split_and!; intros i j a b Ha; simpl in Ha; by rewrite lookup_empty in Ha. Qed.

(** X19.  However many of the modelled requests are served, one after
    the other, in whatever order and with whatever bodies, every row of
    [user_roles] and of [role_permissions] keeps pointing at a user,
    role and permission that exist: the deletes take or refuse the
    association rows, and the writes only ever add rows to existing
    entities.  (SQLite is not asked to enforce the foreign keys; the
    views do it.) *)
Theorem requests_keep_foreign_keys `{Bcrypt} `{JWT} `{Sqlite} (st : State)
    (reqs : list (Utcnow * Main.request)) :
  foreign_keys st → foreign_keys (Main.serve_all reqs st).
Proof.
  revert st. induction reqs as [|[utcnow req] reqs IH]; intros st Hfk; simpl;
    [done |].
  apply IH. by apply handle_foreign_keys.
Qed.

Lemma requests_keep_foreign_keys_witness :
  foreign_keys
    (Main.serve_all
       [(Seed.utcnow, Main.DeleteUser (mk_Jwt 1 "jti-1") 3);
        (Seed.utcnow,
         Main.CreateRole (mk_Jwt 1 "jti-1")
           (mk_create_role_data (Some "Auditor") None (Some [1; 99]%Z)));
        (Seed.utcnow_later, Main.DeletePermission (mk_Jwt 1 "jti-1") 9)]
       Seed.state).
Proof. apply requests_keep_foreign_keys. apply foreign_keys_seed. Defined.

(** X20.  The checks that precede every insert and update are enough
    to keep the [unique=True] columns unique: served one after the
    other, no sequence of requests makes two users share a username or
    an e-mail address, two roles a name, or two permissions a name. *)
Theorem requests_keep_unique_columns `{Bcrypt} `{JWT} `{Sqlite} (st : State)
    (reqs : list (Utcnow * Main.request)) :
  unique_columns st → unique_columns (Main.serve_all reqs st).
Proof.
  revert st. induction reqs as [|[utcnow req] reqs IH]; intros st Huniq; simpl;
    [done |].
  apply IH. by apply handle_unique_columns.
Qed.

Lemma requests_keep_unique_columns_witness :
  unique_columns
    (Main.serve_all
       [(Seed.utcnow,
         Main.Register (mk_register_data (Some "alice") (Some "alice@hrms.com")
                          (Some "pw") None None));
        (Seed.utcnow,
         Main.UpdateUser (mk_Jwt 1 "jti-1") 2
           (mk_update_user_data (Some "alice") None None None None None None));
        (Seed.utcnow_later,
         Main.UpdateProfile (mk_Jwt 3 "jti-3")
           (mk_update_profile_data None None (Some "alice@hrms.com")))]
       Seed.state).
Proof. apply requests_keep_unique_columns. apply unique_columns_seed. Defined.

(** ** Renaming a permission *)

(** X21.  The gates go by the permission's name, not its id.  When a
    permission is renamed through [PUT /permissions/<id>] (names being
    unique), whoever passed [require_permission] for the old name passes
    it for the new name and nobody passes it for the old name any more;
    all other names are unaffected.  Renaming one of the nine names the
    routes ask for therefore closes those routes to everybody. *)
Theorem rename_moves_the_gate (st : State) (identity permission_id : Z)
    (old new : string) (row : permission_row) :
  unique_on col_permission_name (permission_table st) →
  authorized st identity "permission_write" →
  permission_table st !! permission_id = Some row →
  col_permission_name row = old →
  new ≠ old →
  permission_name_taken new permission_id st = false →
  ∃ body st',
    update_permission identity permission_id (mk_permission_data (Some new) None) st
    = ((body, 200%Z), st')
    ∧ (∀ who, authorized st' who new ↔ authorized st who old)
    ∧ (∀ who, ¬ authorized st' who old)
    ∧ (∀ who p, p ≠ old → p ≠ new → authorized st' who p ↔ authorized st who p).
Proof.
  intros Huniq Hauth Hrow Hold Hne Hfree.
  pose proof (proj1 (taken_false col_permission_name new permission_id
                       (permission_table st)) Hfree) as Hnew.
  set (row' := mk_permission_row new (col_permission_description row)).
  set (st' := set_permission_table (<[permission_id := row']>) st).
  assert (∃ body, update_permission_body permission_id
                    (mk_permission_data (Some new) None) st = ((body, 200%Z), st'))
    as [body Hrun].
  { unfold update_permission_body, Permission_query_get. rewrite Hrow. simpl.
    rewrite Hfree. simpl. eexists. reflexivity. }
  assert (∀ who q,
            authorized st' who q
            ↔ is_Some (user_table st !! who)
              ∧ ∃ rid p r,
                  (who, rid) ∈ user_roles st ∧ is_Some (role_table st !! rid)
                  ∧ (rid, p) ∈ role_permissions st
                  ∧ <[permission_id := row']> (permission_table st) !! p = Some r
                  ∧ col_permission_name r = q) as Hafter
    by (intros; apply authorized_tables).
  exists body, st'. split_and!.
  - unfold update_permission. by rewrite require_permission_authorized.
  - intros who. rewrite Hafter, authorized_tables. split.
    + intros [Hu (rid & p & r & H1 & H2 & H3 & H4 & H5)]. split; [done |].
      destruct (decide (p = permission_id)) as [-> | Hp].
      * exists rid, permission_id, row. done.
      * rewrite lookup_insert_ne in H4 by done. by destruct (Hnew p r).
    + intros [Hu (rid & p & r & H1 & H2 & H3 & H4 & H5)]. split; [done |].
      assert (p = permission_id) as ->
        by (apply (Huniq p permission_id r row); congruence).
      exists rid, permission_id, row'. rewrite lookup_insert_eq. done.
  - intros who. rewrite Hafter.
    intros [_ (rid & p & r & _ & _ & _ & H4 & H5)].
    destruct (decide (p = permission_id)) as [-> | Hp].
    + rewrite lookup_insert_eq in H4. injection H4 as <-. simpl in H5. done.
    + rewrite lookup_insert_ne in H4 by done.
      apply Hp. apply (Huniq p permission_id r row); congruence.
  - intros who p Hpo Hpn. rewrite Hafter, authorized_tables. split.
    + intros [Hu (rid & q & r & H1 & H2 & H3 & H4 & H5)]. split; [done |].
      destruct (decide (q = permission_id)) as [-> | Hq].
      * rewrite lookup_insert_eq in H4. injection H4 as <-. simpl in H5. done.
      * rewrite lookup_insert_ne in H4 by done. by exists rid, q, r.
    + intros [Hu (rid & q & r & H1 & H2 & H3 & H4 & H5)]. split; [done |].
      destruct (decide (q = permission_id)) as [-> | Hq].
      * congruence.
      * exists rid, q, r. by rewrite lookup_insert_ne.
Qed.

Lemma rename_moves_the_gate_witness :
  ∃ body st',
    update_permission 1 3 (mk_permission_data (Some "user_remove") None) Seed.state
    = ((body, 200%Z), st')
    ∧ delete_user 1 3 st'
      = ((error_body "Insufficient permissions", 403%Z), st').
Proof.
  destruct (rename_moves_the_gate Seed.state 1 3 "user_delete" "user_remove"
              (mk_permission_row "user_delete" "Delete users"))
    as (body & st' & Hrun & _ & Hclosed & _).
  - apply unique_columns_seed.
  - eexists; split; vm_compute; reflexivity.
  - reflexivity.
  - reflexivity.
  - discriminate.
  - reflexivity.
  - exists body, st'. split; [exact Hrun |].
    assert (st' = (update_permission 1 3
                     (mk_permission_data (Some "user_remove") None) Seed.state).2)
      as Hst by (by rewrite Hrun).
    destruct (User_query_get st' 1) as [caller|] eqn:Hget.
    + unfold delete_user, require_permission. rewrite Hget.
      destruct (has_permission caller "user_delete") eqn:Hperm; [| done].
      exfalso. apply (Hclosed 1%Z). by exists caller.
    + rewrite Hst in Hget. vm_compute in Hget. discriminate Hget.
Defined.

(** ** A deleted user's token *)

(** X22.  Deleting a user does not revoke the user's tokens, but they
    stop opening anything: after the delete, every permission-gated
    route called with the deleted identity answers 404 "User not found"
    and does nothing, and so do the three profile routes. *)
Theorem deleted_user_is_locked_out `{Bcrypt} (st st' : State)
    (identity user_id : Z) :
  delete_user identity user_id st
  = ((message_body "User deleted successfully", 200%Z), st') →
  (∀ p f, require_permission p f user_id st'
          = ((error_body "User not found", 404%Z), st'))
  ∧ get_profile user_id st' = ((error_body "User not found", 404%Z), st')
  ∧ (∀ utcnow data, update_profile utcnow user_id data st'
                    = ((error_body "User not found", 404%Z), st'))
  ∧ (∀ utcnow data, change_password utcnow user_id data st'
                    = ((error_body "User not found", 404%Z), st'))
  ∧ blacklisted_tokens st' = blacklisted_tokens st.
Proof.
  intros Hrun.
  assert (user_table st' !! user_id = None
          ∧ blacklisted_tokens st' = blacklisted_tokens st) as [Hgone Hsame].
  { unfold delete_user, require_permission in Hrun.
    destruct (User_query_get st identity) as [caller|]; [| by injection Hrun].
    destruct (has_permission caller "user_delete"); simpl in Hrun;
      [| by injection Hrun].
    unfold delete_user_body in Hrun.
    case_bool_decide; simpl in Hrun; [by injection Hrun |].
    destruct (User_query_get st user_id) as [user|] eqn:Hget; simpl in Hrun;
      [| by injection Hrun].
    injection Hrun as <-. pose proof (User_query_get_id _ _ _ Hget) as Hid.
    simpl. rewrite Hid. split; [apply lookup_delete_eq | done]. }
  apply User_query_get_None in Hgone. split_and!; try done.
  - intros p f. unfold require_permission. by rewrite Hgone.
  - unfold get_profile. by rewrite Hgone.
  - intros utcnow data. unfold update_profile. by rewrite Hgone.
  - intros utcnow data. unfold change_password. by rewrite Hgone.
Qed.

Lemma deleted_user_is_locked_out_witness :
  get_user 3 1 (delete_user 1 3 Seed.state).2
  = ((error_body "User not found", 404%Z), (delete_user 1 3 Seed.state).2).
Proof.
  eapply (deleted_user_is_locked_out Seed.state _ 1 3).
  vm_compute. reflexivity.
Defined.

(** ** src/main.py: init_database *)

Lemma foldl_add_permission_noop (st : State) (data : list (string * string)) :
  (∀ p, p ∈ data → permission_name_exists p.1 st = true) →
  foldl Main.add_permission_if_missing st data = st.
Proof.
  induction data as [|p data IH]; simpl; [done |]. intros Hall.
  unfold Main.add_permission_if_missing at 2.
  rewrite (Hall p) by left. apply IH. intros q Hq. apply Hall. by right.
Qed.

Lemma foldl_add_role_noop (st : State) (data : list (string * string)) :
  (∀ r, r ∈ data → role_name_exists r.1 st = true) →
  foldl Main.add_role_if_missing st data = st.
Proof.
  induction data as [|r data IH]; simpl; [done |]. intros Hall.
  unfold Main.add_role_if_missing at 2.
  rewrite (Hall r) by left. apply IH. intros q Hq. apply Hall. by right.
Qed.

Lemma find_role_by_name_is_Some (st : State) (v : string) :
  role_name_exists v st = true → is_Some (find_role_by_name v st).
Proof.
  intros Hex. destruct (find_role_by_name v st) as [R|] eqn:Hfind; [eauto |].
  apply find_role_by_name_None in Hfind. congruence.
Qed.

Lemma find_role_by_name_ids (st : State) (v1 v2 : string) (R1 R2 : Role.t) :
  find_role_by_name v1 st = Some R1 →
  find_role_by_name v2 st = Some R2 →
  v1 ≠ v2 → Role.id R1 ≠ Role.id R2.
Proof.
  intros [Hget1 Hn1]%find_role_by_name_Some [Hget2 Hn2]%find_role_by_name_Some
    Hne Hid.
  rewrite Hid in Hget1. congruence.
Qed.

Lemma elem_of_permission_ids_all (st : State) (p : Z) :
  p ∈ Main.permission_ids_all st ↔ is_Some (permission_table st !! p).
Proof.
  unfold Main.permission_ids_all. rewrite list_elem_of_fmap. split.
  - intros ([k row] & -> & Hin). apply elem_of_map_to_list in Hin. eauto.
  - intros [row Hrow]. exists (p, row). split; [done |].
    by apply elem_of_map_to_list.
Qed.

Lemma elem_of_permission_ids_named (names : list string) (st : State) (p : Z) :
  p ∈ Main.permission_ids_named names st
  ↔ ∃ row, permission_table st !! p = Some row ∧ col_permission_name row ∈ names.
Proof.
  unfold Main.permission_ids_named.
  rewrite list_elem_of_fmap. split.
  - intros ([k row] & -> & [Hname Hin]%list_elem_of_filter).
    apply elem_of_map_to_list in Hin. by exists row.
  - intros (row & Hrow & Hname). exists (p, row). split; [done |].
    apply list_elem_of_filter. split; [done | by apply elem_of_map_to_list].
Qed.

(** [role.permissions = permissions] on a role loaded from [st0], in a
    state that has the same rows for that role. *)
Lemma assign_permissions_rows (R : Role.t) (new : list Z) (st0 st : State) :
  Role_query_get st0 (Role.id R) = Some R →
  (∀ p, (Role.id R, p) ∈ role_permissions st
        ↔ (Role.id R, p) ∈ role_permissions st0) →
  let st' := Main.assign_permissions (Some R) new st in
  (∀ p, is_Some (permission_table st0 !! p) →
        (Role.id R, p) ∈ role_permissions st' ↔ p ∈ new)
  ∧ (∀ r p, r ≠ Role.id R →
            (r, p) ∈ role_permissions st' ↔ (r, p) ∈ role_permissions st).
Proof.
  intros Hget Hsame st'. subst st'. simpl.
  pose proof (Role_query_get_permissions _ _ _ Hget) as Hperms.
  split.
  - intros p Hp. rewrite elem_of_assoc_replace. split; [| intros ?; by left].
    intros [[_ Hnew] | [Hold Hnot]]; [done |]. exfalso. apply Hnot.
    split; [done |]. rewrite Hperms. apply loaded_permission_ids.
    split; [by apply Hsame | done].
  - intros r p Hne. rewrite elem_of_assoc_replace. split.
    + intros [[-> _] | [Hin _]]; done.
    + intros Hin. right. split; [done |]. by intros [-> _].
Qed.

(** X23.  [init_database] runs at every start of the application.  On a
    database it has set up before (the nine permissions and the three
    roles are there, by name) it inserts nothing and leaves users, roles,
    permissions and the users' roles alone, but it rewrites the
    permissions of the three default roles: afterwards Admin has every
    permission that exists, HR exactly those named [user_read],
    [user_write], [role_read], Employee exactly [user_read], whatever
    they had been given or denied through the API; the permissions of
    all other roles stay. *)
Theorem init_database_resets_defaults (st : State) :
  booted st →
  let st' := Main.init_database st in
  user_table st' = user_table st
  ∧ role_table st' = role_table st
  ∧ permission_table st' = permission_table st
  ∧ user_roles st' = user_roles st
  ∧ reset_tokens st' = reset_tokens st
  ∧ blacklisted_tokens st' = blacklisted_tokens st
  ∧ ∃ admin hr employee,
      find_role_by_name "Admin" st = Some admin
      ∧ find_role_by_name "HR" st = Some hr
      ∧ find_role_by_name "Employee" st = Some employee
      ∧ (∀ p row,
           permission_table st !! p = Some row →
           (Role.id admin, p) ∈ role_permissions st'
           ∧ ((Role.id hr, p) ∈ role_permissions st'
              ↔ col_permission_name row ∈ ["user_read"; "user_write"; "role_read"])
           ∧ ((Role.id employee, p) ∈ role_permissions st'
              ↔ col_permission_name row = "user_read"))
      ∧ (∀ r p, r ≠ Role.id admin → r ≠ Role.id hr → r ≠ Role.id employee →
                (r, p) ∈ role_permissions st' ↔ (r, p) ∈ role_permissions st).
Proof.
  intros [Hperms Hroles] st'. subst st'. unfold Main.init_database.
  rewrite (foldl_add_permission_noop st) by done.
  rewrite (foldl_add_role_noop st) by done.
  destruct (find_role_by_name_is_Some st "Admin") as [admin Hadmin];
    [apply (Hroles ("Admin", "System administrator with full access"));
     unfold Main.roles_data; set_solver |].
  destruct (find_role_by_name_is_Some st "HR") as [hr Hhr];
    [apply (Hroles ("HR", "Human resources manager"));
     unfold Main.roles_data; set_solver |].
  destruct (find_role_by_name_is_Some st "Employee") as [employee Hemployee];
    [apply (Hroles ("Employee", "Regular employee"));
     unfold Main.roles_data; set_solver |].
  rewrite Hadmin, Hhr, Hemployee.
  pose proof (find_role_by_name_ids _ _ _ _ _ Hadmin Hhr ltac:(done)) as Hah.
  pose proof (find_role_by_name_ids _ _ _ _ _ Hadmin Hemployee ltac:(done)) as Hae.
  pose proof (find_role_by_name_ids _ _ _ _ _ Hhr Hemployee ltac:(done)) as Hhe.
  apply find_role_by_name_Some in Hadmin as Hadmin'. destruct Hadmin' as [Hga _].
  apply find_role_by_name_Some in Hhr as Hhr'. destruct Hhr' as [Hgh _].
  apply find_role_by_name_Some in Hemployee as He'. destruct He' as [Hge _].
  set (st1 := Main.assign_permissions (Some admin) (Main.permission_ids_all st) st).
  set (st2 := Main.assign_permissions (Some hr)
                (Main.permission_ids_named ["user_read"; "user_write"; "role_read"]
                   st1) st1).
  set (st3 := Main.assign_permissions (Some employee)
                (Main.permission_ids_named ["user_read"] st2) st2).
  destruct (assign_permissions_rows admin (Main.permission_ids_all st) st st Hga)
    as [Ha_own Ha_other]; [done |]. fold st1 in Ha_own, Ha_other.
  destruct (assign_permissions_rows hr
              (Main.permission_ids_named ["user_read"; "user_write"; "role_read"] st1)
              st st1 Hgh) as [Hh_own Hh_other].
  { intros p. apply Ha_other. by apply not_eq_sym. }
  fold st2 in Hh_own, Hh_other.
  destruct (assign_permissions_rows employee
              (Main.permission_ids_named ["user_read"] st2) st st2 Hge)
    as [He_own He_other].
  { intros p. rewrite Hh_other by (by apply not_eq_sym).
    apply Ha_other. by apply not_eq_sym. }
  fold st3 in He_own, He_other.
  split_and!; try done.
  exists admin, hr, employee. split_and!; try done.
  - intros p row Hrow. split_and!.
    + rewrite He_other, Hh_other by done. apply Ha_own; [eauto |].
      apply elem_of_permission_ids_all. eauto.
    + rewrite He_other by done. rewrite Hh_own by eauto.
      rewrite elem_of_permission_ids_named. split.
      * intros (row' & Hrow' & Hname). simpl in Hrow'. congruence.
      * intros Hname. by exists row.
    + rewrite He_own by eauto. rewrite elem_of_permission_ids_named. split.
      * intros (row' & Hrow' & Hname). simpl in Hrow'.
        apply list_elem_of_singleton in Hname. congruence.
      * intros Hname. exists row. split; [done |].
        by apply list_elem_of_singleton.
  - intros r p Hra Hrh Hre.
    rewrite He_other, Hh_other, Ha_other by done. done.
Qed.

Lemma init_database_resets_defaults_witness :
  let st := (assign_permission_to_role 1 3 (Some 5%Z) Seed.state).2 in
  (3, 5)%Z ∈ role_permissions st
  ∧ ((3, 5)%Z ∉ role_permissions (Main.init_database st))
  ∧ (3, 1)%Z ∈ role_permissions (Main.init_database st).
Proof.
  intros st.
  assert (booted st) as Hbooted.
  { split; intros p Hp.
    - unfold Main.permissions_data in Hp.
      repeat (apply elem_of_cons in Hp as [-> | Hp]; [reflexivity |]).
      by apply elem_of_nil in Hp.
    - unfold Main.roles_data in Hp.
      repeat (apply elem_of_cons in Hp as [-> | Hp]; [reflexivity |]).
      by apply elem_of_nil in Hp. }
  destruct (init_database_resets_defaults st Hbooted)
    as (_ & _ & _ & _ & _ & _ & admin & hr & employee & _ & _ & Hemp & Hrows & _).
  assert (Role.id employee = 3%Z) as Hid.
  { vm_compute in Hemp. by injection Hemp as <-. }
  rewrite Hid in Hrows. split_and!.
  - apply elem_of_related. vm_compute. in_list.
  - intros Hin.
    destruct (Hrows 5%Z (mk_permission_row "role_write" "Create and update roles"))
      as (_ & _ & Hemployee); [reflexivity |].
    apply Hemployee in Hin. discriminate Hin.
  - destruct (Hrows 1%Z (mk_permission_row "user_read" "Read user information"))
      as (_ & _ & Hemployee); [reflexivity |].
    by apply Hemployee.
Defined.

(** ** src/seed_data.py *)

Section Seeding.
Context `{Bcrypt}.








End Seeding.



(** The seeded database is what the start-up code and the seeding
    script produce from an empty one, and running the start-up code
    again on it changes nothing. *)
Lemma seed_state_from_code :
  SeedData.main
    (mk_Utcnow "2025-03-03T08:15:02.104512" "2025-03-03T08:15:02.104519")
    (mk_Utcnow "2025-03-03T08:15:02.391770" "2025-03-03T08:15:02.391776")
    (mk_Utcnow "2025-03-03T08:15:02.391781" "2025-03-03T08:15:02.391783")
    (Main.init_database SeedData.empty) = SeedData.Returned Seed.state
  ∧ Main.init_database Seed.state = Seed.state.
Proof. split; vm_compute; reflexivity. Qed.

(** ** Names on update *)

Lemma taken_by_other {A : Type} (column : A → string) (v : string) (id k : Z)
    (row : A) (table : gmap Z A) :
  table !! k = Some row → column row = v → k ≠ id →
  bool_decide (is_Some (query_first
    (λ k row, bool_decide (column row = v) && negb (bool_decide (k = id))) table))
  = true.
Proof.
  intros Hrow Hv Hne. apply query_exists_true. exists k, row. split; [done |].
  rewrite bool_decide_eq_true_2, bool_decide_eq_false_2 by done. done.
Qed.

Lemma not_taken_by_self {A : Type} (column : A → string) (id : Z) (row : A)
    (table : gmap Z A) :
  unique_on column table → table !! id = Some row →
  bool_decide (is_Some (query_first
    (λ k r, bool_decide (column r = column row) && negb (bool_decide (k = id)))
    table)) = false.
Proof.
  intros Huniq Hrow. apply taken_false. intros k r Hne Hk Hcol.
  apply Hne. by apply (Huniq k id r row).
Qed.

(** X25.  On update, a name is in conflict only when another row has
    it.  Sending a role, a permission or a user the name (username) of
    a different one is refused with 400 and nothing is written; sending
    it its own current name is accepted with 200 and (names being
    unique) leaves the database exactly as it was, [updated_at] of the
    user included. *)
Theorem update_name_conflicts `{Bcrypt} `{Sqlite} (utcnow : Utcnow) (st : State)
    (identity id : Z) :
  (∀ row other row',
     authorized st identity "role_write" →
     role_table st !! id = Some row → role_table st !! other = Some row' →
     (other ≠ id →
      update_role identity id
        (mk_update_role_data (Some (col_role_name row')) None None) st
      = ((error_body "Role name already exists", 400%Z), st))
     ∧ (unique_on col_role_name (role_table st) →
        ∃ body, update_role identity id
                  (mk_update_role_data (Some (col_role_name row)) None None) st
                = ((body, 200%Z), st)))
  ∧ (∀ row other row',
       authorized st identity "permission_write" →
       permission_table st !! id = Some row →
       permission_table st !! other = Some row' →
       (other ≠ id →
        update_permission identity id
          (mk_permission_data (Some (col_permission_name row')) None) st
        = ((error_body "Permission name already exists", 400%Z), st))
       ∧ (unique_on col_permission_name (permission_table st) →
          ∃ body, update_permission identity id
                    (mk_permission_data (Some (col_permission_name row)) None) st
                  = ((body, 200%Z), st)))
  ∧ (∀ row other row',
       authorized st identity "user_write" →
       user_table st !! id = Some row → user_table st !! other = Some row' →
       (other ≠ id →
        update_user utcnow identity id
          (mk_update_user_data (Some (col_username row')) None None None None
             None None) st
        = ((error_body "Username already exists", 400%Z), st))
       ∧ (unique_on col_username (user_table st) →
          ∃ body, update_user utcnow identity id
                    (mk_update_user_data (Some (col_username row)) None None None
                       None None None) st
                  = ((body, 200%Z), st))).
Proof.
  split_and!; intros row other row' Hauth Hrow Hother; split.
  - intros Hne. unfold update_role. rewrite require_permission_authorized by done.
    unfold update_role_body, Role_query_get. rewrite Hrow. simpl.
    unfold role_name_taken.
    by rewrite (taken_by_other col_role_name _ id other row').
  - intros Huniq. unfold update_role. rewrite require_permission_authorized by done.
    unfold update_role_body, Role_query_get. rewrite Hrow. simpl.
    unfold role_name_taken. rewrite (not_taken_by_self col_role_name) by done.
    simpl. eexists. f_equal. apply State_eq; simpl; try done.
    apply insert_id. by destruct row.
  - intros Hne. unfold update_permission.
    rewrite require_permission_authorized by done.
    unfold update_permission_body, Permission_query_get. rewrite Hrow. simpl.
    unfold permission_name_taken.
    by rewrite (taken_by_other col_permission_name _ id other row').
  - intros Huniq. unfold update_permission.
    rewrite require_permission_authorized by done.
    unfold update_permission_body, Permission_query_get. rewrite Hrow. simpl.
    unfold permission_name_taken.
    rewrite (not_taken_by_self col_permission_name) by done.
    simpl. eexists. f_equal. apply State_eq; simpl; try done.
    apply insert_id. by destruct row.
  - intros Hne. unfold update_user. rewrite require_permission_authorized by done.
    unfold update_user_body, User_query_get. rewrite Hrow. simpl.
    unfold username_taken.
    by rewrite (taken_by_other col_username _ id other row').
  - intros Huniq. unfold update_user. rewrite require_permission_authorized by done.
    unfold update_user_body, User_query_get. rewrite Hrow. simpl.
    unfold username_taken. rewrite (not_taken_by_self col_username) by done.
    simpl. unfold session_update_user. simpl.
    rewrite bool_decide_eq_true_2 by done. eexists. reflexivity.
Qed.

Lemma update_name_conflicts_witness :
  update_role 1 3 (mk_update_role_data (Some "HR") None None) Seed.state
  = ((error_body "Role name already exists", 400%Z), Seed.state)
  ∧ ∃ body, update_role 1 3 (mk_update_role_data (Some "Employee") None None)
              Seed.state = ((body, 200%Z), Seed.state).
Proof.
  destruct (update_name_conflicts Seed.utcnow Seed.state 1 3) as (Hrole & _).
  destruct (Hrole (mk_role_row "Employee" "Regular employee") 2%Z
              (mk_role_row "HR" "Human resources manager")) as [Hconflict Hself].
  - eexists; split; vm_compute; reflexivity.
  - reflexivity.
  - reflexivity.
  - split; [apply Hconflict; discriminate |].
    apply Hself. apply unique_columns_seed.
Defined.

(** ** A change of permissions and the next request *)

(** X26.  A permission assigned to a role works at once: when
    [POST /roles/<id>/permissions] answers 200, every user holding the
    role passes [require_permission] for the permission's name in the
    state it leaves, so a route that answered them 403 for lack of it
    runs on the next request. *)
Theorem assignment_opens_the_gate (st st' : State) (identity role_id : Z)
    (permission_id : Z) (row : permission_row) (body : json) :
  assign_permission_to_role identity role_id (Some permission_id) st
  = ((body, 200%Z), st') →
  permission_table st !! permission_id = Some row →
  ∀ who, (who, role_id) ∈ user_roles st →
         is_Some (user_table st !! who) →
         authorized st' who (col_permission_name row)
         ∧ ∀ f, require_permission (col_permission_name row) f who st' = f st'.
Proof.
  intros Hrun Hrow who Hheld Hwho.
  assert (assign_permission_to_role_body role_id (Some permission_id) st
          = ((body, 200%Z), st')) as Hbody.
  { unfold assign_permission_to_role, require_permission in Hrun.
    destruct (User_query_get st identity) as [caller|]; [| by injection Hrun].
    destruct (has_permission caller "role_write"); simpl in Hrun; [done |].
    by injection Hrun. }
  assert (user_table st' = user_table st ∧ user_roles st' = user_roles st)
    as [Hu Hur].
  { unfold assign_permission_to_role_body in Hbody. revert Hbody.
    view_branches; intros Heq; simplify_eq; done. }
  assert (authorized st' who (col_permission_name row)) as Hauth.
  { destruct (User_query_get st' who) as [U|] eqn:Hload.
    - exists U. split; [done |].
      by apply (assign_permission_takes_effect st st' role_id permission_id
                  body who U row).
    - unfold User_query_get in Hload. rewrite Hu in Hload.
      destruct Hwho as [r Hr]. by rewrite Hr in Hload. }
  split; [done |]. intros f. by apply require_permission_authorized.
Qed.

Lemma assignment_opens_the_gate_witness :
  let alice := mk_register_data (Some "alice") (Some "alice@hrms.com") (Some "pw")
                 None None in
  let new_role := mk_create_role_data (Some "Auditor") None None in
  let st1 := (register Seed.utcnow alice Seed.state).2 in
  let st2 := (assign_permission_to_role 1 3 (Some 5%Z) st1).2 in
  (create_role 4 new_role st1).1 = (error_body "Insufficient permissions", 403%Z)
  ∧ status (create_role 4 new_role st2).1 = 201%Z.
Proof.
  intros alice new_role st1 st2. split; [vm_compute; reflexivity |].
  edestruct (assignment_opens_the_gate st1 st2 1 3 5
               (mk_permission_row "role_write" "Create and update roles"))
    as [_ Hgate].
  - vm_compute. reflexivity.
  - reflexivity.
  - apply (elem_of_related_back _ 3 4). vm_compute. in_list.
  - vm_compute. eauto.
  - unfold create_role. simpl in Hgate. rewrite Hgate. vm_compute. reflexivity.
Defined.

(** ** No guard on one's own roles *)

(** X27.  Only the delete of one's own account is guarded.  A caller
    with [user_write] may take a role away from themselves like from
    anybody else; if it was their only role, the call answers 200 and
    from then on every permission-gated route answers that caller 403,
    the one that would give the role back included. *)
Theorem self_demotion_is_allowed (st : State) (identity role_id : Z) :
  authorized st identity "user_write" →
  (identity, role_id) ∈ user_roles st →
  is_Some (role_table st !! role_id) →
  (∀ r, (identity, r) ∈ user_roles st → r = role_id) →
  ∃ body st',
    remove_role_from_user identity identity role_id st = ((body, 200%Z), st')
    ∧ (∀ p, ¬ authorized st' identity p)
    ∧ (∀ p f, require_permission p f identity st'
              = ((error_body "Insufficient permissions", 403%Z), st')).
Proof.
  intros Hauth Hheld Hrole Honly.
  pose proof (authorized_user_exists _ _ _ Hauth) as Huser.
  pose proof Huser as [user Hu]%User_query_get_is_Some.
  pose proof Hrole as [role Hr]%Role_query_get_is_Some.
  pose proof (Role_query_get_id _ _ _ Hr) as Hid.
  set (st' := set_user_roles (assoc_remove identity role_id) st).
  assert (∃ body, remove_role_from_user_body identity role_id st
                  = ((body, 200%Z), st')) as [body Hrun].
  { unfold remove_role_from_user_body. rewrite Hu. simpl. rewrite Hr. simpl.
    rewrite (User_query_get_roles _ _ _ Hu).
    assert (role_in role (User_roles st identity) = true) as ->
      by (apply role_in_User_roles; by rewrite Hid).
    rewrite Hid. eexists. reflexivity. }
  assert (∀ p, ¬ authorized st' identity p) as Hnone.
  { intros p [_ (rid & _ & _ & Hur & _)]%authorized_tables.
    simpl in Hur. unfold assoc_remove in Hur.
    apply elem_of_difference in Hur as [Hin Hnot].
    apply Hnot. rewrite (Honly _ Hin). set_solver. }
  exists body, st'. split_and!.
  - unfold remove_role_from_user. by rewrite require_permission_authorized.
  - done.
  - intros p f. unfold require_permission.
    destruct (User_query_get st' identity) as [U|] eqn:Hload.
    + destruct (has_permission U p) eqn:Hperm; [| done].
      exfalso. apply (Hnone p). by exists U.
    + unfold User_query_get in Hload. simpl in Hload.
      destruct Huser as [r Hrow]. by rewrite Hrow in Hload.
Qed.

Lemma self_demotion_is_allowed_witness :
  ∃ body st',
    remove_role_from_user 1 1 1 Seed.state = ((body, 200%Z), st')
    ∧ (assign_role_to_user 1 1 (Some 1%Z) st').1
      = (error_body "Insufficient permissions", 403%Z).
Proof.
  destruct (self_demotion_is_allowed Seed.state 1 1)
    as (body & st' & Hrun & _ & Hlocked).
  - eexists; split; vm_compute; reflexivity.
  - apply elem_of_related. vm_compute. in_list.
  - vm_compute. eauto.
  - intros r Hin%elem_of_related. vm_compute in Hin.
    by apply list_elem_of_singleton in Hin.
  - exists body, st'. split; [exact Hrun |].
    unfold assign_role_to_user. by rewrite Hlocked.
Defined.
